(** * Forge: weekly statistics and goal-alignment engine

    A shallow embedding of the date helpers ([utils/date-helpers.ts]), the
    weekly statistics calculator ([utils/weekly-stats.ts]), the calorie
    colour classifiers of the presentation layer and the week navigation of
    the dashboard and analytics screens.

    JavaScript numbers are IEEE 754 binary64 values: they are modelled by
    Rocq's primitive floats, so that division by zero, infinities, NaN and
    the two zeros behave as they do in the program.  A [Date] is its time
    value, an integral number of milliseconds since the epoch (UTC); local
    time is UTC shifted by a constant zone offset (daylight saving changes
    are not modelled). *)

From Stdlib Require Import ZArith Lia List String Ascii Bool Floats DecimalString.
From stdpp Require Import base option gmap strings.

Local Open Scope string_scope.
Local Open Scope Z_scope.

(** ** The JavaScript runtime: numbers and strings *)

Module JS.

(** A [number]. *)
Abbreviation number := float (only parsing).

(** [ToBoolean] on a number: [0], [-0] and [NaN] are falsy. *)
Definition truthy (x : number) : bool :=
  negb (PrimFloat.eqb x 0 || PrimFloat.is_nan x).

(** [v || 0] for a property that may be missing ([undefined], [null]). *)
Definition or_zero (v : option number) : number :=
  match v with
  | Some x => if truthy x then x else 0%float
  | None => 0%float
  end.

(** An integer that a binary64 mantissa holds, as a number. *)
Definition of_Z (z : Z) : number :=
  let a := PrimFloat.of_uint63 (Uint63.of_Z (Z.abs z)) in
  if z <? 0 then PrimFloat.opp a else a.

(** [xs.length] of an array, as a number. *)
Definition of_nat (n : nat) : number := of_Z (Z.of_nat n).

(** [Math.round]: the integer closest to [x], ties towards +infinity;
    NaN, the infinities and the zeros are returned unchanged, and a
    negative [x >= -0.5] rounds to [-0]. *)
Definition Math_round (x : number) : number :=
  match Prim2SF x with
  | S754_finite s m e =>
      if 0 <=? e then x
      else
        let twice := if s then - (2 * Z.pos m) else 2 * Z.pos m in
        let q := (twice + 2 ^ (- e)) / 2 ^ (1 - e) in
        if q =? 0 then (if s then (-0)%float else 0%float) else of_Z q
  | _ => x
  end.

Definition Math_abs (x : number) : number := PrimFloat.abs x.

(** [Math.min(x, y)]: NaN when either is; of the two zeros, the negative
    one. *)
Definition Math_min (x y : number) : number :=
  if PrimFloat.is_nan x || PrimFloat.is_nan y then PrimFloat.nan
  else if PrimFloat.ltb y x then y
  else if PrimFloat.ltb x y then x
  else if PrimFloat.ltb (1 / x) 0 then x else y.

(** [String(n)] for an integer [n]. *)
Definition String_of_Z (z : Z) : string := NilZero.string_of_int (Z.to_int z).

Fixpoint repeat_char (c : ascii) (n : nat) : string :=
  match n with
  | O => EmptyString
  | S k => String c (repeat_char c k)
  end.

(** [s.padStart(n, c)] with a one-character filler. *)
Definition padStart (s : string) (n : nat) (c : ascii) : string :=
  (repeat_char c (n - String.length s) ++ s)%string.

(** [a < b] and [a > b] on strings: code units compared left to right. *)
Definition str_lt (a b : string) : bool := String.ltb a b.
Definition str_gt (a b : string) : bool := String.ltb b a.

(** [s.split(sep)[0]]: everything before the first separator. *)
Fixpoint split_head (sep : ascii) (s : string) : string :=
  match s with
  | EmptyString => EmptyString
  | String c r => if Ascii.eqb c sep then EmptyString else String c (split_head sep r)
  end.

(** [a <= b] on strings. *)
Definition str_le (a b : string) : bool := String.leb a b.

End JS.

(** ** ECMAScript time values and the proleptic Gregorian calendar *)

Module Time.

Definition msPerDay : Z := 86400000.
Definition msPerHour : Z := 3600000.
Definition msPerMinute : Z := 60000.
Definition msPerSecond : Z := 1000.

(** [Day(t)] and [TimeWithinDay(t)]. *)
Definition Day (t : Z) : Z := t / msPerDay.
Definition TimeWithinDay (t : Z) : Z := t mod msPerDay.

(** [MakeDate(day, time)]. *)
Definition MakeDate (day time : Z) : Z := day * msPerDay + time.

(** [WeekDay(t)]: 0 is Sunday; day 0 (1 January 1970) was a Thursday. *)
Definition WeekDayOfDay (day : Z) : Z := (day + 4) mod 7.

Definition HourFromTime (t : Z) : Z := (t / msPerHour) mod 24.
Definition MinFromTime (t : Z) : Z := (t / msPerMinute) mod 60.
Definition SecFromTime (t : Z) : Z := (t / msPerSecond) mod 60.
Definition msFromTime (t : Z) : Z := t mod msPerSecond.

(** The civil date (year, month 1..12, day of month) of a day number,
    counting 400-year eras from 1 March of year 0. *)
Definition civil_from_days (n : Z) : Z * Z * Z :=
  let z := n + 719468 in
  let era := z / 146097 in
  let doe := z - era * 146097 in
  let yoe := (doe - doe / 1460 + doe / 36524 - doe / 146096) / 365 in
  let doy := doe - (365 * yoe + yoe / 4 - yoe / 100) in
  let mp := (5 * doy + 2) / 153 in
  let d := doy - (153 * mp + 2) / 5 + 1 in
  let m := if mp <? 10 then mp + 3 else mp - 9 in
  (yoe + era * 400 + (if m <=? 2 then 1 else 0), m, d).

(** The day number of a civil date; [d] may lie outside the month, the
    day number then runs on into the neighbouring months. *)
Definition days_from_civil (y m d : Z) : Z :=
  let y' := y - (if m <=? 2 then 1 else 0) in
  let era := y' / 400 in
  let yoe := y' - era * 400 in
  let doy := (153 * (if 2 <? m then m - 3 else m + 9) + 2) / 5 + d - 1 in
  let doe := yoe * 365 + yoe / 4 - yoe / 100 + doy in
  era * 146097 + doe - 719468.

Definition YearOfDay (n : Z) : Z := fst (fst (civil_from_days n)).
(** Months are numbered 0..11 by the Date getters. *)
Definition MonthOfDay (n : Z) : Z := snd (fst (civil_from_days n)) - 1.
Definition DateOfDay (n : Z) : Z := snd (civil_from_days n).

(** [MakeDay(year, month, date)] for a month in 0..11 or beyond. *)
Definition MakeDay (year month date : Z) : Z :=
  let ym := year + month / 12 in
  let mn := month mod 12 in
  days_from_civil ym (mn + 1) 1 + date - 1.

(** ECMAScript's own [DayFromYear], the day number of 1 January. *)
Definition DayFromYear (y : Z) : Z :=
  365 * (y - 1970) + (y - 1969) / 4 - (y - 1901) / 100 + (y - 1601) / 400.

End Time.

(** ** The [Date] object *)

Module Date.

Import JS Time.

(** A [Date] with a valid time value is that value; an invalid one
    ([NaN]) only arises from parsing and is [None] there. *)
Abbreviation t := Z (only parsing).

Definition pad2 (n : Z) : string := padStart (String_of_Z n) 2 "0".

Section LocalZone.

(** The offset of local time from UTC, in milliseconds. It is one
    constant: a zone is modelled without clock changes. In a zone with
    daylight saving the runtime takes the offset in force at the instant
    converted, so what is proved here about two instants on either side
    of a clock change holds for their local calendar days, not for the
    hour between them. *)
Variable LocalTZA : Z.

Definition LocalTime (d : t) : Z := d + LocalTZA.
Definition UTC (local : Z) : t := local - LocalTZA.

Definition getFullYear (d : t) : Z := YearOfDay (Day (LocalTime d)).
Definition getMonth (d : t) : Z := MonthOfDay (Day (LocalTime d)).
Definition getDate (d : t) : Z := DateOfDay (Day (LocalTime d)).
Definition getDay (d : t) : Z := WeekDayOfDay (Day (LocalTime d)).
Definition getHours (d : t) : Z := HourFromTime (LocalTime d).

(** [d.setDate(date)]: the day of the month is replaced, in local
    time; a value outside the month carries into the next or the
    previous one. The new time value is returned. *)
Definition setDate (d : t) (date : Z) : t :=
  let local := LocalTime d in
  UTC (MakeDate (MakeDay (YearOfDay (Day local)) (MonthOfDay (Day local)) date)
                (TimeWithinDay local)).

(** [d.setHours(0, 0, 0, 0)]. *)
Definition setHours_midnight (d : t) : t :=
  UTC (MakeDate (Day (LocalTime d)) 0).

End LocalZone.

(** [d.toISOString()], always in UTC. *)
Definition toISOString (d : t) : string :=
  let '(y, m, dd) := civil_from_days (Day d) in
  let year :=
    if ((0 <=? y) && (y <=? 9999))%Z then padStart (String_of_Z y) 4 "0"
    else ((if (y <? 0)%Z then "-" else "+") ++ padStart (String_of_Z (Z.abs y)) 6 "0")%string in
  (year ++ "-" ++ pad2 m ++ "-" ++ pad2 dd ++ "T"
     ++ pad2 (HourFromTime d) ++ ":" ++ pad2 (MinFromTime d) ++ ":"
     ++ pad2 (SecFromTime d) ++ "."
     ++ padStart (String_of_Z (msFromTime d)) 3 "0" ++ "Z")%string.

Definition digit_val (c : ascii) : option Z :=
  let n := Z.of_N (N_of_ascii c) in
  if (48 <=? n) && (n <=? 57) then Some (n - 48) else None.

Definition DaysInMonth (y m : Z) : Z := MakeDay y m 1 - MakeDay y (m - 1) 1.

(** [new Date(s)] for a date-only string [YYYY-MM-DD], the only form
    the program passes: midnight UTC of that date. Any other string is
    taken as unparseable here, also the date-time strings and the days
    past the end of a month (such as 30 February) that a runtime may
    accept; the program only passes dates that it has written itself. *)
Definition parse (s : string) : option t :=
  match s with
  | String y3 (String y2 (String y1 (String y0 (String "-"
      (String m1 (String m0 (String "-" (String d1 (String d0 EmptyString))))))))) =>
      a ← digit_val y3; b ← digit_val y2; c ← digit_val y1; e ← digit_val y0;
      f ← digit_val m1; g ← digit_val m0; h ← digit_val d1; i ← digit_val d0;
      let y := 1000 * a + 100 * b + 10 * c + e in
      let m := 10 * f + g in
      let dd := 10 * h + i in
      if (1 <=? m) && (m <=? 12) && (1 <=? dd) && (dd <=? DaysInMonth y m)
      then Some (MakeDate (MakeDay y (m - 1) dd) 0)
      else None
  | _ => None
  end.

(** [d.toLocaleDateString('en-US', { weekday: 'short' })] for the weekday
    number [wd] of [d]. *)
Definition weekday_short (wd : Z) : string :=
  if (wd =? 0)%Z then "Sun" else if (wd =? 1)%Z then "Mon" else if (wd =? 2)%Z then "Tue"
  else if (wd =? 3)%Z then "Wed" else if (wd =? 4)%Z then "Thu"
  else if (wd =? 5)%Z then "Fri" else "Sat".

(** [new Date(s + 'T00:00:00')] for a date-only string [s]: a date-time
    without offset is read as local time, here midnight local time of
    that date. *)
Definition parse_local_midnight (LocalTZA : Z) (s : string) : option t :=
  d ← parse s; Some (UTC LocalTZA d).

End Date.

(** ** date-fns: the three functions the program imports *)

Module DateFns.

Import JS Time.

Section LocalZone.

Variable LocalTZA : Z.

(** [addDays(date, amount)]. *)
Definition addDays (date : Date.t) (amount : Z) : Date.t :=
  if amount =? 0 then date
  else Date.setDate LocalTZA date (Date.getDate LocalTZA date + amount).

(** [startOfWeek(date, { weekStartsOn })]. *)
Definition startOfWeek (date : Date.t) (weekStartsOn : Z) : Date.t :=
  let day := Date.getDay LocalTZA date in
  let diff := (if day <? weekStartsOn then 7 else 0) + day - weekStartsOn in
  Date.setHours_midnight LocalTZA
    (Date.setDate LocalTZA date (Date.getDate LocalTZA date - diff)).

(** [addLeadingZeros(number, targetLength)]. *)
Definition addLeadingZeros (n : Z) (targetLength : nat) : string :=
  ((if (n <? 0)%Z then "-" else "")
     ++ padStart (String_of_Z (Z.abs n)) targetLength "0")%string.

(** [format(date, 'yyyy-MM-dd')]: local components, the year of the
    era on four digits at least. *)
Definition format_yyyy_MM_dd (date : Date.t) : string :=
  let signedYear := Date.getFullYear LocalTZA date in
  let year := (if 0 <? signedYear then signedYear else 1 - signedYear)%Z in
  (addLeadingZeros year 4 ++ "-"
     ++ addLeadingZeros (Date.getMonth LocalTZA date + 1) 2 ++ "-"
     ++ addLeadingZeros (Date.getDate LocalTZA date) 2)%string.

End LocalZone.

End DateFns.

(** ** utils/date-helpers.ts *)

Module DateHelpers.

Import JS.

Section LocalZone.

Variable LocalTZA : Z.

(** [formatDateToString(date)]. *)
Definition formatDateToString (date : Date.t) : string :=
  let year := Date.getFullYear LocalTZA date in
  let month := padStart (String_of_Z (Date.getMonth LocalTZA date + 1)%Z) 2 "0" in
  let day := padStart (String_of_Z (Date.getDate LocalTZA date)) 2 "0" in
  (String_of_Z year ++ "-" ++ month ++ "-" ++ day)%string.

(** [getAppDate(date)]; the caller's clock supplies [now] when the
    argument is omitted. *)
Definition getAppDate (now : Date.t) : string :=
  if (Date.getHours LocalTZA now <? 3)%Z then
    let yesterday := Date.setDate LocalTZA now (Date.getDate LocalTZA now - 1)%Z in
    formatDateToString yesterday
  else formatDateToString now.

(** [getTodayDate], the deprecated alias. *)
Definition getTodayDate : Date.t -> string := getAppDate.

End LocalZone.

End DateHelpers.

(** ** The shared types ([FoodEntry], [DayData], [WeeklyStats]) *)

Module FoodEntry.
(** A logged meal. [calories] and [protein] are numbers in the type
    declaration; the program still guards them with [|| 0], so a missing
    value is representable. *)
Record t : Type := mk {
  id : string;
  entry_date : string;
  name : string;
  calories : option JS.number;
  protein : option JS.number
}.
End FoodEntry.

Module DayData.
Record t : Type := mk {
  date : string;
  calories : JS.number;
  protein : JS.number;
  entries : list FoodEntry.t
}.
End DayData.

Module Stats.
Record averages_t : Type := mkAverages { calories : JS.number; protein : JS.number }.
Record deficit_t : Type := mkDeficit { daily : JS.number; weekly : JS.number }.
Record t : Type := mk {
  dailyData : list DayData.t;
  averages : averages_t;
  deficit : deficit_t;
  daysLogged : nat
}.
End Stats.

(** ** utils/weekly-stats.ts *)

Module WeeklyStats.

Import JS.

(** The accumulator of the [reduce] over a day's entries. *)
Record totals_t : Type := mkTotals { calories : number; protein : number }.

Definition add_entry (acc : totals_t) (entry : FoodEntry.t) : totals_t :=
  {| calories := (calories acc + or_zero (FoodEntry.calories entry))%float;
     protein := (protein acc + or_zero (FoodEntry.protein entry))%float |}.

Definition sum_entries (entries : list FoodEntry.t) : totals_t :=
  fold_left add_entry entries {| calories := 0%float; protein := 0%float |}.

(** The filter [day.date < today && day.calories > 0]: the days that
    enter the averages. *)
Definition completedDaysWithFood (today : string) (dailyData : list DayData.t)
    : list DayData.t :=
  List.filter (fun day => str_lt (DayData.date day) today
                          && PrimFloat.ltb 0 (DayData.calories day)) dailyData.

Section LocalZone.

Variable LocalTZA : Z.

(** [getWeekStart(date)]; a string argument goes through [new Date],
    and [None] stands for the Invalid Date that results when it does
    not parse. *)
Definition getWeekStart (date : Date.t + string) : option Date.t :=
  let d := match date with
           | inr s => Date.parse s
           | inl d => Some d
           end in
  d ← d; Some (DateFns.startOfWeek LocalTZA d 1).

(** One round of the loop over [i = 0 .. 6]: the state is the array
    [dailyData] built so far and the counter [daysLogged]. *)
Definition day_step (weekStart : Date.t) (allData : gmap string (list FoodEntry.t))
    (st : list DayData.t * nat) (i : Z) : list DayData.t * nat :=
  let '(dailyData, daysLogged) := st in
  let date := DateFns.addDays LocalTZA weekStart i in
  let dateStr := DateFns.format_yyyy_MM_dd LocalTZA date in
  let entries := default [] (allData !! dateStr) in
  let daysLogged := if (0 <? length entries)%nat then S daysLogged else daysLogged in
  let totals := sum_entries entries in
  ((dailyData ++ [DayData.mk dateStr (calories totals) (protein totals) entries])%list,
   daysLogged).

(** The body of [getWeeklyStats] after the awaited fetch. *)
Definition weekly_stats_of (today : string) (weekStart : Date.t)
    (targetCalories maintenanceCalories : number)
    (allData : gmap string (list FoodEntry.t)) : Stats.t :=
  let '(dailyData, daysLogged) :=
    fold_left (day_step weekStart allData) [0; 1; 2; 3; 4; 5; 6] ([], 0%nat) in
  let completed := completedDaysWithFood today dailyData in
  let avgCaloriesTotal :=
    fold_left (fun sum day => (sum + DayData.calories day)%float) completed 0%float in
  let avgProteinTotal :=
    fold_left (fun sum day => (sum + DayData.protein day)%float) completed 0%float in
  let avgDaysCount := length completed in
  let avgCalories :=
    if (0 <? avgDaysCount)%nat then Math_round (avgCaloriesTotal / of_nat avgDaysCount)%float
    else 0%float in
  let avgProtein :=
    if (0 <? avgDaysCount)%nat then Math_round (avgProteinTotal / of_nat avgDaysCount)%float
    else 0%float in
  let dailyDeficit := (avgCalories - maintenanceCalories)%float in
  let weeklyDeficit :=
    if (0 <? avgDaysCount)%nat then (dailyDeficit * of_nat avgDaysCount)%float else 0%float in
  {| Stats.dailyData := dailyData;
     Stats.averages := {| Stats.calories := avgCalories; Stats.protein := avgProtein |};
     Stats.deficit := {| Stats.daily := dailyDeficit; Stats.weekly := weeklyDeficit |};
     Stats.daysLogged := daysLogged |}.

(** [getWeeklyStats(weekStart, targetCalories, maintenanceCalories,
    getDataForRange)], run at the instant [now]. The fetch is awaited
    once; when it rejects ([None]) the rejection is the result. *)
Definition getWeeklyStats (now : Date.t) (weekStart : Date.t)
    (targetCalories maintenanceCalories : number)
    (getDataForRange : string -> string -> option (gmap string (list FoodEntry.t)))
    : option Stats.t :=
  let weekEnd := DateFns.addDays LocalTZA weekStart 6 in
  let startDate := DateFns.format_yyyy_MM_dd LocalTZA weekStart in
  let endDate := DateFns.format_yyyy_MM_dd LocalTZA weekEnd in
  let today := DateHelpers.getAppDate LocalTZA now in
  allData ← getDataForRange startDate endDate;
  Some (weekly_stats_of today weekStart targetCalories maintenanceCalories allData).

End LocalZone.

End WeeklyStats.

(** ** components/Totals.tsx: the daily totals widget *)

Module Totals.

Import JS.

Section Props.

(** The component's props; [maintenanceCalories] is optional. *)
Variable entries : list FoodEntry.t.
Variable targetCalories : number.
Variable maintenanceCalories : option number.

Definition totals : WeeklyStats.totals_t := WeeklyStats.sum_entries entries.

(** [!maintenanceCalories]. *)
Definition maintenance_missing : bool :=
  match maintenanceCalories with
  | Some m => negb (truthy m)
  | None => true
  end.

Definition getCalorieColor : string :=
  let calories := WeeklyStats.calories totals in
  if PrimFloat.eqb calories 0 then "#9CA3AF"
  else if PrimFloat.eqb targetCalories 0 then "#9CA3AF"
  else
    match maintenanceCalories with
    | Some maintenance =>
        if negb (truthy maintenance) then
          let percentOfTarget := ((calories / targetCalories) * 100)%float in
          if PrimFloat.ltb 100 percentOfTarget then "#EF4444"
          else if PrimFloat.ltb 90 percentOfTarget then "#F59E0B"
          else "#10A37F"
        else
          let isDeficit := PrimFloat.ltb targetCalories maintenance in
          let isSurplus := PrimFloat.ltb maintenance targetCalories in
          let diff := (calories - targetCalories)%float in
          let percentDiff := ((diff / targetCalories) * 100)%float in
          let isAligned := (isDeficit && PrimFloat.ltb diff 0)
                           || (isSurplus && PrimFloat.ltb 0 diff) in
          if isAligned then
            let absDiff := Math_abs percentDiff in
            if PrimFloat.leb absDiff 10 then "#10A37F"
            else if PrimFloat.leb absDiff 20 then "#F59E0B"
            else if PrimFloat.leb absDiff 30 then "#F97316"
            else "#EF4444"
          else
            let absDiff := Math_abs percentDiff in
            if PrimFloat.leb absDiff 5 then "#10A37F"
            else "#EF4444"
    | None =>
        let percentOfTarget := ((calories / targetCalories) * 100)%float in
        if PrimFloat.ltb 100 percentOfTarget then "#EF4444"
        else if PrimFloat.ltb 90 percentOfTarget then "#F59E0B"
        else "#10A37F"
    end.

Variable targetProtein : number.

(** The fill of the two donut charts, in percent. *)
Definition caloriePercentage : number :=
  if PrimFloat.ltb 0 targetCalories
  then Math_min ((WeeklyStats.calories totals / targetCalories) * 100)%float 100
  else 0%float.

Definition proteinPercentage : number :=
  if PrimFloat.ltb 0 targetProtein
  then Math_min ((WeeklyStats.protein totals / targetProtein) * 100)%float 100
  else 0%float.

Definition getProteinColor : string :=
  let protein := WeeklyStats.protein totals in
  if PrimFloat.eqb protein 0 then "#9CA3AF"
  else if PrimFloat.eqb targetProtein 0 then "#9CA3AF"
  else
    let percentBelow := (((targetProtein - protein) / targetProtein) * 100)%float in
    if PrimFloat.leb percentBelow 10 then "#10A37F"
    else if PrimFloat.leb percentBelow 20 then "#F59E0B"
    else if PrimFloat.leb percentBelow 30 then "#F97316"
    else "#EF4444".

(** The background class that goes with a colour. *)
Definition gradient_of (color : string) : string :=
  if String.eqb color "#10A37F" then "bg-gradient-to-br from-green-50 to-emerald-50"
  else if String.eqb color "#F59E0B" then "bg-gradient-to-br from-yellow-50 to-amber-50"
  else if String.eqb color "#F97316" then "bg-gradient-to-br from-orange-50 to-red-50"
  else if String.eqb color "#EF4444" then "bg-gradient-to-br from-red-50 to-pink-50"
  else "bg-gray-50".

Definition getCalorieGradient : string := gradient_of getCalorieColor.

Definition getProteinGradient : string := gradient_of getProteinColor.

End Props.

End Totals.

(** ** app/(tabs)/index.tsx: the home screen's gradient colour *)

Module Home.

Import JS.

Section State.

Variable entries : list FoodEntry.t.
(** [settings.target_calories] and [settings.maintenance_calories]. *)
Variable target_calories : number.
Variable maintenance_calories : number.

Definition getCalorieColor : string :=
  let calories :=
    fold_left (fun acc entry => (acc + or_zero (FoodEntry.calories entry))%float)
              entries 0%float in
  if PrimFloat.eqb calories 0 || PrimFloat.eqb target_calories 0 then "#9CA3AF"
  else
    let isDeficit := PrimFloat.ltb target_calories maintenance_calories in
    let isSurplus := PrimFloat.ltb maintenance_calories target_calories in
    let diff := (calories - target_calories)%float in
    let percentDiff := ((diff / target_calories) * 100)%float in
    let isAligned := (isDeficit && PrimFloat.ltb diff 0)
                     || (isSurplus && PrimFloat.ltb 0 diff) in
    if isAligned then
      let absDiff := Math_abs percentDiff in
      if PrimFloat.leb absDiff 10 then "#10A37F"
      else if PrimFloat.leb absDiff 20 then "#F59E0B"
      else if PrimFloat.leb absDiff 30 then "#F97316"
      else "#EF4444"
    else
      let absDiff := Math_abs percentDiff in
      if PrimFloat.leb absDiff 5 then "#10A37F"
      else "#EF4444".

End State.

(** [getTodayDate()] and [formatDate(date)] of the screen: the UTC date
    part of the ISO string. *)
Definition getTodayDate (now : Date.t) : string :=
  split_head "T" (Date.toISOString now).

Definition formatDate (date : Date.t) : string :=
  split_head "T" (Date.toISOString date).

Section Navigation.

Variable LocalTZA : Z.

(** [navigateDate(days)] on the state [currentDate], at the instant
    [now]: the state after the call. [None] is the RangeError that
    [toISOString] throws on an Invalid Date. *)
Definition navigateDate (now : Date.t) (currentDate : string) (days : Z) : option string :=
  newDate ← Date.parse currentDate;
  let newDate := Date.setDate LocalTZA newDate (Date.getDate LocalTZA newDate + days) in
  let newDateStr := formatDate newDate in
  let tomorrow := Date.setDate LocalTZA now (Date.getDate LocalTZA now + 1) in
  let tomorrowStr := formatDate tomorrow in
  if str_le newDateStr tomorrowStr then Some newDateStr else Some currentDate.

(** [goToToday()]. *)
Definition goToToday (now : Date.t) : string := getTodayDate now.

End Navigation.

Section Display.

Variable LocalTZA : Z.

(** [date.toLocaleDateString('en-US', { weekday, month, day, year })],
    the long form of a date that has no label of its own. *)
Variable toLocaleDateString : Date.t -> string.

(** [formatDisplayDate(dateStr)] at the instant [now]; [None] is the
    RangeError that [formatDate] throws on an Invalid Date. *)
Definition formatDisplayDate (now : Date.t) (dateStr : string) : option string :=
  let date := Date.parse_local_midnight LocalTZA dateStr in
  let today := Date.parse_local_midnight LocalTZA (getTodayDate now) in
  let yesterday :=
    today ← today; Some (Date.setDate LocalTZA today (Date.getDate LocalTZA today - 1)) in
  let tomorrow :=
    today ← today; Some (Date.setDate LocalTZA today (Date.getDate LocalTZA today + 1)) in
  if String.eqb dateStr (getTodayDate now) then Some "Today"
  else
    yesterday ← yesterday;
    if String.eqb dateStr (formatDate yesterday) then Some "Yesterday"
    else
      tomorrow ← tomorrow;
      if String.eqb dateStr (formatDate tomorrow) then Some "Tomorrow"
      else Some (match date with
                 | Some date => toLocaleDateString date
                 | None => "Invalid Date"
                 end).

End Display.

End Home.

(** ** The weekly bar chart ([WeeklyChart]): the colour of a day's bar *)

Module WeeklyChart.

Import JS.

Section Props.

Variable targetCalories : number.
Variable maintenanceCalories : number.

(** [frontColor] of the entry that [caloriesData] holds for [day]. *)
Definition caloriesFrontColor (day : DayData.t) : string :=
  let calories := DayData.calories day in
  if PrimFloat.eqb calories 0 then "#E5E7EB"
  else
    let isDeficit := PrimFloat.ltb targetCalories maintenanceCalories in
    let isSurplus := PrimFloat.ltb maintenanceCalories targetCalories in
    let diff := (calories - targetCalories)%float in
    let percentDiff := ((diff / targetCalories) * 100)%float in
    let isAligned := (isDeficit && PrimFloat.ltb diff 0)
                     || (isSurplus && PrimFloat.ltb 0 diff) in
    let absDiff := Math_abs percentDiff in
    if isAligned then
      if PrimFloat.leb absDiff 10 then "#4ADE80"
      else if PrimFloat.leb absDiff 20 then "#FBBF24"
      else if PrimFloat.leb absDiff 30 then "#FB923C"
      else "#F87171"
    else
      if PrimFloat.leb absDiff 5 then "#4ADE80"
      else "#F87171".

Variable targetProtein : number.

(** [frontColor] of the entry that [proteinData] holds for [day]. *)
Definition proteinFrontColor (day : DayData.t) : string :=
  let protein := DayData.protein day in
  if PrimFloat.eqb protein 0 then "#E5E7EB"
  else
    let percentBelow := (((targetProtein - protein) / targetProtein) * 100)%float in
    if PrimFloat.leb percentBelow 10 then "#4ADE80"
    else if PrimFloat.leb percentBelow 20 then "#FBBF24"
    else if PrimFloat.leb percentBelow 30 then "#FB923C"
    else "#F87171".

(** The bars of the protein chart as rendered: the component returns
    [null] for an empty [dailyData], and the protein chart is only
    rendered under [targetProtein > 0]. *)
Definition proteinChart (dailyData : list DayData.t) : option (list string) :=
  match dailyData with
  | [] => None
  | _ :: _ =>
      if PrimFloat.ltb 0 targetProtein then Some (map proteinFrontColor dailyData)
      else None
  end.

Variable LocalTZA : Z.

(** [getDayName(dateStr)]: the short weekday name, in local time, of
    [new Date(dateStr)]; an Invalid Date prints as such. *)
Definition getDayName (dateStr : string) : string :=
  match Date.parse dateStr with
  | Some date => Date.weekday_short (Date.getDay LocalTZA date)
  | None => "Invalid Date"
  end.

End Props.

End WeeklyChart.

(** ** app/(tabs)/analytics.tsx: the admin grid and its week selector *)

Module Analytics.

Import JS.

(** [getCaloriesColor(calories, target, maintenance)]. *)
Definition getCaloriesColor (calories target maintenance : number) : string :=
  if PrimFloat.eqb calories 0 then "bg-gray-100 text-gray-500"
  else
    let isDeficit := PrimFloat.ltb target maintenance in
    let isSurplus := PrimFloat.ltb maintenance target in
    let diff := (calories - target)%float in
    let percentDiff := ((diff / target) * 100)%float in
    let isAligned := (isDeficit && PrimFloat.ltb diff 0)
                     || (isSurplus && PrimFloat.ltb 0 diff) in
    if isAligned then
      let absDiff := Math_abs percentDiff in
      if PrimFloat.leb absDiff 10 then "bg-green-100 text-green-700"
      else if PrimFloat.leb absDiff 20 then "bg-yellow-100 text-yellow-700"
      else if PrimFloat.leb absDiff 30 then "bg-orange-100 text-orange-700"
      else "bg-red-100 text-red-700"
    else
      let absDiff := Math_abs percentDiff in
      if PrimFloat.leb absDiff 5 then "bg-green-100 text-green-700"
      else "bg-red-100 text-red-700".

Section LocalZone.

Variable LocalTZA : Z.

(** [const getTodayDate = getAppDate]. *)
Definition getTodayDate (now : Date.t) : string := DateHelpers.getAppDate LocalTZA now.

(** [getWeekStart(new Date(getTodayDate()))]. *)
Definition currentWeekStart (now : Date.t) : option Date.t :=
  WeeklyStats.getWeekStart LocalTZA (inr (getTodayDate now)).

(** [navigateWeek(direction)] on the state [weekStart], at the instant
    [now]: the state after the call. An early [return] leaves the
    state as it was; [None] is the RangeError that formatting an
    Invalid Date throws. *)
Definition navigateWeek (now : Date.t) (weekStart : Date.t) (direction : Z)
    : option Date.t :=
  let newWeekStart :=
    Date.setDate LocalTZA weekStart (Date.getDate LocalTZA weekStart + direction * 7) in
  if 0 <? direction then
    current ← currentWeekStart now;
    if str_gt (DateFns.format_yyyy_MM_dd LocalTZA newWeekStart)
              (DateFns.format_yyyy_MM_dd LocalTZA current)
    then Some weekStart
    else Some newWeekStart
  else Some newWeekStart.

End LocalZone.

(** [getProteinColor(protein, target)]. *)
Definition getProteinColor (protein target : number) : string :=
  if PrimFloat.eqb protein 0 then "bg-gray-100 text-gray-500"
  else
    let percentBelow := (((target - protein) / target) * 100)%float in
    if PrimFloat.leb percentBelow 10 then "bg-green-100 text-green-700"
    else if PrimFloat.leb percentBelow 20 then "bg-yellow-100 text-yellow-700"
    else if PrimFloat.leb percentBelow 30 then "bg-orange-100 text-orange-700"
    else "bg-red-100 text-red-700".

Section DeficitDisplay.

(** The rendering of a number inside a template literal. *)
Variable Number_toString : number -> string.

(** [getDeficitDisplay(dailyDeficit, targetCal, maintenance)]: the pair
    of [label] and [color]. *)
Definition getDeficitDisplay (dailyDeficit targetCal maintenance : number)
    : string * string :=
  let isCutting := PrimFloat.ltb targetCal maintenance in
  let isBulking := PrimFloat.ltb maintenance targetCal in
  let isDeficit := PrimFloat.ltb dailyDeficit 0 in
  let isSurplus := PrimFloat.ltb 0 dailyDeficit in
  if isDeficit then
    ((Number_toString (Math_abs dailyDeficit) ++ " cal deficit")%string,
     if isCutting then "text-green-700" else "text-red-700")
  else if isSurplus then
    ((Number_toString (Math_abs dailyDeficit) ++ " cal surplus")%string,
     if isBulking then "text-green-700" else "text-red-700")
  else ("Maintenance", "text-gray-700").

End DeficitDisplay.

(** A row of the coach analytics: the user's goals and the seven day
    columns of the week. *)
Record CoachAnalyticsRow : Type := mkRow {
  user_id : string;
  target_calories : number;
  maintenance_calories : number;
  target_protein : number;
  d1_calories : number; d1_protein : number;
  d2_calories : number; d2_protein : number;
  d3_calories : number; d3_protein : number;
  d4_calories : number; d4_protein : number;
  d5_calories : number; d5_protein : number;
  d6_calories : number; d6_protein : number;
  d7_calories : number; d7_protein : number
}.

(** The columns [d<dayNum>_calories] and [d<dayNum>_protein]; any other
    property name is [undefined]. *)
Definition column_calories (user : CoachAnalyticsRow) (dayNum : Z) : option number :=
  if dayNum =? 1 then Some (d1_calories user) else if dayNum =? 2 then Some (d2_calories user)
  else if dayNum =? 3 then Some (d3_calories user)
  else if dayNum =? 4 then Some (d4_calories user)
  else if dayNum =? 5 then Some (d5_calories user)
  else if dayNum =? 6 then Some (d6_calories user)
  else if dayNum =? 7 then Some (d7_calories user) else None.

Definition column_protein (user : CoachAnalyticsRow) (dayNum : Z) : option number :=
  if dayNum =? 1 then Some (d1_protein user) else if dayNum =? 2 then Some (d2_protein user)
  else if dayNum =? 3 then Some (d3_protein user)
  else if dayNum =? 4 then Some (d4_protein user)
  else if dayNum =? 5 then Some (d5_protein user)
  else if dayNum =? 6 then Some (d6_protein user)
  else if dayNum =? 7 then Some (d7_protein user) else None.

(** A day cell of the grid for the columns [cal] and [pro] of a row: a
    dash ([None]) when [cal === 0], otherwise the classes of the calories
    figure and of the protein figure. *)
Definition dayCell (user : CoachAnalyticsRow) (cal pro : number) : option (string * string) :=
  let calColor := getCaloriesColor cal (target_calories user) (maintenance_calories user) in
  let proColor := getProteinColor pro (target_protein user) in
  if PrimFloat.eqb cal 0 then None else Some (calColor, proColor).

Section Week.

Variable LocalTZA : Z.

(** One round of the loop that rebuilds a week of entries from the day
    columns: a positive column becomes one entry named Daily Total. *)
Definition coach_day_step (weekStart : Date.t) (user : CoachAnalyticsRow)
    (entriesByDate : gmap string (list FoodEntry.t)) (i : Z)
    : gmap string (list FoodEntry.t) :=
  let date := DateFns.addDays LocalTZA weekStart i in
  let dateStr := DateFns.format_yyyy_MM_dd LocalTZA date in
  let dayNum := i + 1 in
  let calories := column_calories user dayNum in
  let protein := column_protein user dayNum in
  if match calories with Some c => PrimFloat.ltb 0 c | None => false end
  then <[dateStr := [FoodEntry.mk (user_id user ++ "-" ++ dateStr)%string dateStr
                                  "Daily Total" calories protein]]> entriesByDate
  else <[dateStr := []]> entriesByDate.

Definition coach_entries (weekStart : Date.t) (user : CoachAnalyticsRow)
    : gmap string (list FoodEntry.t) :=
  fold_left (coach_day_step weekStart user) [0; 1; 2; 3; 4; 5; 6] ∅.

(** The statistics of a coach row: [getWeeklyStats] over the rebuilt
    entries. *)
Definition coach_stats (now weekStart : Date.t) (user : CoachAnalyticsRow)
    : option Stats.t :=
  WeeklyStats.getWeeklyStats LocalTZA now weekStart (target_calories user)
    (maintenance_calories user) (fun _ _ => Some (coach_entries weekStart user)).

(** The grouping of [loadWeeklyEntries]: the seven days start empty,
    then every fetched entry is appended under its [entry_date]. *)
Definition group_step (grouped : gmap string (list FoodEntry.t)) (entry : FoodEntry.t)
    : gmap string (list FoodEntry.t) :=
  let key := FoodEntry.entry_date entry in
  match grouped !! key with
  | Some l => <[key := (l ++ [entry])%list]> grouped
  | None => <[key := [entry]]> grouped
  end.

Definition week_of_empty_days (weekStart : Date.t) : gmap string (list FoodEntry.t) :=
  fold_left (fun grouped i =>
               <[DateFns.format_yyyy_MM_dd LocalTZA (DateFns.addDays LocalTZA weekStart i)
                 := []]> grouped)
            [0; 1; 2; 3; 4; 5; 6] ∅.

Definition groupedByDate (weekStart : Date.t) (userEntries : list FoodEntry.t)
    : gmap string (list FoodEntry.t) :=
  fold_left group_step userEntries (week_of_empty_days weekStart).

(** [goToCurrentWeek()]: the new state, [None] being an Invalid Date;
    and [isCurrentWeek()], where [None] is the RangeError of formatting
    an Invalid Date. *)
Definition goToCurrentWeek (now : Date.t) : option Date.t :=
  currentWeekStart LocalTZA now.

Definition isCurrentWeek (now : Date.t) (weekStart : Date.t) : option bool :=
  current ← currentWeekStart LocalTZA now;
  Some (String.eqb (DateFns.format_yyyy_MM_dd LocalTZA weekStart)
                   (DateFns.format_yyyy_MM_dd LocalTZA current)).

End Week.

End Analytics.

(** ** The dashboard screen ([DashboardScreen]) and its week selector *)

Module Dashboard.

Import JS.

(** The screen's own [getTodayDate]:
    [new Date().toISOString().split('T')[0]]. *)
Definition getTodayDate (now : Date.t) : string :=
  split_head "T" (Date.toISOString now).

Section LocalZone.

Variable LocalTZA : Z.

Definition currentWeekStart (now : Date.t) : option Date.t :=
  WeeklyStats.getWeekStart LocalTZA (inr (getTodayDate now)).

(** [navigateWeek(direction)], as in [Analytics]. *)
Definition navigateWeek (now : Date.t) (weekStart : Date.t) (direction : Z)
    : option Date.t :=
  let newWeekStart :=
    Date.setDate LocalTZA weekStart (Date.getDate LocalTZA weekStart + direction * 7) in
  if 0 <? direction then
    current ← currentWeekStart now;
    if str_gt (DateFns.format_yyyy_MM_dd LocalTZA newWeekStart)
              (DateFns.format_yyyy_MM_dd LocalTZA current)
    then Some weekStart
    else Some newWeekStart
  else Some newWeekStart.

End LocalZone.

(** The fetch handed to [getWeeklyStats]: the entries of the range,
    grouped by [entry_date] in the order of arrival. [getRange] is the
    database call; [None] is its rejection. *)
Definition group_step (grouped : gmap string (list FoodEntry.t)) (entry : FoodEntry.t)
    : gmap string (list FoodEntry.t) :=
  let key := FoodEntry.entry_date entry in
  match grouped !! key with
  | Some l => <[key := (l ++ [entry])%list]> grouped
  | None => <[key := [entry]]> grouped
  end.

Definition group_by_date (entries : list FoodEntry.t) : gmap string (list FoodEntry.t) :=
  fold_left group_step entries ∅.

Definition fetch_grouped (getRange : string -> string -> option (list FoodEntry.t))
    (start end_ : string) : option (gmap string (list FoodEntry.t)) :=
  entries ← getRange start end_; Some (group_by_date entries).

(** The colours and labels of the two deficit cards. *)
Record deficit_card : Type := mkCard {
  deficitColor : string;
  weeklyDeficitColor : string;
  deficitLabel : string;
  weeklyDeficitLabel : string;
  deficitBgColor : string;
  weeklyDeficitBgColor : string
}.

Definition deficit_card_of (target_calories maintenance_calories daily : number)
    : deficit_card :=
  let isCutting := PrimFloat.ltb target_calories maintenance_calories in
  let isBulking := PrimFloat.ltb maintenance_calories target_calories in
  let isMaintaining := PrimFloat.eqb target_calories maintenance_calories in
  let isDeficit := PrimFloat.ltb daily 0 in
  let isSurplus := PrimFloat.ltb 0 daily in
  if isDeficit then
    if isCutting || isMaintaining
    then mkCard "text-green-700" "text-green-700" "Avg Daily Deficit" "Weekly Deficit"
                "bg-green-50" "bg-green-50"
    else mkCard "text-red-700" "text-red-700" "Avg Daily Deficit" "Weekly Deficit"
                "bg-red-50" "bg-red-50"
  else if isSurplus then
    if isBulking
    then mkCard "text-green-700" "text-green-700" "Avg Daily Surplus" "Weekly Surplus"
                "bg-green-50" "bg-green-50"
    else mkCard "text-red-700" "text-red-700" "Avg Daily Surplus" "Weekly Surplus"
                "bg-red-50" "bg-red-50"
  else mkCard "text-gray-700" "text-gray-700" "At Maintenance" "At Maintenance"
              "bg-gray-50" "bg-gray-50".

(** The part of the screen's state that [loadStats] writes. *)
Record screen : Type := mkScreen { stats : option Stats.t; loading : bool }.

Section Week.

Variable LocalTZA : Z.

(** The effect's [loadStats], run to its end on the state of the screen
    once the settings are loaded: [setLoading(true)], then inside [try]
    the awaited [getWeeklyStats] and [setStats]; a rejection is caught
    and logged, so the statistics shown before stay; [finally] sets
    [loading] to false. *)
Definition loadStats (now weekStart : Date.t) (target_calories maintenance_calories : number)
    (getRange : string -> string -> option (list FoodEntry.t)) (s : screen) : screen :=
  match WeeklyStats.getWeeklyStats LocalTZA now weekStart target_calories
          maintenance_calories (fetch_grouped getRange) with
  | Some weeklyStats => {| stats := Some weeklyStats; loading := false |}
  | None => {| stats := stats s; loading := false |}
  end.

Definition goToCurrentWeek (now : Date.t) : option Date.t :=
  currentWeekStart LocalTZA now.

Definition isCurrentWeek (now : Date.t) (weekStart : Date.t) : option bool :=
  current ← currentWeekStart LocalTZA now;
  Some (String.eqb (DateFns.format_yyyy_MM_dd LocalTZA weekStart)
                   (DateFns.format_yyyy_MM_dd LocalTZA current)).

End Week.

End Dashboard.

(** ** The food analysis edge function: the start of the week *)

Module EdgeFunction.

Import JS.

Section LocalZone.

(** The zone of the server that runs the function. *)
Variable LocalTZA : Z.

(** [getWeekStart(date)]: Monday of the week in local time, printed
    through [toISOString]. *)
Definition getWeekStart (date : Date.t) : string :=
  let day := Date.getDay LocalTZA date in
  let diff := Date.getDate LocalTZA date - day + (if day =? 0 then -6 else 1) in
  let d := Date.setDate LocalTZA date diff in
  let d := Date.setHours_midnight LocalTZA d in
  split_head "T" (Date.toISOString d).

End LocalZone.

End EdgeFunction.

(** ** The track screen ([TrackScreen]): date navigation *)

Module Track.

Import JS.

Definition getTodayDate (now : Date.t) : string :=
  split_head "T" (Date.toISOString now).

Definition formatDate (date : Date.t) : string :=
  split_head "T" (Date.toISOString date).

Section LocalZone.

Variable LocalTZA : Z.

(** [navigateDate(days)]: future dates are refused. *)
Definition navigateDate (now : Date.t) (currentDate : string) (days : Z) : option string :=
  newDate ← Date.parse currentDate;
  let newDate := Date.setDate LocalTZA newDate (Date.getDate LocalTZA newDate + days) in
  let newDateStr := formatDate newDate in
  let today := getTodayDate now in
  if str_le newDateStr today then Some newDateStr else Some currentDate.

End LocalZone.

Section Display.

Variable LocalTZA : Z.
Variable toLocaleDateString : Date.t -> string.

(** [formatDisplayDate(dateStr)] of the track screen: it has no label
    for tomorrow. *)
Definition formatDisplayDate (now : Date.t) (dateStr : string) : option string :=
  let date := Date.parse_local_midnight LocalTZA dateStr in
  let today := Date.parse_local_midnight LocalTZA (getTodayDate now) in
  let yesterday :=
    today ← today; Some (Date.setDate LocalTZA today (Date.getDate LocalTZA today - 1)) in
  if String.eqb dateStr (getTodayDate now) then Some "Today"
  else
    yesterday ← yesterday;
    if String.eqb dateStr (formatDate yesterday) then Some "Yesterday"
    else Some (match date with
               | Some date => toLocaleDateString date
               | None => "Invalid Date"
               end).

End Display.

End Track.

(** ** The adherence tiers of the specification *)

Module Tier.

Import JS.

Inductive t : Type := on_track | close | needs_work | off_track | no_data.

(** The tier that a colour of the presentation layer stands for: green,
    yellow/amber, orange, red and gray, in the palette of each screen. *)
Definition of_color (c : string) : option t :=
  if String.eqb c "#10A37F" || String.eqb c "#4ADE80"
     || String.eqb c "bg-green-100 text-green-700" then Some on_track
  else if String.eqb c "#F59E0B" || String.eqb c "#FBBF24"
     || String.eqb c "bg-yellow-100 text-yellow-700" then Some close
  else if String.eqb c "#F97316" || String.eqb c "#FB923C"
     || String.eqb c "bg-orange-100 text-orange-700" then Some needs_work
  else if String.eqb c "#EF4444" || String.eqb c "#F87171"
     || String.eqb c "bg-red-100 text-red-700" then Some off_track
  else if String.eqb c "#9CA3AF" || String.eqb c "#E5E7EB"
     || String.eqb c "bg-gray-100 text-gray-500" then Some no_data
  else None.

(** The gradual band of the specification on [|percentDiff|]. *)
Definition gradual_band (absPercent : number) : t :=
  if PrimFloat.leb absPercent 10 then on_track
  else if PrimFloat.leb absPercent 20 then close
  else if PrimFloat.leb absPercent 30 then needs_work
  else off_track.

(** The strict band of the specification. *)
Definition strict_band (absPercent : number) : t :=
  if PrimFloat.leb absPercent 5 then on_track else off_track.

(** The specification's calorie rule for a measured value and a target
    that are both positive, in the specification's words: goal mode,
    signed difference, alignment, then the band. *)
Definition classify_positive (measured target maintenance : number) : t :=
  let isDeficitGoal := PrimFloat.ltb target maintenance in
  let isSurplusGoal := PrimFloat.ltb maintenance target in
  let diff := (measured - target)%float in
  let percentDiff := (diff / target * 100)%float in
  let isAligned := (isDeficitGoal && PrimFloat.ltb diff 0)
                   || (isSurplusGoal && PrimFloat.ltb 0 diff) in
  if isAligned then gradual_band (PrimFloat.abs percentDiff)
  else strict_band (PrimFloat.abs percentDiff).

End Tier.

(** ** The vocabulary of the specification *)

Module Spec.

Import JS Time.

(** The local calendar date (year, month 1..12, day) of an instant. *)
Definition local_calendar_date (LocalTZA : Z) (t : Date.t) : Z * Z * Z :=
  civil_from_days (Day (t + LocalTZA)).

(** The local hour of the day of an instant. *)
Definition local_hour (LocalTZA : Z) (t : Date.t) : Z :=
  HourFromTime (t + LocalTZA).

(** A calendar date written [YYYY-MM-DD]: the year in decimal, the
    month and the day of the month on two digits. *)
Definition date_string (ymd : Z * Z * Z) : string :=
  let '(y, m, d) := ymd in
  (String_of_Z y ++ "-" ++ Date.pad2 m ++ "-" ++ Date.pad2 d)%string.

(** The calendar date one day before the date of day number [n]. *)
Definition previous_calendar_date (LocalTZA : Z) (t : Date.t) : Z * Z * Z :=
  civil_from_days (Day (t + LocalTZA) - 1).

(** The seven date keys of the week that starts at [weekStart]. *)
Definition week_keys (LocalTZA : Z) (weekStart : Date.t) : list string :=
  map (fun i => DateFns.format_yyyy_MM_dd LocalTZA (weekStart + i * msPerDay))
      [0; 1; 2; 3; 4; 5; 6].

(** The entry list fetched for a date key, empty when the key is
    absent. *)
Definition entries_on (allData : gmap string (list FoodEntry.t)) (key : string)
    : list FoodEntry.t :=
  default [] (allData !! key).

(** A day counts as logged when its entry list is not empty. *)
Definition logged (es : list FoodEntry.t) : bool :=
  match es with
  | [] => false
  | _ :: _ => true
  end.

(** The aggregate of the entries fetched for a date key. *)
Definition day_aggregate (allData : gmap string (list FoodEntry.t)) (key : string)
    : DayData.t :=
  let es := entries_on allData key in
  DayData.mk key (WeeklyStats.calories (WeeklyStats.sum_entries es))
             (WeeklyStats.protein (WeeklyStats.sum_entries es)) es.

(** The program's own filter, [completedDaysWithFood], applied to the
    aggregates of the week. The selection that the specification
    describes is [completed_and_nonzero] below, which does not use the
    program's filter. *)
Definition completed (LocalTZA : Z) (today : string) (weekStart : Date.t)
    (allData : gmap string (list FoodEntry.t)) : list DayData.t :=
  WeeklyStats.completedDaysWithFood today
    (map (day_aggregate allData) (week_keys LocalTZA weekStart)).

(** The rule of the totals widget when no maintenance value is usable:
    red above 100% of the target, amber above 90%, green otherwise. *)
Definition percent_of_target_color (calories target : number) : string :=
  let percentOfTarget := ((calories / target) * 100)%float in
  if PrimFloat.ltb 100 percentOfTarget then "#EF4444"
  else if PrimFloat.ltb 90 percentOfTarget then "#F59E0B"
  else "#10A37F".

Definition sum_calories (days : list DayData.t) : number :=
  fold_left (fun sum day => (sum + DayData.calories day)%float) days 0%float.

Definition sum_protein (days : list DayData.t) : number :=
  fold_left (fun sum day => (sum + DayData.protein day)%float) days 0%float.

(** *** The weekly engine, in the words of the specification

    These definitions follow the specification's algorithm and use
    nothing of the program's own functions; the claims compare the
    program with them. *)

(** The current app date: the local calendar date when the local hour is
    at least 3, the calendar date one day earlier otherwise. *)
Definition app_date (LocalTZA : Z) (now : Date.t) : string :=
  date_string (if 3 <=? local_hour LocalTZA now
               then local_calendar_date LocalTZA now
               else previous_calendar_date LocalTZA now).

(** The daily aggregator: the sum of a field over the entries of a day,
    a missing value counting as 0. *)
Definition total (field : FoodEntry.t -> option number) (es : list FoodEntry.t) : number :=
  fold_left (fun sum e => (sum + or_zero (field e))%float) es 0%float.

Definition aggregate (key : string) (es : list FoodEntry.t) : DayData.t :=
  DayData.mk key (total FoodEntry.calories es) (total FoodEntry.protein es) es.

(** The seven aggregates of a week, in order, an absent date having no
    entries. *)
Definition week_aggregates (LocalTZA : Z) (weekStart : Date.t)
    (allData : gmap string (list FoodEntry.t)) : list DayData.t :=
  map (fun key => aggregate key (entries_on allData key)) (week_keys LocalTZA weekStart).

(** The completed-and-nonzero days: [date < today AND calories > 0]. *)
Definition completed_and_nonzero (today : string) (days : list DayData.t)
    : list DayData.t :=
  List.filter (fun day => str_lt (DayData.date day) today
                          && PrimFloat.ltb 0 (DayData.calories day)) days.

(** [round(sum(completed.field) / count(completed))], or 0 if
    [count(completed) == 0]. *)
Definition average (field : DayData.t -> number) (completed : list DayData.t) : number :=
  match completed with
  | [] => 0%float
  | _ :: _ =>
      Math_round (fold_left (fun sum day => (sum + field day)%float) completed 0%float
                  / of_nat (length completed))%float
  end.

(** [dailyDeficit = avgCalories - maintenanceCalories]. *)
Definition daily_deficit (avgCalories maintenanceCalories : number) : number :=
  (avgCalories - maintenanceCalories)%float.

(** [weeklyDeficit = dailyDeficit * count(completed)] if
    [count(completed) > 0], else 0. *)
Definition weekly_deficit (dailyDeficit : number) (completed : list DayData.t) : number :=
  match completed with
  | [] => 0%float
  | _ :: _ => (dailyDeficit * of_nat (length completed))%float
  end.

(** The days logged: the days whose entry list is not empty. *)
Definition days_logged (days : list DayData.t) : nat :=
  length (List.filter (fun day => logged (DayData.entries day)) days).

(** Decimal digits as characters, and numbers on two and on four digits. *)
Definition digit_char (k : Z) : ascii := ascii_of_N (Z.to_N (48 + k)).

Definition digits2 (n : Z) : string :=
  String (digit_char (n / 10)) (String (digit_char (n mod 10)) EmptyString).

Definition digits4 (n : Z) : string :=
  String (digit_char (n / 1000)) (String (digit_char (n / 100 mod 10)) (digits2 (n mod 100))).

(** A civil date in the ten characters [YYYY-MM-DD]. *)
Definition iso_date (ymd : Z * Z * Z) : string :=
  let '(y, m, d) := ymd in
  (digits4 y ++ "-" ++ digits2 m ++ "-" ++ digits2 d)%string.

(** The order of civil dates: by year, then month, then day. *)
Definition date_compare (a b : Z * Z * Z) : comparison :=
  let '(y1, m1, d1) := a in
  let '(y2, m2, d2) := b in
  match y1 ?= y2 with
  | Eq => match m1 ?= m2 with Eq => d1 ?= d2 | c => c end
  | c => c
  end.

(** The number of days before 1 March of year [Y], from 1 March of year 0. *)
Definition days_before_march (Y : Z) : Z := 365 * Y + Y / 4 - Y / 100 + Y / 400.

(** [P] on each of the [len] integers from [lo]. *)
Fixpoint all_from (P : Z -> bool) (lo : Z) (len : nat) : bool :=
  match len with
  | O => true
  | S l => P lo && all_from P (lo + 1) l
  end.

(** The app day of an instant: the number of the local day that started
    at the last 3 AM. *)
Definition app_day (LocalTZA : Z) (t : Date.t) : Z :=
  Time.Day (t + LocalTZA - 3 * Time.msPerHour).

(** The local day number of an instant. *)
Definition local_day (LocalTZA : Z) (t : Date.t) : Z := Time.Day (t + LocalTZA).

(** The years whose dates are written on exactly four digits. *)
Definition four_digit_year (n : Z) : Prop := 1000 <= Time.YearOfDay n <= 9999.

(** The entries that a coach row holds for day [i] of the week (the
    columns [d1] to [d7] are the days 0 to 6): one entry when the
    calories column is positive, none otherwise. *)
Definition coach_day_entries (key : string) (user : Analytics.CoachAnalyticsRow) (i : Z)
    : list FoodEntry.t :=
  if match Analytics.column_calories user (i + 1) with
     | Some c => PrimFloat.ltb 0 c
     | None => false
     end
  then [FoodEntry.mk (Analytics.user_id user ++ "-" ++ key)%string key "Daily Total"
          (Analytics.column_calories user (i + 1)) (Analytics.column_protein user (i + 1))]
  else [].

End Spec.

(** ** Sample inputs *)

Module Sample.

Import JS.

(** A logged meal with the given calories and protein. *)
Definition meal (date : string) (calories protein : number) : FoodEntry.t :=
  FoodEntry.mk "meal" date "Meal" (Some calories) (Some protein).

(** Monday 8 January 2024 and Monday 15 January 2024, midnight UTC. *)
Definition monday_jan_8 : Date.t := 1704672000000.
Definition monday_jan_15 : Date.t := 1705276800000.

(** Monday 15 January 2024, 01:00 UTC: before the 3 AM cutoff. *)
Definition monday_jan_15_1am : Date.t := 1705280400000.

(** Thursday 18 January 2024, 12:00 UTC. *)
Definition thursday_jan_18_noon : Date.t := 1705579200000.

(** Monday to Wednesday logged, Thursday in progress. *)
Definition week_of_jan_15 : gmap string (list FoodEntry.t) :=
  <["2024-01-15" := [meal "2024-01-15" 1800 100]]>
  (<["2024-01-16" := [meal "2024-01-16" 1200 80; meal "2024-01-16" 800 40.5]]>
  (<["2024-01-17" := [meal "2024-01-17" 2200 130]]>
  (<["2024-01-18" := [meal "2024-01-18" 500 10]]> ∅))).

(** Only Thursday, the day in progress, has an entry. *)
Definition only_thursday : gmap string (list FoodEntry.t) :=
  <["2024-01-18" := [meal "2024-01-18" 500 10]]> ∅.

(** A coach row for the week of 15 January: Monday and Wednesday have
    calories, Tuesday has protein only. *)
Definition coach_row : Analytics.CoachAnalyticsRow :=
  Analytics.mkRow "u1" 2000 2500 150 1800 100 0 60 2200 130 0 0 0 0 0 0 0 0.

End Sample.

(** * Facts *)

(** ** The calendar *)

Module TimeFacts.
Import Time.

Lemma days_from_civil_shift y m d k :
  days_from_civil y m (d + k) = days_from_civil y m d + k.
Proof. unfold days_from_civil. lia. Qed.

Lemma civil_from_days_inv n :
  days_from_civil (YearOfDay n) (MonthOfDay n + 1) (DateOfDay n) = n.
Proof.
  unfold YearOfDay, MonthOfDay, DateOfDay, civil_from_days, days_from_civil; cbn [fst snd].
  set (z := n + 719468).
  set (era := z / 146097).
  set (doe := z - era * 146097).
  assert (Hdoe : 0 <= doe < 146097) by (subst doe era; Z.div_mod_to_equations; lia).
  set (yoe := (doe - doe / 1460 + doe / 36524 - doe / 146096) / 365).
  assert (Hyoe : 0 <= yoe <= 399) by (subst yoe; Z.div_mod_to_equations; lia).
  set (doy := doe - (365 * yoe + yoe / 4 - yoe / 100)).
  assert (Hdoy : 0 <= doy <= 365) by (subst doy yoe; Z.div_mod_to_equations; lia).
  set (mp := (5 * doy + 2) / 153).
  assert (Hmp : 0 <= mp <= 11) by (subst mp; Z.div_mod_to_equations; lia).
  assert (Hera : (yoe + era * 400) / 400 = era) by (Z.div_mod_to_equations; lia).
  destruct (Z.ltb_spec mp 10) as [E|E].
  - replace (mp + 3 - 1 + 1) with (mp + 3) by lia.
    destruct (Z.leb_spec (mp + 3) 2); [lia|].
    destruct (Z.ltb_spec 2 (mp + 3)); [|lia].
    replace (yoe + era * 400 + 0 - 0) with (yoe + era * 400) by lia.
    rewrite Hera.
    replace (yoe + era * 400 - era * 400) with yoe by lia.
    replace (mp + 3 - 3) with mp by lia.
    subst doy doe z. lia.
  - replace (mp - 9 - 1 + 1) with (mp - 9) by lia.
    destruct (Z.leb_spec (mp - 9) 2); [|lia].
    destruct (Z.ltb_spec 2 (mp - 9)); [lia|].
    replace (yoe + era * 400 + 1 - 1) with (yoe + era * 400) by lia.
    rewrite Hera.
    replace (yoe + era * 400 - era * 400) with yoe by lia.
    replace (mp - 9 + 9) with mp by lia.
    subst doy doe z. lia.
Qed.

Lemma civil_from_days_ranges n :
  0 <= MonthOfDay n <= 11 /\ 1 <= DateOfDay n <= 31.
Proof.
  unfold MonthOfDay, DateOfDay, civil_from_days; cbn [fst snd].
  set (z := n + 719468).
  set (era := z / 146097).
  set (doe := z - era * 146097).
  assert (Hdoe : 0 <= doe < 146097) by (subst doe era; Z.div_mod_to_equations; lia).
  set (yoe := (doe - doe / 1460 + doe / 36524 - doe / 146096) / 365).
  set (doy := doe - (365 * yoe + yoe / 4 - yoe / 100)).
  assert (Hdoy : 0 <= doy <= 365) by (subst doy yoe; Z.div_mod_to_equations; lia).
  set (mp := (5 * doy + 2) / 153).
  assert (Hmp : 0 <= mp <= 11) by (subst mp; Z.div_mod_to_equations; lia).
  split.
  - destruct (Z.ltb_spec mp 10); lia.
  - subst mp. Z.div_mod_to_equations. lia.
Qed.

Lemma MakeDay_same_month n date :
  MakeDay (YearOfDay n) (MonthOfDay n) date = n - DateOfDay n + date.
Proof.
  unfold MakeDay.
  destruct (civil_from_days_ranges n) as [Hm _].
  rewrite Z.div_small, Z.mod_small by lia.
  rewrite Z.add_0_r.
  pose proof (civil_from_days_inv n) as H.
  replace (DateOfDay n) with (1 + (DateOfDay n - 1)) in H at 1 by lia.
  rewrite days_from_civil_shift in H. lia.
Qed.

(** The year of a day number is the year that ECMAScript's
    [YearFromTime] names: the one whose first day is the latest at or
    before it. *)
Lemma YearOfDay_spec n :
  DayFromYear (YearOfDay n) <= n < DayFromYear (YearOfDay n + 1).
Proof.
  unfold YearOfDay, DayFromYear, civil_from_days; cbn [fst snd].
  set (z := n + 719468).
  set (era := z / 146097).
  set (doe := z - era * 146097).
  assert (Hdoe : 0 <= doe < 146097) by (subst doe era; Z.div_mod_to_equations; lia).
  set (yoe := (doe - doe / 1460 + doe / 36524 - doe / 146096) / 365).
  assert (Hyoe : 0 <= yoe <= 399) by (subst yoe; Z.div_mod_to_equations; lia).
  set (doy := doe - (365 * yoe + yoe / 4 - yoe / 100)).
  assert (Hdoy : 0 <= doy <= 365) by (subst doy yoe; Z.div_mod_to_equations; lia).
  assert (Hlen : doy < 365 + (if yoe =? 399 then 1
                              else if ((yoe mod 4 =? 3) && negb (yoe mod 100 =? 99))%bool
                                   then 1 else 0)).
  { subst doy yoe.
    destruct (Z.eqb_spec ((doe - doe / 1460 + doe / 36524 - doe / 146096) / 365) 399).
    - Z.div_mod_to_equations; lia.
    - destruct (Z.eqb_spec
                  (((doe - doe / 1460 + doe / 36524 - doe / 146096) / 365) mod 4) 3);
        destruct (Z.eqb_spec
                    (((doe - doe / 1460 + doe / 36524 - doe / 146096) / 365) mod 100) 99);
        cbn [andb negb]; Z.div_mod_to_equations; lia. }
  set (mp := (5 * doy + 2) / 153).
  assert (Hn : n = era * 146097 + (365 * yoe + yoe / 4 - yoe / 100) + doy - 719468)
    by (subst doy doe z; lia).
  clearbody doy yoe era. clear Hdoe doe z.
  destruct (Z.ltb_spec mp 10) as [E|E].
  - destruct (Z.leb_spec (mp + 3) 2); [subst mp; Z.div_mod_to_equations; lia|].
    assert (doy <= 305) by (subst mp; Z.div_mod_to_equations; lia).
    clearbody mp.
    destruct (Z.eqb_spec yoe 399);
      [|destruct (Z.eqb_spec (yoe mod 4) 3); destruct (Z.eqb_spec (yoe mod 100) 99);
        cbn [andb negb] in Hlen];
      subst n; Z.div_mod_to_equations; lia.
  - destruct (Z.leb_spec (mp - 9) 2); [|subst mp; Z.div_mod_to_equations; lia].
    assert (306 <= doy) by (subst mp; Z.div_mod_to_equations; lia).
    clearbody mp.
    destruct (Z.eqb_spec yoe 399);
      [|destruct (Z.eqb_spec (yoe mod 4) 3); destruct (Z.eqb_spec (yoe mod 100) 99);
        cbn [andb negb] in Hlen];
      subst n; Z.div_mod_to_equations; lia.
Qed.

Lemma Day_MakeDate day time :
  0 <= time < msPerDay -> Day (MakeDate day time) = day.
Proof. unfold Day, MakeDate, msPerDay. intros. Z.div_mod_to_equations. lia. Qed.

Lemma MakeDate_Day_TimeWithinDay t k :
  MakeDate (Day t + k) (TimeWithinDay t) = t + k * msPerDay.
Proof. unfold Day, MakeDate, TimeWithinDay, msPerDay. Z.div_mod_to_equations. lia. Qed.

End TimeFacts.

(** ** Dates in local time *)

Module DateFacts.

Import Time TimeFacts.

Section LocalZone.

Variable LocalTZA : Z.

(** Moving the day of the month by [k] moves the instant by [k] days. *)
Lemma setDate_getDate d k :
  Date.setDate LocalTZA d (Date.getDate LocalTZA d + k) = d + k * msPerDay.
Proof.
  unfold Date.setDate, Date.getDate, Date.UTC, Date.LocalTime.
  rewrite MakeDay_same_month.
  replace (Day (d + LocalTZA) - DateOfDay (Day (d + LocalTZA))
           + (DateOfDay (Day (d + LocalTZA)) + k))
    with (Day (d + LocalTZA) + k) by lia.
  rewrite MakeDate_Day_TimeWithinDay. lia.
Qed.

Lemma addDays_shift d k : DateFns.addDays LocalTZA d k = d + k * msPerDay.
Proof.
  unfold DateFns.addDays. destruct (Z.eqb_spec k 0) as [->|_]; [lia|].
  apply setDate_getDate.
Qed.

Lemma Day_shift t k : Day (t + k * msPerDay) = Day t + k.
Proof. unfold Day, msPerDay. Z.div_mod_to_equations. lia. Qed.

(** [startOfWeek] with Monday as first day: local midnight of the day
    [(weekday + 6) mod 7] days back. *)
Lemma startOfWeek_monday d :
  DateFns.startOfWeek LocalTZA d 1
  = (Day (d + LocalTZA) - (WeekDayOfDay (Day (d + LocalTZA)) + 6) mod 7) * msPerDay
    - LocalTZA.
Proof.
  unfold DateFns.startOfWeek.
  set (diff := (if Date.getDay LocalTZA d <? 1 then 7 else 0)
               + Date.getDay LocalTZA d - 1).
  replace (Date.getDate LocalTZA d - diff) with (Date.getDate LocalTZA d + - diff) by lia.
  rewrite setDate_getDate.
  unfold Date.setHours_midnight, Date.UTC, Date.LocalTime, MakeDate.
  replace (d + - diff * msPerDay + LocalTZA) with (d + LocalTZA + - diff * msPerDay) by lia.
  rewrite Day_shift.
  assert (Hdiff : diff = (WeekDayOfDay (Day (d + LocalTZA)) + 6) mod 7).
  { subst diff. unfold Date.getDay, Date.LocalTime, WeekDayOfDay.
    destruct (Z.ltb_spec ((Day (d + LocalTZA) + 4) mod 7) 1);
      Z.div_mod_to_equations; lia. }
  rewrite Hdiff. lia.
Qed.

Lemma formatDateToString_date_string d :
  DateHelpers.formatDateToString LocalTZA d
  = Spec.date_string (Spec.local_calendar_date LocalTZA d).
Proof.
  unfold DateHelpers.formatDateToString, Spec.date_string, Spec.local_calendar_date,
    Date.getFullYear, Date.getMonth, Date.getDate, Date.LocalTime, Date.pad2,
    YearOfDay, MonthOfDay, DateOfDay.
  destruct (civil_from_days (Day (d + LocalTZA))) as [[y m] dd]; cbn [fst snd].
  replace (m - 1 + 1) with m by lia. reflexivity.
Qed.

End LocalZone.

End DateFacts.

(** ** Numbers and strings *)

Module JSFacts.

Import JS.

(** A positive number is not zero. *)
Lemma positive_not_zero (x : number) :
  PrimFloat.ltb 0 x = true -> PrimFloat.eqb x 0 = false.
Proof.
  rewrite ltb_spec, FloatAxioms.eqb_spec.
  destruct (Prim2SF x) as [s| | |s m e]; cbn; try discriminate; try reflexivity.
  all: destruct s; cbn; intros _; reflexivity.
Qed.

Lemma compare_refl (s : string) : String.compare s s = Eq.
Proof.
  induction s as [|c s IH]; cbn; [reflexivity|].
  unfold Ascii.compare. rewrite N.compare_refl. exact IH.
Qed.

Lemma str_lt_irrefl (s : string) : str_lt s s = false.
Proof. unfold str_lt, String.ltb. rewrite compare_refl. reflexivity. Qed.

End JSFacts.

(** ** The weekly loop *)

Module WeeklyStatsFacts.

Import JS Time.

Lemma logged_length (es : list FoodEntry.t) :
  (0 <? length es)%nat = Spec.logged es.
Proof. destruct es; reflexivity. Qed.

Lemma length_filter_map {A B : Type} (f : A -> B) (p : B -> bool) (l : list A) :
  length (List.filter (fun x => p (f x)) l) = length (List.filter p (map f l)).
Proof.
  induction l as [|x l IH]; cbn [map List.filter]; [reflexivity|].
  destruct (p (f x)); cbn [length]; rewrite IH; reflexivity.
Qed.

Section LocalZone.

Variable LocalTZA : Z.

Abbreviation key_of weekStart :=
  (fun i : Z => DateFns.format_yyyy_MM_dd LocalTZA (weekStart + i * msPerDay)).

(** The loop appends one aggregate per index and counts the indices
    whose entry list is not empty. *)
Lemma day_step_loop weekStart allData (l : list Z) acc c :
  fold_left (WeeklyStats.day_step LocalTZA weekStart allData) l (acc, c)
  = ((acc ++ map (fun i => Spec.day_aggregate allData (key_of weekStart i)) l)%list,
     (c + length (List.filter
                    (fun i => Spec.logged (Spec.entries_on allData (key_of weekStart i)))
                    l))%nat).
Proof.
  revert acc c. induction l as [|i l IH]; intros acc c; cbn [fold_left map List.filter].
  - rewrite app_nil_r. cbn. f_equal. lia.
  - unfold WeeklyStats.day_step at 2.
    rewrite DateFacts.addDays_shift, logged_length.
    fold (Spec.entries_on allData (key_of weekStart i)).
    rewrite IH. unfold Spec.day_aggregate at 2.
    destruct (Spec.logged (Spec.entries_on allData (key_of weekStart i)));
      cbn [length]; rewrite <- app_assoc; cbn [app]; f_equal; lia.
Qed.

(** [getWeeklyStats] after the fetch, with the loop summed up. *)
Lemma weekly_stats_of_eq today weekStart targetCalories maintenanceCalories allData :
  WeeklyStats.weekly_stats_of LocalTZA today weekStart targetCalories
    maintenanceCalories allData
  = let days := Spec.completed LocalTZA today weekStart allData in
    let n := length days in
    let avgCalories :=
      if (0 <? n)%nat then Math_round (Spec.sum_calories days / of_nat n)%float
      else 0%float in
    let avgProtein :=
      if (0 <? n)%nat then Math_round (Spec.sum_protein days / of_nat n)%float
      else 0%float in
    {| Stats.dailyData :=
         map (Spec.day_aggregate allData) (Spec.week_keys LocalTZA weekStart);
       Stats.averages := {| Stats.calories := avgCalories; Stats.protein := avgProtein |};
       Stats.deficit :=
         {| Stats.daily := (avgCalories - maintenanceCalories)%float;
            Stats.weekly :=
              if (0 <? n)%nat
              then ((avgCalories - maintenanceCalories) * of_nat n)%float
              else 0%float |};
       Stats.daysLogged :=
         length (List.filter (fun key => Spec.logged (Spec.entries_on allData key))
                             (Spec.week_keys LocalTZA weekStart)) |}.
Proof.
  unfold WeeklyStats.weekly_stats_of. rewrite day_step_loop.
  cbn [app Nat.add].
  rewrite <- (List.map_map (key_of weekStart) (Spec.day_aggregate allData)).
  rewrite (length_filter_map (key_of weekStart)
             (fun key => Spec.logged (Spec.entries_on allData key))).
  unfold Spec.completed, Spec.sum_calories, Spec.sum_protein, Spec.week_keys.
  reflexivity.
Qed.

End LocalZone.

End WeeklyStatsFacts.

(** * The claims *)

(** ** The day boundary and the week window *)

(** C5. For every instant [t], [getAppDate t] is the local calendar date
    of [t], written year-month-day from the local components, when the
    local hour is at least 3, and the calendar date one day earlier when
    the local hour is 0, 1 or 2; that earlier date is the local calendar
    date of the instant one day before [t], across month and year ends. *)
Theorem C5_getAppDate_cutoff (LocalTZA : Z) (t : Date.t) :
  0 <= Spec.local_hour LocalTZA t < 24
  /\ DateHelpers.getAppDate LocalTZA t
     = Spec.date_string (if 3 <=? Spec.local_hour LocalTZA t
                         then Spec.local_calendar_date LocalTZA t
                         else Spec.previous_calendar_date LocalTZA t)
  /\ Spec.previous_calendar_date LocalTZA t
     = Spec.local_calendar_date LocalTZA (t - Time.msPerDay).
Proof.
  split; [|split].
  - unfold Spec.local_hour, Time.HourFromTime. apply Z.mod_pos_bound. lia.
  - unfold DateHelpers.getAppDate, Date.getHours, Date.LocalTime, Spec.local_hour.
    destruct (Z.ltb_spec (Time.HourFromTime (t + LocalTZA)) 3) as [H|H];
      destruct (Z.leb_spec 3 (Time.HourFromTime (t + LocalTZA))) as [H'|H']; try lia.
    + replace (Date.getDate LocalTZA t - 1) with (Date.getDate LocalTZA t + -1) by lia.
      rewrite DateFacts.setDate_getDate, DateFacts.formatDateToString_date_string.
      unfold Spec.local_calendar_date, Spec.previous_calendar_date.
      replace (t + -1 * Time.msPerDay + LocalTZA) with (t + LocalTZA + -1 * Time.msPerDay) by lia.
      rewrite DateFacts.Day_shift. reflexivity.
    + apply DateFacts.formatDateToString_date_string.
  - unfold Spec.previous_calendar_date, Spec.local_calendar_date.
    replace (t - Time.msPerDay + LocalTZA) with (t + LocalTZA + -1 * Time.msPerDay) by lia.
    rewrite DateFacts.Day_shift. reflexivity.
Qed.

(** C8. [getWeekStart] is idempotent, and for every date [d] its result is
    a Monday at local midnight, not after [d], on the same or an earlier
    calendar day and less than seven days back. *)
Theorem C8_getWeekStart_idempotent (LocalTZA : Z) (d : Date.t) :
  exists w,
    WeeklyStats.getWeekStart LocalTZA (inl d) = Some w
    /\ WeeklyStats.getWeekStart LocalTZA (inl w) = Some w
    /\ Date.getDay LocalTZA w = 1
    /\ w <= d /\ d - w < 7 * Time.msPerDay
    /\ Time.Day (Date.LocalTime LocalTZA w) <= Time.Day (Date.LocalTime LocalTZA d)
    /\ Time.TimeWithinDay (Date.LocalTime LocalTZA w) = 0
    /\ Date.getHours LocalTZA w = 0.
Proof.
  exists (DateFns.startOfWeek LocalTZA d 1).
  split; [reflexivity|].
  unfold WeeklyStats.getWeekStart; cbn.
  rewrite (DateFacts.startOfWeek_monday LocalTZA (DateFns.startOfWeek LocalTZA d 1)).
  rewrite (DateFacts.startOfWeek_monday LocalTZA d).
  unfold Date.getDay, Date.getHours, Date.LocalTime, Time.WeekDayOfDay, Time.HourFromTime,
    Time.Day, Time.TimeWithinDay, Time.msPerDay, Time.msPerHour.
  set (n := (d + LocalTZA) / 86400000).
  set (k := ((n + 4) mod 7 + 6) mod 7).
  replace ((n - k) * 86400000 - LocalTZA + LocalTZA) with ((n - k) * 86400000) by lia.
  assert (Hday : (n - k) * 86400000 / 86400000 = n - k) by (apply Z.div_mul; lia).
  assert (Hwd : (n - k + 4) mod 7 = 1) by (subst k; Z.div_mod_to_equations; lia).
  rewrite Hday, Hwd.
  assert (Hk : 0 <= k < 7) by (subst k; apply Z.mod_pos_bound; lia).
  assert (Hn : n * 86400000 <= d + LocalTZA < n * 86400000 + 86400000)
    by (subst n; Z.div_mod_to_equations; lia).
  repeat split.
  - f_equal. change ((1 + 6) mod 7) with 0. lia.
  - lia.
  - lia.
  - lia.
  - apply Z.mod_mul; lia.
  - replace ((n - k) * 86400000) with ((n - k) * 24 * 3600000) by lia.
    rewrite Z.div_mul by lia. apply Z.mod_mul; lia.
Qed.

(** ** The weekly statistics *)

Module WeeklyClaims.

Import JS Time.

Section LocalZone.

Variable LocalTZA : Z.

(** The fetch that [getWeeklyStats] awaits is called on the formatted
    first and last day of the week; when it resolves, the result is the
    summary of the loop. *)
Lemma getWeeklyStats_resolved now weekStart targetCalories maintenanceCalories
    getDataForRange allData :
  getDataForRange (DateFns.format_yyyy_MM_dd LocalTZA weekStart)
                  (DateFns.format_yyyy_MM_dd LocalTZA (weekStart + 6 * msPerDay))
    = Some allData ->
  WeeklyStats.getWeeklyStats LocalTZA now weekStart targetCalories maintenanceCalories
    getDataForRange
  = Some (WeeklyStats.weekly_stats_of LocalTZA (DateHelpers.getAppDate LocalTZA now)
            weekStart targetCalories maintenanceCalories allData).
Proof.
  intros H. unfold WeeklyStats.getWeeklyStats.
  rewrite DateFacts.addDays_shift, H. reflexivity.
Qed.

(** Aggregates depend on the fetched mapping through the looked-up key
    only. *)
Lemma day_aggregate_ext (allData allData' : gmap string (list FoodEntry.t)) keys :
  (forall key, In key keys -> allData' !! key = allData !! key) ->
  map (Spec.day_aggregate allData') keys = map (Spec.day_aggregate allData) keys.
Proof.
  intros H. apply map_ext_in. intros key Hin.
  unfold Spec.day_aggregate, Spec.entries_on. rewrite (H key Hin). reflexivity.
Qed.

Lemma logged_ext (allData allData' : gmap string (list FoodEntry.t)) keys :
  (forall key, In key keys -> allData' !! key = allData !! key) ->
  List.filter (fun key => Spec.logged (Spec.entries_on allData' key)) keys
  = List.filter (fun key => Spec.logged (Spec.entries_on allData key)) keys.
Proof.
  intros H. apply List.filter_ext_in. intros key Hin.
  unfold Spec.entries_on. rewrite (H key Hin). reflexivity.
Qed.

(** The completed days only depend on what was fetched for the keys
    below [today]. *)
Lemma completed_ext today (allData allData' : gmap string (list FoodEntry.t)) keys :
  (forall key, In key keys -> str_lt key today = true ->
               allData' !! key = allData !! key) ->
  WeeklyStats.completedDaysWithFood today (map (Spec.day_aggregate allData') keys)
  = WeeklyStats.completedDaysWithFood today (map (Spec.day_aggregate allData) keys).
Proof.
  intros H. unfold WeeklyStats.completedDaysWithFood.
  induction keys as [|k keys IH]; [reflexivity|].
  assert (Hdate : forall d, DayData.date (Spec.day_aggregate d k) = k) by reflexivity.
  cbn [map List.filter]. rewrite IH by (intros key Hin; apply H; right; exact Hin).
  rewrite !Hdate.
  destruct (str_lt k today) eqn:Hk; cbn [andb]; [|reflexivity].
  assert (Spec.day_aggregate allData' k = Spec.day_aggregate allData k) as ->; [|reflexivity].
  unfold Spec.day_aggregate, Spec.entries_on.
  rewrite (H k (or_introl eq_refl) Hk). reflexivity.
Qed.

(** A completed day is one of the days, dated below [today], with
    positive calories. *)
Lemma completed_In today (days : list DayData.t) (day : DayData.t) :
  In day (WeeklyStats.completedDaysWithFood today days) ->
  In day days
  /\ str_lt (DayData.date day) today = true
  /\ PrimFloat.ltb 0 (DayData.calories day) = true.
Proof.
  unfold WeeklyStats.completedDaysWithFood. intros Hin.
  apply List.filter_In in Hin. destruct Hin as [Hin Hp].
  apply andb_prop in Hp. destruct Hp as [Hdate Hcal].
  split; [exact Hin|]. split; [exact Hdate|exact Hcal].
Qed.

Lemma filter_none {A : Type} (p : A -> bool) (l : list A) :
  (forall x, In x l -> p x = false) -> List.filter p l = [].
Proof.
  induction l as [|x l IH]; intros H; [reflexivity|].
  cbn [List.filter]. rewrite (H x (or_introl eq_refl)).
  apply IH. intros y Hy. apply H. right. exact Hy.
Qed.

Lemma filter_single {A : Type} (p : A -> bool) (l : list A) (i : nat) (x : A) :
  nth_error l i = Some x -> p x = true ->
  (forall j y, nth_error l j = Some y -> j <> i -> p y = false) ->
  length (List.filter p l) = 1%nat.
Proof.
  revert i. induction l as [|a l IH]; intros i Hi Hx Hothers.
  - destruct i; discriminate Hi.
  - destruct i as [|i]; cbn [nth_error] in Hi.
    + injection Hi as ->. cbn [List.filter]. rewrite Hx. cbn [length]. f_equal.
      rewrite filter_none; [reflexivity|].
      intros y Hy. destruct (In_nth_error _ _ Hy) as [j Hj].
      apply (Hothers (S j) y Hj). discriminate.
    + cbn [List.filter]. rewrite (Hothers 0%nat a eq_refl) by discriminate.
      apply (IH i Hi Hx). intros j y Hj Hne.
      apply (Hothers (S j) y Hj). congruence.
Qed.

(** With no completed day the averages and the weekly deficit are zero,
    and the daily deficit is zero minus the maintenance calories. *)
Lemma no_completed_days today weekStart targetCalories maintenanceCalories allData :
  Spec.completed LocalTZA today weekStart allData = [] ->
  Stats.calories (Stats.averages (WeeklyStats.weekly_stats_of LocalTZA today weekStart
                                    targetCalories maintenanceCalories allData)) = 0%float
  /\ Stats.protein (Stats.averages (WeeklyStats.weekly_stats_of LocalTZA today weekStart
                                      targetCalories maintenanceCalories allData)) = 0%float
  /\ Stats.weekly (Stats.deficit (WeeklyStats.weekly_stats_of LocalTZA today weekStart
                                     targetCalories maintenanceCalories allData)) = 0%float
  /\ Stats.daily (Stats.deficit (WeeklyStats.weekly_stats_of LocalTZA today weekStart
                                    targetCalories maintenanceCalories allData))
     = (0 - maintenanceCalories)%float.
Proof.
  intros H. rewrite WeeklyStatsFacts.weekly_stats_of_eq. cbv zeta.
  rewrite H. cbn [length Nat.ltb Nat.leb Stats.averages Stats.deficit Stats.calories
                  Stats.protein Stats.daily Stats.weekly].
  split; [reflexivity|]. split; [reflexivity|]. split; reflexivity.
Qed.

(** What is fetched for the days that are not below [today] does not
    change the averages. *)
Lemma averages_ext today weekStart targetCalories maintenanceCalories
    (allData allData' : gmap string (list FoodEntry.t)) :
  (forall key, In key (Spec.week_keys LocalTZA weekStart) -> str_lt key today = true ->
               allData' !! key = allData !! key) ->
  Stats.averages (WeeklyStats.weekly_stats_of LocalTZA today weekStart targetCalories
                    maintenanceCalories allData')
  = Stats.averages (WeeklyStats.weekly_stats_of LocalTZA today weekStart targetCalories
                      maintenanceCalories allData).
Proof.
  intros Hagree. rewrite !WeeklyStatsFacts.weekly_stats_of_eq.
  cbv zeta. cbn [Stats.averages]. unfold Spec.completed.
  rewrite (completed_ext today allData allData' _ Hagree). reflexivity.
Qed.

(** When the only day with entries is the one dated [today], no day is
    completed. *)
Lemma only_today_completed today weekStart (allData : gmap string (list FoodEntry.t)) i :
  nth_error (Spec.week_keys LocalTZA weekStart) i = Some today ->
  (forall j key, nth_error (Spec.week_keys LocalTZA weekStart) j = Some key ->
                 j <> i -> Spec.entries_on allData key = []) ->
  Spec.completed LocalTZA today weekStart allData = [].
Proof.
  intros Hi Hothers. unfold Spec.completed, WeeklyStats.completedDaysWithFood.
  apply filter_none. intros day Hday.
  apply List.in_map_iff in Hday. destruct Hday as (key & <- & Hkey).
  change (DayData.date (Spec.day_aggregate allData key)) with key.
  destruct (String.eqb_spec key today) as [->|Hne].
  - rewrite JSFacts.str_lt_irrefl. reflexivity.
  - destruct (In_nth_error _ _ Hkey) as [j Hj].
    assert (Hji : j <> i) by (intros ->; rewrite Hi in Hj; congruence).
    unfold Spec.day_aggregate. rewrite (Hothers j key Hj Hji).
    cbn [DayData.calories]. apply andb_false_r.
Qed.

End LocalZone.

End WeeklyClaims.

(** ** The program against the engine of the specification *)

Module EngineFacts.

Import JS Time.

(** The shared reducer computes the two sums of the aggregator. *)
Lemma sum_entries_total (es : list FoodEntry.t) :
  forall acc : WeeklyStats.totals_t,
    fold_left WeeklyStats.add_entry es acc
    = WeeklyStats.mkTotals
        (fold_left (fun sum e => (sum + or_zero (FoodEntry.calories e))%float) es
                   (WeeklyStats.calories acc))
        (fold_left (fun sum e => (sum + or_zero (FoodEntry.protein e))%float) es
                   (WeeklyStats.protein acc)).
Proof.
  induction es as [|e es IH]; intros acc; cbn [fold_left].
  - destruct acc; reflexivity.
  - rewrite IH. reflexivity.
Qed.

Lemma day_aggregate_spec (allData : gmap string (list FoodEntry.t)) (key : string) :
  Spec.day_aggregate allData key = Spec.aggregate key (Spec.entries_on allData key).
Proof.
  unfold Spec.day_aggregate, Spec.aggregate, Spec.total, WeeklyStats.sum_entries.
  rewrite sum_entries_total. reflexivity.
Qed.

Section LocalZone.

Variable LocalTZA : Z.

Lemma week_aggregates_spec weekStart (allData : gmap string (list FoodEntry.t)) :
  map (Spec.day_aggregate allData) (Spec.week_keys LocalTZA weekStart)
  = Spec.week_aggregates LocalTZA weekStart allData.
Proof.
  unfold Spec.week_aggregates. apply map_ext. intros key. apply day_aggregate_spec.
Qed.

(** The date helper writes the app date of the specification. *)
Lemma getAppDate_spec now : DateHelpers.getAppDate LocalTZA now = Spec.app_date LocalTZA now.
Proof.
  unfold DateHelpers.getAppDate, Spec.app_date, Date.getHours, Date.LocalTime,
    Spec.local_hour.
  destruct (Z.ltb_spec (HourFromTime (now + LocalTZA)) 3) as [H|H];
    destruct (Z.leb_spec 3 (HourFromTime (now + LocalTZA))) as [H'|H']; try lia.
  - replace (Date.getDate LocalTZA now - 1) with (Date.getDate LocalTZA now + -1) by lia.
    rewrite DateFacts.setDate_getDate, DateFacts.formatDateToString_date_string.
    unfold Spec.local_calendar_date, Spec.previous_calendar_date.
    replace (now + -1 * msPerDay + LocalTZA) with (now + LocalTZA + -1 * msPerDay) by lia.
    rewrite DateFacts.Day_shift. reflexivity.
  - apply DateFacts.formatDateToString_date_string.
Qed.

(** The program's filter selects the completed-and-nonzero days of the
    specification. *)
Lemma completed_spec now weekStart (allData : gmap string (list FoodEntry.t)) :
  Spec.completed LocalTZA (DateHelpers.getAppDate LocalTZA now) weekStart allData
  = Spec.completed_and_nonzero (Spec.app_date LocalTZA now)
      (Spec.week_aggregates LocalTZA weekStart allData).
Proof.
  unfold Spec.completed, WeeklyStats.completedDaysWithFood, Spec.completed_and_nonzero.
  rewrite week_aggregates_spec, getAppDate_spec. reflexivity.
Qed.

(** The statistics of the program are those of the specification's
    engine, but for the daily deficit of a week without completed day,
    which the engine's step 6 leaves as it is computed. *)
Lemma weekly_stats_spec now weekStart targetCalories maintenanceCalories
    (allData : gmap string (list FoodEntry.t)) :
  WeeklyStats.weekly_stats_of LocalTZA (DateHelpers.getAppDate LocalTZA now) weekStart
    targetCalories maintenanceCalories allData
  = let days := Spec.week_aggregates LocalTZA weekStart allData in
    let completed := Spec.completed_and_nonzero (Spec.app_date LocalTZA now) days in
    let avgCalories := Spec.average DayData.calories completed in
    {| Stats.dailyData := days;
       Stats.averages := {| Stats.calories := avgCalories;
                            Stats.protein := Spec.average DayData.protein completed |};
       Stats.deficit :=
         {| Stats.daily := Spec.daily_deficit avgCalories maintenanceCalories;
            Stats.weekly :=
              Spec.weekly_deficit (Spec.daily_deficit avgCalories maintenanceCalories)
                                  completed |};
       Stats.daysLogged := Spec.days_logged days |}.
Proof.
  rewrite WeeklyStatsFacts.weekly_stats_of_eq. cbv zeta.
  rewrite completed_spec, week_aggregates_spec.
  unfold Spec.days_logged, Spec.week_aggregates.
  rewrite <- (WeeklyStatsFacts.length_filter_map
                (fun key => Spec.aggregate key (Spec.entries_on allData key))
                (fun day => Spec.logged (DayData.entries day))).
  cbn [Spec.aggregate DayData.entries].
  fold (Spec.week_aggregates LocalTZA weekStart allData).
  unfold Spec.average, Spec.weekly_deficit, Spec.daily_deficit, Spec.sum_calories,
    Spec.sum_protein.
  destruct (Spec.completed_and_nonzero (Spec.app_date LocalTZA now)
              (Spec.week_aggregates LocalTZA weekStart allData)); reflexivity.
Qed.

End LocalZone.

End EngineFacts.

(** C9. The statistics do not depend on [targetCalories]: with the week,
    the maintenance calories, the fetch and the clock fixed, any two
    targets give the same result. *)
Theorem C9_target_calories_unused (LocalTZA : Z) (now weekStart : Date.t)
    (target1 target2 maintenanceCalories : JS.number)
    (getDataForRange : string -> string -> option (gmap string (list FoodEntry.t))) :
  WeeklyStats.getWeeklyStats LocalTZA now weekStart target1 maintenanceCalories getDataForRange
  = WeeklyStats.getWeeklyStats LocalTZA now weekStart target2 maintenanceCalories getDataForRange.
Proof. reflexivity. Qed.

(** C10. Whatever mapping the fetch resolves to, [dailyData] has seven
    elements, dated [weekStart], [weekStart + 1 day], ..., [weekStart + 6
    days] in this order (Monday to Sunday when [weekStart] is a Monday);
    each is the aggregate of the entries found under its date, a date
    absent from the mapping giving zero calories, zero protein and no
    entries; and a mapping that agrees on these seven keys gives the same
    statistics. *)
Theorem C10_daily_data_of_the_week (LocalTZA : Z) (now weekStart : Date.t)
    (targetCalories maintenanceCalories : JS.number)
    (getDataForRange : string -> string -> option (gmap string (list FoodEntry.t)))
    (allData : gmap string (list FoodEntry.t)) :
  getDataForRange (DateFns.format_yyyy_MM_dd LocalTZA weekStart)
                  (DateFns.format_yyyy_MM_dd LocalTZA (weekStart + 6 * Time.msPerDay))
    = Some allData ->
  exists stats,
    WeeklyStats.getWeeklyStats LocalTZA now weekStart targetCalories maintenanceCalories
      getDataForRange = Some stats
    /\ length (Stats.dailyData stats) = 7%nat
    /\ map DayData.date (Stats.dailyData stats) = Spec.week_keys LocalTZA weekStart
    /\ Stats.dailyData stats
       = map (Spec.day_aggregate allData) (Spec.week_keys LocalTZA weekStart)
    /\ (forall key, allData !! key = None ->
          Spec.day_aggregate allData key = DayData.mk key 0%float 0%float [])
    /\ (Date.getDay LocalTZA weekStart = 1 ->
          map (fun i => Date.getDay LocalTZA (weekStart + i * Time.msPerDay))
              [0; 1; 2; 3; 4; 5; 6]
          = [1; 2; 3; 4; 5; 6; 0])
    /\ (forall allData',
          (forall key, In key (Spec.week_keys LocalTZA weekStart) ->
                       allData' !! key = allData !! key) ->
          WeeklyStats.getWeeklyStats LocalTZA now weekStart targetCalories
            maintenanceCalories (fun _ _ => Some allData') = Some stats).
Proof.
  intros Hfetch. eexists. split.
  { apply WeeklyClaims.getWeeklyStats_resolved. exact Hfetch. }
  rewrite WeeklyStatsFacts.weekly_stats_of_eq. cbn [Stats.dailyData].
  split; [reflexivity|]. split; [|split; [reflexivity|split; [|split]]].
  - rewrite List.map_map. cbn [Spec.day_aggregate DayData.date]. apply List.map_id.
  - intros key Hkey. unfold Spec.day_aggregate, Spec.entries_on. rewrite Hkey. reflexivity.
  - unfold Date.getDay, Date.LocalTime. intros Hmon. cbn [map].
    repeat match goal with
    | |- context [Time.Day (weekStart + ?i * Time.msPerDay + LocalTZA)] =>
        replace (weekStart + i * Time.msPerDay + LocalTZA)
          with (weekStart + LocalTZA + i * Time.msPerDay) by lia;
        rewrite DateFacts.Day_shift
    end.
    unfold Time.WeekDayOfDay in *.
    repeat (apply (f_equal2 cons); [Z.div_mod_to_equations; lia|]). reflexivity.
  - intros allData' Hagree.
    rewrite (WeeklyClaims.getWeeklyStats_resolved LocalTZA now weekStart targetCalories
               maintenanceCalories (fun _ _ => Some allData') allData' eq_refl).
    rewrite WeeklyStatsFacts.weekly_stats_of_eq. unfold Spec.completed.
    rewrite (WeeklyClaims.day_aggregate_ext allData allData' _ Hagree).
    rewrite (WeeklyClaims.logged_ext allData allData' _ Hagree).
    reflexivity.
Qed.

Lemma C10_daily_data_witness :
  exists stats,
    WeeklyStats.getWeeklyStats 0 Sample.thursday_jan_18_noon Sample.monday_jan_15 2000 2000
      (fun _ _ => Some Sample.week_of_jan_15) = Some stats
    /\ length (Stats.dailyData stats) = 7%nat.
Proof.
  destruct (C10_daily_data_of_the_week 0 Sample.thursday_jan_18_noon Sample.monday_jan_15
              2000 2000 (fun _ _ => Some Sample.week_of_jan_15) Sample.week_of_jan_15 eq_refl)
    as (stats & Hrun & Hlen & _).
  exists stats. split; assumption.
Defined.

(** C1. The failing week: nothing is fetched for the week of 15 January
    2024, so no day is completed; the averages and the weekly deficit are
    0, but the daily deficit is [0 - 2000], not 0. *)
Theorem C1_daily_deficit_of_an_empty_week :
  exists stats,
    WeeklyStats.getWeeklyStats 0 Sample.thursday_jan_18_noon Sample.monday_jan_15 2000 2000
      (fun _ _ => Some ∅) = Some stats
    /\ WeeklyStats.completedDaysWithFood
         (DateHelpers.getAppDate 0 Sample.thursday_jan_18_noon) (Stats.dailyData stats) = []
    /\ Stats.calories (Stats.averages stats) = 0%float
    /\ Stats.protein (Stats.averages stats) = 0%float
    /\ Stats.weekly (Stats.deficit stats) = 0%float
    /\ Stats.daily (Stats.deficit stats) = (-2000)%float.
Proof. eexists. split; [reflexivity|]. vm_compute. repeat split; reflexivity. Qed.

(** C6. When at least one day of the week is completed and nonzero in
    the sense of the specification (dated before the app date, with
    positive calories), the program averages over exactly those days,
    the daily deficit is the average calories minus the maintenance
    calories, and the weekly deficit is the daily deficit times the
    number of those days, not times 7. *)
Theorem C6_deficit_against_maintenance (LocalTZA : Z) (now weekStart : Date.t)
    (targetCalories maintenanceCalories : JS.number)
    (getDataForRange : string -> string -> option (gmap string (list FoodEntry.t)))
    (allData : gmap string (list FoodEntry.t)) :
  getDataForRange (DateFns.format_yyyy_MM_dd LocalTZA weekStart)
                  (DateFns.format_yyyy_MM_dd LocalTZA (weekStart + 6 * Time.msPerDay))
    = Some allData ->
  (0 < length (Spec.completed_and_nonzero (Spec.app_date LocalTZA now)
                 (Spec.week_aggregates LocalTZA weekStart allData)))%nat ->
  exists stats,
    WeeklyStats.getWeeklyStats LocalTZA now weekStart targetCalories maintenanceCalories
      getDataForRange = Some stats
    /\ WeeklyStats.completedDaysWithFood (DateHelpers.getAppDate LocalTZA now)
         (Stats.dailyData stats)
       = Spec.completed_and_nonzero (Spec.app_date LocalTZA now)
           (Spec.week_aggregates LocalTZA weekStart allData)
    /\ Stats.calories (Stats.averages stats)
       = JS.Math_round
           (Spec.sum_calories
              (Spec.completed_and_nonzero (Spec.app_date LocalTZA now)
                 (Spec.week_aggregates LocalTZA weekStart allData))
            / JS.of_nat (length (Spec.completed_and_nonzero (Spec.app_date LocalTZA now)
                                   (Spec.week_aggregates LocalTZA weekStart allData))))%float
    /\ Stats.daily (Stats.deficit stats)
       = (Stats.calories (Stats.averages stats) - maintenanceCalories)%float
    /\ Stats.weekly (Stats.deficit stats)
       = (Stats.daily (Stats.deficit stats)
          * JS.of_nat (length (Spec.completed_and_nonzero (Spec.app_date LocalTZA now)
                                 (Spec.week_aggregates LocalTZA weekStart allData))))%float.
Proof.
  intros Hfetch Hcount. eexists. split.
  { apply WeeklyClaims.getWeeklyStats_resolved. exact Hfetch. }
  rewrite EngineFacts.weekly_stats_spec. cbv zeta.
  cbn [Stats.dailyData Stats.averages Stats.deficit Stats.calories Stats.daily Stats.weekly].
  split.
  { unfold WeeklyStats.completedDaysWithFood, Spec.completed_and_nonzero.
    rewrite EngineFacts.getAppDate_spec. reflexivity. }
  unfold Spec.average, Spec.weekly_deficit, Spec.daily_deficit, Spec.sum_calories.
  destruct (Spec.completed_and_nonzero (Spec.app_date LocalTZA now)
              (Spec.week_aggregates LocalTZA weekStart allData)) as [|day days];
    [cbn [length] in Hcount; lia|].
  split; [reflexivity|]. split; reflexivity.
Qed.

(** Monday to Wednesday are completed (1800, 2000 and 2200 calories),
    Thursday is in progress: the average is 2000, and with 2200
    maintenance calories the daily deficit is -200 and the weekly deficit
    three times that, -600. *)
Lemma C6_deficit_witness :
  exists stats,
    WeeklyStats.getWeeklyStats 0 Sample.thursday_jan_18_noon Sample.monday_jan_15 1800 2200
      (fun _ _ => Some Sample.week_of_jan_15) = Some stats
    /\ Stats.calories (Stats.averages stats) = 2000%float
    /\ Stats.daily (Stats.deficit stats) = (-200)%float
    /\ Stats.weekly (Stats.deficit stats) = (-600)%float.
Proof.
  destruct (C6_deficit_against_maintenance 0 Sample.thursday_jan_18_noon Sample.monday_jan_15
              1800 2200 (fun _ _ => Some Sample.week_of_jan_15) Sample.week_of_jan_15
              eq_refl)
    as (stats & Hrun & _ & Havg & Hdaily & Hweekly).
  - vm_compute. lia.
  - exists stats. split; [exact Hrun|].
    assert (Ha : Stats.calories (Stats.averages stats) = 2000%float)
      by (rewrite Havg; vm_compute; reflexivity).
    assert (Hd : Stats.daily (Stats.deficit stats) = (-200)%float)
      by (rewrite Hdaily, Ha; vm_compute; reflexivity).
    split; [exact Ha|]. split; [exact Hd|].
    rewrite Hweekly, Hd. vm_compute. reflexivity.
Defined.

(** C4. [daysLogged] counts the days of the week whose fetched entry list
    is not empty, whatever their date and their totals; the averages are
    the rounded means of the specification over the completed-and-nonzero
    days (dated before the app date, with positive calories) and 0 when
    there is none, so that what is fetched for the other days does not
    change them; and when only today has entries, [daysLogged] is 1 while
    the average calories are 0. *)
Theorem C4_days_logged_and_averages (LocalTZA : Z) (now weekStart : Date.t)
    (targetCalories maintenanceCalories : JS.number)
    (getDataForRange : string -> string -> option (gmap string (list FoodEntry.t)))
    (allData : gmap string (list FoodEntry.t)) :
  getDataForRange (DateFns.format_yyyy_MM_dd LocalTZA weekStart)
                  (DateFns.format_yyyy_MM_dd LocalTZA (weekStart + 6 * Time.msPerDay))
    = Some allData ->
  exists stats,
    WeeklyStats.getWeeklyStats LocalTZA now weekStart targetCalories maintenanceCalories
      getDataForRange = Some stats
    /\ Stats.daysLogged stats
       = length (List.filter (fun key => Spec.logged (Spec.entries_on allData key))
                             (Spec.week_keys LocalTZA weekStart))
    /\ Stats.daysLogged stats
       = Spec.days_logged (Spec.week_aggregates LocalTZA weekStart allData)
    /\ Stats.averages stats
       = {| Stats.calories :=
              Spec.average DayData.calories
                (Spec.completed_and_nonzero (Spec.app_date LocalTZA now)
                   (Spec.week_aggregates LocalTZA weekStart allData));
            Stats.protein :=
              Spec.average DayData.protein
                (Spec.completed_and_nonzero (Spec.app_date LocalTZA now)
                   (Spec.week_aggregates LocalTZA weekStart allData)) |}
    /\ (forall day,
          In day (WeeklyStats.completedDaysWithFood (DateHelpers.getAppDate LocalTZA now)
                    (Stats.dailyData stats)) ->
          In day (Stats.dailyData stats)
          /\ JS.str_lt (DayData.date day) (DateHelpers.getAppDate LocalTZA now) = true
          /\ PrimFloat.ltb 0 (DayData.calories day) = true)
    /\ (forall allData' stats',
          (forall key, In key (Spec.week_keys LocalTZA weekStart) ->
                       JS.str_lt key (DateHelpers.getAppDate LocalTZA now) = true ->
                       allData' !! key = allData !! key) ->
          WeeklyStats.getWeeklyStats LocalTZA now weekStart targetCalories
            maintenanceCalories (fun _ _ => Some allData') = Some stats' ->
          Stats.averages stats' = Stats.averages stats)
    /\ (forall i,
          nth_error (Spec.week_keys LocalTZA weekStart) i
            = Some (DateHelpers.getAppDate LocalTZA now) ->
          Spec.logged (Spec.entries_on allData (DateHelpers.getAppDate LocalTZA now)) = true ->
          (forall j key, nth_error (Spec.week_keys LocalTZA weekStart) j = Some key ->
                         j <> i -> Spec.entries_on allData key = []) ->
          Stats.daysLogged stats = 1%nat
          /\ Stats.calories (Stats.averages stats) = 0%float).
Proof.
  intros Hfetch. eexists. split.
  { apply WeeklyClaims.getWeeklyStats_resolved. exact Hfetch. }
  split; [|split; [|split; [|split; [|split]]]].
  - rewrite WeeklyStatsFacts.weekly_stats_of_eq. reflexivity.
  - rewrite EngineFacts.weekly_stats_spec. reflexivity.
  - rewrite EngineFacts.weekly_stats_spec. reflexivity.
  - intros day. apply WeeklyClaims.completed_In.
  - intros allData' stats' Hagree Hrun.
    rewrite (WeeklyClaims.getWeeklyStats_resolved LocalTZA now weekStart targetCalories
               maintenanceCalories (fun _ _ => Some allData') allData' eq_refl) in Hrun.
    injection Hrun as <-. apply WeeklyClaims.averages_ext. exact Hagree.
  - intros i Hi Hlogged Hothers. split.
    + rewrite WeeklyStatsFacts.weekly_stats_of_eq. cbv zeta. cbn [Stats.daysLogged].
      apply (WeeklyClaims.filter_single _ _ i _ Hi Hlogged).
      intros j key Hj Hne. rewrite (Hothers j key Hj Hne). reflexivity.
    + pose proof (WeeklyClaims.no_completed_days LocalTZA
                    (DateHelpers.getAppDate LocalTZA now) weekStart targetCalories
                    maintenanceCalories allData
                    (WeeklyClaims.only_today_completed _ _ _ _ i Hi Hothers)) as Hzero.
      exact (proj1 Hzero).
Qed.

(** Two weeks of 15 January 2024, seen on Thursday 18 at noon. When only
    Thursday has an entry, one day is logged and the average is 0. When
    Monday to Thursday have entries, four days are logged and the
    averages are those of Monday to Wednesday: 2000 calories and 117
    grams of protein. *)
Lemma C4_days_logged_witness :
  (exists stats,
     WeeklyStats.getWeeklyStats 0 Sample.thursday_jan_18_noon Sample.monday_jan_15 2000 2000
       (fun _ _ => Some Sample.only_thursday) = Some stats
     /\ Stats.daysLogged stats = 1%nat
     /\ Stats.calories (Stats.averages stats) = 0%float)
  /\ (exists stats,
        WeeklyStats.getWeeklyStats 0 Sample.thursday_jan_18_noon Sample.monday_jan_15
          2000 2000 (fun _ _ => Some Sample.week_of_jan_15) = Some stats
        /\ Stats.daysLogged stats = 4%nat
        /\ Stats.averages stats = {| Stats.calories := 2000; Stats.protein := 117 |}).
Proof.
  split.
  - destruct (C4_days_logged_and_averages 0 Sample.thursday_jan_18_noon Sample.monday_jan_15
                2000 2000 (fun _ _ => Some Sample.only_thursday) Sample.only_thursday eq_refl)
      as (stats & Hrun & _ & _ & _ & _ & _ & Htoday).
    exists stats. split; [exact Hrun|].
    assert (Hkeys : Spec.week_keys 0 Sample.monday_jan_15
                    = ["2024-01-15"; "2024-01-16"; "2024-01-17"; "2024-01-18";
                       "2024-01-19"; "2024-01-20"; "2024-01-21"])
      by (vm_compute; reflexivity).
    apply (Htoday 3%nat); [vm_compute; reflexivity|vm_compute; reflexivity|].
    rewrite Hkeys. intros j key Hj Hne.
    destruct j as [|[|[|[|[|[|[|j]]]]]]]; cbn [nth_error] in Hj;
      try (injection Hj as <-; vm_compute; reflexivity).
    + exfalso. apply Hne. reflexivity.
    + destruct j; discriminate Hj.
  - destruct (C4_days_logged_and_averages 0 Sample.thursday_jan_18_noon Sample.monday_jan_15
                2000 2000 (fun _ _ => Some Sample.week_of_jan_15) Sample.week_of_jan_15
                eq_refl)
      as (stats & Hrun & _ & Hlogged & Havg & _).
    exists stats. split; [exact Hrun|]. split.
    + rewrite Hlogged. vm_compute. reflexivity.
    + rewrite Havg. vm_compute. reflexivity.
Defined.

(** ** The calorie colours *)

Module ClassifierFacts.

Import JS.

(** The home screen sums the calories as the shared reducer does. *)
Lemma home_calories_sum (entries : list FoodEntry.t) (acc : WeeklyStats.totals_t) :
  fold_left (fun a entry => (a + or_zero (FoodEntry.calories entry))%float) entries
            (WeeklyStats.calories acc)
  = WeeklyStats.calories (fold_left WeeklyStats.add_entry entries acc).
Proof.
  revert acc. induction entries as [|e entries IH]; intros acc; [reflexivity|].
  cbn [fold_left]. rewrite <- IH. reflexivity.
Qed.

Lemma home_calories_total (entries : list FoodEntry.t) :
  fold_left (fun a entry => (a + or_zero (FoodEntry.calories entry))%float) entries 0%float
  = WeeklyStats.calories (WeeklyStats.sum_entries entries).
Proof. apply (home_calories_sum entries (WeeklyStats.mkTotals 0 0)). Qed.

(** The colours of the gradual and of the strict band, per palette. *)
Lemma analytics_bands (calories target maintenance : number) :
  PrimFloat.eqb calories 0 = false ->
  Tier.of_color (Analytics.getCaloriesColor calories target maintenance)
  = Some (Tier.classify_positive calories target maintenance).
Proof.
  intros Hnz. unfold Analytics.getCaloriesColor, Tier.classify_positive,
    Tier.gradual_band, Tier.strict_band, Math_abs.
  rewrite Hnz.
  destruct ((PrimFloat.ltb target maintenance
             && PrimFloat.ltb (calories - target) 0)
            || (PrimFloat.ltb maintenance target
                && PrimFloat.ltb 0 (calories - target)));
    repeat match goal with
    | |- context [if PrimFloat.leb ?a ?b then _ else _] => destruct (PrimFloat.leb a b)
    end; reflexivity.
Qed.

Lemma weekly_chart_bands (target maintenance : number) (day : DayData.t) :
  PrimFloat.eqb (DayData.calories day) 0 = false ->
  Tier.of_color (WeeklyChart.caloriesFrontColor target maintenance day)
  = Some (Tier.classify_positive (DayData.calories day) target maintenance).
Proof.
  intros Hnz. unfold WeeklyChart.caloriesFrontColor, Tier.classify_positive,
    Tier.gradual_band, Tier.strict_band, Math_abs.
  rewrite Hnz.
  destruct ((PrimFloat.ltb target maintenance
             && PrimFloat.ltb (DayData.calories day - target) 0)
            || (PrimFloat.ltb maintenance target
                && PrimFloat.ltb 0 (DayData.calories day - target)));
    repeat match goal with
    | |- context [if PrimFloat.leb ?a ?b then _ else _] => destruct (PrimFloat.leb a b)
    end; reflexivity.
Qed.

Lemma home_bands (entries : list FoodEntry.t) (target maintenance : number) :
  PrimFloat.eqb (WeeklyStats.calories (WeeklyStats.sum_entries entries)) 0 = false ->
  PrimFloat.eqb target 0 = false ->
  Tier.of_color (Home.getCalorieColor entries target maintenance)
  = Some (Tier.classify_positive (WeeklyStats.calories (WeeklyStats.sum_entries entries))
            target maintenance).
Proof.
  intros Hnz Htz. unfold Home.getCalorieColor. cbv zeta.
  rewrite !home_calories_total.
  set (measured := WeeklyStats.calories (WeeklyStats.sum_entries entries)) in *.
  unfold Tier.classify_positive, Tier.gradual_band, Tier.strict_band, Math_abs.
  rewrite Hnz, Htz. cbn [orb].
  destruct ((PrimFloat.ltb target maintenance
             && PrimFloat.ltb (measured - target) 0)
            || (PrimFloat.ltb maintenance target
                && PrimFloat.ltb 0 (measured - target)));
    repeat match goal with
    | |- context [if PrimFloat.leb ?a ?b then _ else _] => destruct (PrimFloat.leb a b)
    end; reflexivity.
Qed.

Lemma totals_bands (entries : list FoodEntry.t) (target maintenance : number) :
  PrimFloat.eqb (WeeklyStats.calories (WeeklyStats.sum_entries entries)) 0 = false ->
  PrimFloat.eqb target 0 = false ->
  truthy maintenance = true ->
  Tier.of_color (Totals.getCalorieColor entries target (Some maintenance))
  = Some (Tier.classify_positive (WeeklyStats.calories (WeeklyStats.sum_entries entries))
            target maintenance).
Proof.
  intros Hnz Htz Hm. unfold Totals.getCalorieColor, Totals.totals.
  set (measured := WeeklyStats.calories (WeeklyStats.sum_entries entries)) in *.
  unfold Tier.classify_positive, Tier.gradual_band, Tier.strict_band, Math_abs.
  rewrite Hnz, Htz, Hm. cbn [negb].
  destruct ((PrimFloat.ltb target maintenance
             && PrimFloat.ltb (measured - target) 0)
            || (PrimFloat.ltb maintenance target
                && PrimFloat.ltb 0 (measured - target)));
    repeat match goal with
    | |- context [if PrimFloat.leb ?a ?b then _ else _] => destruct (PrimFloat.leb a b)
    end; reflexivity.
Qed.

(** Without a usable maintenance value the widget colours by percent of
    the target. *)
Lemma totals_without_maintenance (entries : list FoodEntry.t) (target : number)
    (maintenance : option number) :
  PrimFloat.eqb (WeeklyStats.calories (WeeklyStats.sum_entries entries)) 0 = false ->
  PrimFloat.eqb target 0 = false ->
  Totals.maintenance_missing maintenance = true ->
  Totals.getCalorieColor entries target maintenance
  = Spec.percent_of_target_color (WeeklyStats.calories (WeeklyStats.sum_entries entries))
      target.
Proof.
  intros Hnz Htz Hm. unfold Totals.getCalorieColor, Totals.totals.
  rewrite Hnz, Htz. destruct maintenance as [m|]; [|reflexivity].
  cbn [Totals.maintenance_missing] in Hm. rewrite Hm. reflexivity.
Qed.

End ClassifierFacts.

(** C2, as stated, fails: with a maintenance value of 0 and a day of 1500
    calories against a target of 2000, the totals widget is green
    (on track), not gray. *)
Lemma C2_maintenance_zero_counterexample :
  Tier.of_color (Totals.getCalorieColor [Sample.meal "2024-01-15" 1500 100] 2000
                   (Some 0%float))
  = Some Tier.on_track
  /\ Tier.of_color (Totals.getCalorieColor [Sample.meal "2024-01-15" 1500 100] 2000
                      (Some 0%float))
     <> Some Tier.no_data.
Proof. split; [vm_compute; reflexivity|vm_compute; discriminate]. Qed.

(** C2, amended. A measured value of 0 gives the gray (no data) colour at
    every display site: totals widget, home screen, weekly chart and admin
    grid. A target of 0 gives it at the totals widget and on the home
    screen. A maintenance value of 0 does not: with measured value and
    target not zero, the totals widget then colours by percent of target. *)
Theorem C2_no_data_tier (entries : list FoodEntry.t) (calories target maintenance : JS.number)
    (maintenanceCalories : option JS.number) (day : DayData.t) :
  (PrimFloat.eqb (WeeklyStats.calories (WeeklyStats.sum_entries entries)) 0 = true
   \/ PrimFloat.eqb target 0 = true ->
   Tier.of_color (Totals.getCalorieColor entries target maintenanceCalories)
   = Some Tier.no_data
   /\ Tier.of_color (Home.getCalorieColor entries target maintenance) = Some Tier.no_data)
  /\ (PrimFloat.eqb calories 0 = true ->
      Tier.of_color (Analytics.getCaloriesColor calories target maintenance)
      = Some Tier.no_data)
  /\ (PrimFloat.eqb (DayData.calories day) 0 = true ->
      Tier.of_color (WeeklyChart.caloriesFrontColor target maintenance day)
      = Some Tier.no_data)
  /\ (PrimFloat.eqb (WeeklyStats.calories (WeeklyStats.sum_entries entries)) 0 = false ->
      PrimFloat.eqb target 0 = false ->
      Totals.maintenance_missing maintenanceCalories = true ->
      Totals.getCalorieColor entries target maintenanceCalories
      = Spec.percent_of_target_color
          (WeeklyStats.calories (WeeklyStats.sum_entries entries)) target).
Proof.
  split; [|split; [|split]].
  - intros H. unfold Totals.getCalorieColor, Totals.totals, Home.getCalorieColor. cbv zeta.
    rewrite !ClassifierFacts.home_calories_total.
    destruct (PrimFloat.eqb (WeeklyStats.calories (WeeklyStats.sum_entries entries)) 0);
      [split; reflexivity|].
    destruct H as [H|H]; [discriminate H|]. rewrite H. split; reflexivity.
  - intros H. unfold Analytics.getCaloriesColor. rewrite H. reflexivity.
  - intros H. unfold WeeklyChart.caloriesFrontColor. cbv zeta. rewrite H. reflexivity.
  - apply ClassifierFacts.totals_without_maintenance.
Qed.

Lemma C2_no_data_witness :
  Tier.of_color (Totals.getCalorieColor [] 2000 (Some 2200%float)) = Some Tier.no_data
  /\ Tier.of_color (Analytics.getCaloriesColor 0 2000 2200) = Some Tier.no_data
  /\ Totals.getCalorieColor [Sample.meal "2024-01-15" 1500 100] 2000 (Some 0%float)
     = Spec.percent_of_target_color 1500 2000.
Proof.
  destruct (C2_no_data_tier [] 0 2000 2200 (Some 2200%float)
              (DayData.mk "2024-01-15" 0 0 [])) as (Hzero & Hgrid & _ & _).
  destruct (C2_no_data_tier [Sample.meal "2024-01-15" 1500 100] 0 2000 2200 (Some 0%float)
              (DayData.mk "2024-01-15" 0 0 [])) as (_ & _ & _ & Hpercent).
  split; [|split].
  - exact (proj1 (Hzero (or_introl eq_refl))).
  - exact (Hgrid eq_refl).
  - exact (Hpercent eq_refl eq_refl eq_refl).
Defined.

(** C7, as stated, fails at the totals widget: with a maintenance value
    of 0, a day of 2100 calories against a target of 2000 is aligned with
    a surplus goal and 5% off, which the bands call on track, but the
    widget is red. *)
Lemma C7_totals_widget_counterexample :
  PrimFloat.ltb 0 (WeeklyStats.calories
                     (WeeklyStats.sum_entries [Sample.meal "2024-01-15" 2100 100])) = true
  /\ PrimFloat.ltb 0 2000 = true
  /\ Tier.classify_positive 2100 2000 0 = Tier.on_track
  /\ Tier.of_color (Totals.getCalorieColor [Sample.meal "2024-01-15" 2100 100] 2000
                      (Some 0%float))
     = Some Tier.off_track.
Proof. vm_compute. split; [|split; [|split]]; reflexivity. Qed.

(** C7, amended. For a measured value and a target that are positive, the
    admin grid, the weekly chart and the home screen follow the bands for
    every maintenance value: the gradual band when the deviation is
    aligned with the goal, the strict band otherwise. The totals widget
    does so when its maintenance value is given and is neither 0 nor
    NaN. *)
Theorem C7_calorie_bands (entries : list FoodEntry.t) (calories target maintenance : JS.number)
    (day : DayData.t) :
  PrimFloat.ltb 0 target = true ->
  (PrimFloat.ltb 0 calories = true ->
   Tier.of_color (Analytics.getCaloriesColor calories target maintenance)
   = Some (Tier.classify_positive calories target maintenance))
  /\ (PrimFloat.ltb 0 (DayData.calories day) = true ->
      Tier.of_color (WeeklyChart.caloriesFrontColor target maintenance day)
      = Some (Tier.classify_positive (DayData.calories day) target maintenance))
  /\ (PrimFloat.ltb 0 (WeeklyStats.calories (WeeklyStats.sum_entries entries)) = true ->
      Tier.of_color (Home.getCalorieColor entries target maintenance)
      = Some (Tier.classify_positive
                (WeeklyStats.calories (WeeklyStats.sum_entries entries)) target maintenance)
      /\ (JS.truthy maintenance = true ->
          Tier.of_color (Totals.getCalorieColor entries target (Some maintenance))
          = Some (Tier.classify_positive
                    (WeeklyStats.calories (WeeklyStats.sum_entries entries))
                    target maintenance))).
Proof.
  intros Ht. apply JSFacts.positive_not_zero in Ht.
  split; [|split].
  - intros Hc. apply ClassifierFacts.analytics_bands, JSFacts.positive_not_zero, Hc.
  - intros Hc. apply ClassifierFacts.weekly_chart_bands, JSFacts.positive_not_zero, Hc.
  - intros Hc. apply JSFacts.positive_not_zero in Hc. split.
    + apply ClassifierFacts.home_bands; assumption.
    + intros Hm. apply ClassifierFacts.totals_bands; assumption.
Qed.

Lemma C7_calorie_bands_witness :
  Tier.of_color (Analytics.getCaloriesColor 1900 1800 2200) = Some Tier.off_track
  /\ Tier.of_color (Totals.getCalorieColor [Sample.meal "2024-01-15" 1500 100] 1800
                      (Some 2200%float))
     = Some Tier.close.
Proof.
  destruct (C7_calorie_bands [Sample.meal "2024-01-15" 1500 100] 1900 1800 2200
              (DayData.mk "2024-01-15" 0 0 []) eq_refl) as (Hgrid & _ & Hwidget).
  split.
  - exact (Hgrid eq_refl).
  - exact (proj2 (Hwidget eq_refl) eq_refl).
Defined.

(** ** The week selector *)

(** C3. The failing step, on the dashboard: on Monday 15 January 2024 at
    01:00 local time (UTC), the app date is still Sunday the 14th, whose
    week starts on Monday the 8th. From that week the dashboard lets a
    forward step through to the week of the 15th; the analytics screen,
    which takes the app date, refuses it. Backward steps succeed. *)
Theorem C3_dashboard_steps_past_the_app_week :
  DateHelpers.getAppDate 0 Sample.monday_jan_15_1am = "2024-01-14"
  /\ WeeklyStats.getWeekStart 0 (inr (DateHelpers.getAppDate 0 Sample.monday_jan_15_1am))
     = Some Sample.monday_jan_8
  /\ Dashboard.getTodayDate Sample.monday_jan_15_1am = "2024-01-15"
  /\ Dashboard.navigateWeek 0 Sample.monday_jan_15_1am Sample.monday_jan_8 1
     = Some Sample.monday_jan_15
  /\ Analytics.navigateWeek 0 Sample.monday_jan_15_1am Sample.monday_jan_8 1
     = Some Sample.monday_jan_8
  /\ Sample.monday_jan_8 < Sample.monday_jan_15.
Proof. vm_compute. split; [|split; [|split; [|split; [|split]]]]; reflexivity. Qed.

(** * Further properties of the code *)

(** ** The order of calendar dates *)

Module CalendarFacts.

Import Time TimeFacts.

(** Every day number in March-based coordinates: the year [Y] that
    starts on 1 March, the day [doy] of that year and its month [mp]. *)
Lemma march_coords n :
  exists Y doy mp,
    n + 719468 = Spec.days_before_march Y + doy
    /\ 0 <= doy < Spec.days_before_march (Y + 1) - Spec.days_before_march Y
    /\ 153 * mp <= 5 * doy + 2 < 153 * mp + 153
    /\ 0 <= mp <= 11
    /\ civil_from_days n
       = (Y + (if mp <? 10 then 0 else 1), (if mp <? 10 then mp + 3 else mp - 9),
          doy - (153 * mp + 2) / 5 + 1).
Proof.
  unfold civil_from_days, Spec.days_before_march.
  set (z := n + 719468).
  set (era := z / 146097).
  set (doe := z - era * 146097).
  assert (Hdoe : 0 <= doe < 146097) by (subst doe era; Z.div_mod_to_equations; lia).
  set (yoe := (doe - doe / 1460 + doe / 36524 - doe / 146096) / 365).
  assert (Hyoe : 0 <= yoe <= 399) by (subst yoe; Z.div_mod_to_equations; lia).
  set (doy := doe - (365 * yoe + yoe / 4 - yoe / 100)).
  assert (Hdoy : 0 <= doy <= 365) by (subst doy yoe; Z.div_mod_to_equations; lia).
  assert (Hlen : doy < 365 + (if yoe =? 399 then 1
                              else if ((yoe mod 4 =? 3) && negb (yoe mod 100 =? 99))%bool
                                   then 1 else 0)).
  { subst doy yoe.
    destruct (Z.eqb_spec ((doe - doe / 1460 + doe / 36524 - doe / 146096) / 365) 399).
    - Z.div_mod_to_equations; lia.
    - destruct (Z.eqb_spec
                  (((doe - doe / 1460 + doe / 36524 - doe / 146096) / 365) mod 4) 3);
        destruct (Z.eqb_spec
                    (((doe - doe / 1460 + doe / 36524 - doe / 146096) / 365) mod 100) 99);
        cbn [andb negb]; Z.div_mod_to_equations; lia. }
  set (mp := (5 * doy + 2) / 153).
  assert (Hmp : 0 <= mp <= 11) by (subst mp; Z.div_mod_to_equations; lia).
  exists (yoe + era * 400), doy, mp.
  assert (Hz : z = era * 146097 + (365 * yoe + yoe / 4 - yoe / 100) + doy)
    by (subst doy doe; lia).
  clearbody doy yoe era z. clear Hdoe doe.
  split; [|split; [|split; [|split]]].
  - rewrite Hz. Z.div_mod_to_equations. lia.
  - split; [lia|].
    destruct (Z.eqb_spec yoe 399);
      [|destruct (Z.eqb_spec (yoe mod 4) 3); destruct (Z.eqb_spec (yoe mod 100) 99);
        cbn [andb negb] in Hlen];
      Z.div_mod_to_equations; lia.
  - subst mp. Z.div_mod_to_equations. lia.
  - exact Hmp.
  - destruct (Z.ltb_spec mp 10).
    + destruct (Z.leb_spec (mp + 3) 2); [lia|]. reflexivity.
    + destruct (Z.leb_spec (mp - 9) 2); [|lia]. reflexivity.
Qed.

Lemma days_before_march_step a b :
  a < b -> Spec.days_before_march (a + 1) <= Spec.days_before_march b.
Proof. unfold Spec.days_before_march. intros. Z.div_mod_to_equations. lia. Qed.

(** Later days have later dates. *)
Lemma civil_from_days_lt n1 n2 :
  n1 < n2 -> Spec.date_compare (civil_from_days n1) (civil_from_days n2) = Lt.
Proof.
  intros Hlt.
  destruct (march_coords n1) as (Y1 & doy1 & mp1 & Hn1 & Hdoy1 & Hmp1 & Hr1 & ->).
  destruct (march_coords n2) as (Y2 & doy2 & mp2 & Hn2 & Hdoy2 & Hmp2 & Hr2 & ->).
  assert (HY : Y1 <= Y2).
  { destruct (Z.le_gt_cases Y1 Y2) as [H|H]; [exact H|].
    pose proof (days_before_march_step Y2 Y1 H). lia. }
  assert (Hsame : Y1 = Y2 -> doy1 < doy2) by (intros ->; lia).
  assert (Hq1 : 5 * ((153 * mp1 + 2) / 5) <= 153 * mp1 + 2 < 5 * ((153 * mp1 + 2) / 5) + 5)
    by (Z.div_mod_to_equations; lia).
  assert (Hq2 : 5 * ((153 * mp2 + 2) / 5) <= 153 * mp2 + 2 < 5 * ((153 * mp2 + 2) / 5) + 5)
    by (Z.div_mod_to_equations; lia).
  set (q1 := (153 * mp1 + 2) / 5) in *. set (q2 := (153 * mp2 + 2) / 5) in *.
  assert (Hmono : mp1 = mp2 -> q1 = q2) by (intros ->; reflexivity).
  clearbody q1 q2.
  unfold Spec.date_compare.
  destruct (Z.ltb_spec mp1 10); destruct (Z.ltb_spec mp2 10);
    repeat match goal with
    | |- context [?a ?= ?b] => destruct (Z.compare_spec a b)
    end; try reflexivity; exfalso; lia.
Qed.

Lemma civil_from_days_compare n1 n2 :
  Spec.date_compare (civil_from_days n1) (civil_from_days n2) = (n1 ?= n2).
Proof.
  destruct (Z.compare_spec n1 n2) as [->|H|H].
  - destruct (civil_from_days n2) as [[y m] d]. unfold Spec.date_compare.
    rewrite !Z.compare_refl. reflexivity.
  - apply civil_from_days_lt. exact H.
  - pose proof (civil_from_days_lt n2 n1 H) as Hgt.
    destruct (civil_from_days n1) as [[y1 m1] d1], (civil_from_days n2) as [[y2 m2] d2].
    unfold Spec.date_compare in *.
    rewrite (Z.compare_antisym y1 y2), (Z.compare_antisym m1 m2),
      (Z.compare_antisym d1 d2) in Hgt.
    destruct (y1 ?= y2), (m1 ?= m2), (d1 ?= d2); cbn in *; congruence.
Qed.

(** Years do not decrease with the days. *)
Lemma YearOfDay_mono n1 n2 : n1 <= n2 -> YearOfDay n1 <= YearOfDay n2.
Proof.
  intros Hle. pose proof (civil_from_days_compare n1 n2) as H.
  unfold YearOfDay.
  destruct (civil_from_days n1) as [[y1 m1] d1], (civil_from_days n2) as [[y2 m2] d2].
  cbn [fst snd]. unfold Spec.date_compare in H.
  destruct (Z.compare_spec y1 y2); try lia.
  exfalso. destruct (Z.compare_spec n1 n2); try discriminate H; lia.
Qed.

(** Day numbers in March-based coordinates. *)
Lemma days_from_civil_march Y mp d :
  0 <= mp <= 11 ->
  days_from_civil (Y + (if mp <? 10 then 0 else 1)) (if mp <? 10 then mp + 3 else mp - 9) d
  = Spec.days_before_march Y + (153 * mp + 2) / 5 + d - 1 - 719468.
Proof.
  intros Hmp. unfold days_from_civil, Spec.days_before_march.
  destruct (Z.ltb_spec mp 10).
  - destruct (Z.leb_spec (mp + 3) 2); [lia|]. destruct (Z.ltb_spec 2 (mp + 3)); [|lia].
    replace (Y + 0 - 0) with Y by lia. replace (mp + 3 - 3) with mp by lia.
    set (q := (153 * mp + 2) / 5). clearbody q.
    Z.div_mod_to_equations. lia.
  - destruct (Z.leb_spec (mp - 9) 2); [|lia]. destruct (Z.ltb_spec 2 (mp - 9)); [lia|].
    replace (Y + 1 - 1) with Y by lia. replace (mp - 9 + 9) with mp by lia.
    set (q := (153 * mp + 2) / 5). clearbody q.
    Z.div_mod_to_equations. lia.
Qed.

(** The first day of the next month lies after the day. *)
Lemma next_month_after n :
  n < MakeDay (YearOfDay n) (MonthOfDay n + 1) 1.
Proof.
  unfold YearOfDay, MonthOfDay, MakeDay.
  destruct (march_coords n) as (Y & doy & mp & Hn & Hdoy & Hmp & Hr & ->). cbn [fst snd].
  assert (Hcase : mp <= 8 \/ mp = 9 \/ mp = 10 \/ mp = 11) by lia.
  destruct Hcase as [H | [ -> | [ -> | -> ] ] ].
  - destruct (Z.ltb_spec mp 10); [|lia].
    replace (mp + 3 - 1 + 1) with (mp + 3) by lia.
    replace ((mp + 3) / 12) with 0 by (Z.div_mod_to_equations; lia).
    replace ((mp + 3) mod 12) with (mp + 3) by (Z.div_mod_to_equations; lia).
    pose proof (days_from_civil_march Y (mp + 1) 1) as Hnext.
    destruct (Z.ltb_spec (mp + 1) 10); [|lia].
    replace (mp + 1 + 3) with (mp + 3 + 1) in Hnext by lia.
    replace (Y + 0 + 0) with (Y + 0) by lia.
    rewrite Hnext by lia.
    Z.div_mod_to_equations. lia.
  - match goal with
    | |- _ < days_from_civil ?a ?b 1 + 1 - 1 =>
        change a with (Y + 0 + 1); change b with 1
    end.
    pose proof (days_from_civil_march Y 10 1 ltac:(lia)) as Hnext.
    change (days_from_civil (Y + 1) 1 1
            = Spec.days_before_march Y + 306 + 1 - 1 - 719468) in Hnext.
    replace (Y + 0 + 1) with (Y + 1) by lia. rewrite Hnext. lia.
  - match goal with
    | |- _ < days_from_civil ?a ?b 1 + 1 - 1 =>
        change a with (Y + 1 + 0); change b with 2
    end.
    pose proof (days_from_civil_march Y 11 1 ltac:(lia)) as Hnext.
    change (days_from_civil (Y + 1) 2 1
            = Spec.days_before_march Y + 337 + 1 - 1 - 719468) in Hnext.
    replace (Y + 1 + 0) with (Y + 1) by lia. rewrite Hnext. lia.
  - match goal with
    | |- _ < days_from_civil ?a ?b 1 + 1 - 1 =>
        change a with (Y + 1 + 0); change b with 3
    end.
    pose proof (days_from_civil_march (Y + 1) 0 1 ltac:(lia)) as Hnext.
    change (days_from_civil (Y + 1 + 0) 3 1
            = Spec.days_before_march (Y + 1) + 0 + 1 - 1 - 719468) in Hnext.
    rewrite Hnext. lia.
Qed.

End CalendarFacts.

(** ** Date strings *)

Module DateStringFacts.

Import JS Time TimeFacts.

Lemma all_from_spec (P : Z -> bool) (len : nat) :
  forall lo, Spec.all_from P lo len = true ->
  forall n, lo <= n < lo + Z.of_nat len -> P n = true.
Proof.
  induction len as [|l IH]; intros lo H n Hn; [lia|].
  cbn [Spec.all_from] in H. apply andb_prop in H. destruct H as [H0 H].
  destruct (Z.eq_dec n lo) as [->|Hne]; [exact H0|].
  apply (IH (lo + 1) H). lia.
Qed.

Lemma range_check (P : Z -> bool) (lo len : Z) :
  Spec.all_from P lo (Z.to_nat len) = true ->
  forall n, lo <= n < lo + len -> P n = true.
Proof. intros H n Hn. apply (all_from_spec P (Z.to_nat len) lo H). lia. Qed.

Lemma pad2_digits n : 0 <= n <= 99 -> Date.pad2 n = Spec.digits2 n.
Proof.
  intros Hn. apply String.eqb_eq.
  apply (range_check (fun n => String.eqb (Date.pad2 n) (Spec.digits2 n)) 0 100);
    [vm_compute; reflexivity|lia].
Qed.

Lemma pad4_digits n : 0 <= n <= 9999 -> padStart (String_of_Z n) 4 "0" = Spec.digits4 n.
Proof.
  intros Hn. apply String.eqb_eq.
  apply (range_check
           (fun n => String.eqb (padStart (String_of_Z n) 4 "0") (Spec.digits4 n)) 0 10000);
    [vm_compute; reflexivity|lia].
Qed.

Lemma String_of_Z_digits4 n : 1000 <= n <= 9999 -> String_of_Z n = Spec.digits4 n.
Proof.
  intros Hn. apply String.eqb_eq.
  apply (range_check (fun n => String.eqb (String_of_Z n) (Spec.digits4 n)) 1000 9000);
    [vm_compute; reflexivity|lia].
Qed.

Lemma digit_val_char k : 0 <= k <= 9 -> Date.digit_val (Spec.digit_char k) = Some k.
Proof.
  intros Hk.
  assert (H : match Date.digit_val (Spec.digit_char k) with
              | Some j => j =? k
              | None => false
              end = true).
  { apply (range_check (fun k => match Date.digit_val (Spec.digit_char k) with
                                 | Some j => j =? k
                                 | None => false
                                 end) 0 10); [vm_compute; reflexivity|lia]. }
  destruct (Date.digit_val (Spec.digit_char k)); [|discriminate].
  apply Z.eqb_eq in H. congruence.
Qed.

Lemma digit_not_T k : 0 <= k <= 9 -> Ascii.eqb (Spec.digit_char k) "T" = false.
Proof.
  intros Hk.
  assert (H : negb (Ascii.eqb (Spec.digit_char k) "T") = true).
  { apply (range_check (fun k => negb (Ascii.eqb (Spec.digit_char k) "T")) 0 10);
      [vm_compute; reflexivity|lia]. }
  destruct (Ascii.eqb (Spec.digit_char k) "T"); [discriminate|reflexivity].
Qed.

Lemma digit_compare a b :
  0 <= a <= 9 -> 0 <= b <= 9 ->
  Ascii.compare (Spec.digit_char a) (Spec.digit_char b) = (a ?= b).
Proof.
  intros Ha Hb. unfold Ascii.compare, Spec.digit_char.
  rewrite !N_ascii_embedding by lia.
  rewrite Z2N.inj_compare by lia. apply Z.add_compare_mono_l.
Qed.

Lemma digits2_compare a b :
  0 <= a <= 99 -> 0 <= b <= 99 ->
  String.compare (Spec.digits2 a) (Spec.digits2 b) = (a ?= b).
Proof.
  intros Ha Hb. unfold Spec.digits2. cbn [String.compare].
  rewrite !digit_compare by (Z.div_mod_to_equations; lia).
  destruct (Z.compare_spec (a / 10) (b / 10)) as [H|H|H];
    [destruct (Z.compare_spec (a mod 10) (b mod 10)) as [H'|H'|H']|..];
    symmetry; first [apply Z.compare_eq_iff | apply Z.compare_lt_iff | apply Z.compare_gt_iff];
    Z.div_mod_to_equations; lia.
Qed.

Lemma digits4_compare a b :
  0 <= a <= 9999 -> 0 <= b <= 9999 ->
  String.compare (Spec.digits4 a) (Spec.digits4 b) = (a ?= b).
Proof.
  intros Ha Hb. unfold Spec.digits4, Spec.digits2. cbn [String.compare].
  rewrite !digit_compare by (Z.div_mod_to_equations; lia).
  repeat match goal with
  | |- context [match ?x ?= ?y with _ => _ end] => destruct (Z.compare_spec x y)
  end;
    symmetry; first [apply Z.compare_eq_iff | apply Z.compare_lt_iff | apply Z.compare_gt_iff];
    Z.div_mod_to_equations; lia.
Qed.

(** Comparison of strings of equal length, joined to further text. *)
Lemma compare_app (a b s t : string) :
  String.length a = String.length b ->
  String.compare (a ++ s) (b ++ t)
  = match String.compare a b with Eq => String.compare s t | c => c end.
Proof.
  revert b. induction a as [|c a IH]; intros [|c' b] Hlen; try discriminate Hlen.
  - cbn [String.append String.compare]. reflexivity.
  - change (String c a ++ s)%string with (String c (a ++ s)%string).
    change (String c' b ++ t)%string with (String c' (b ++ t)%string).
    cbn [String.compare]. destruct (Ascii.compare c c'); try reflexivity.
    apply IH. injection Hlen as Hlen. exact Hlen.
Qed.

(** Ten-character date strings compare as the dates do. *)
Lemma iso_date_compare y1 m1 d1 y2 m2 d2 :
  0 <= y1 <= 9999 -> 0 <= y2 <= 9999 ->
  0 <= m1 <= 99 -> 0 <= m2 <= 99 -> 0 <= d1 <= 99 -> 0 <= d2 <= 99 ->
  String.compare (Spec.iso_date (y1, m1, d1)) (Spec.iso_date (y2, m2, d2))
  = Spec.date_compare (y1, m1, d1) (y2, m2, d2).
Proof.
  intros. unfold Spec.iso_date, Spec.date_compare.
  rewrite compare_app by reflexivity. rewrite digits4_compare by assumption.
  destruct (y1 ?= y2); try reflexivity.
  rewrite (compare_app "-" "-") by reflexivity. cbn [String.compare].
  change (Ascii.compare "-" "-") with Eq. cbv iota.
  rewrite compare_app by reflexivity. rewrite digits2_compare by assumption.
  destruct (m1 ?= m2); try reflexivity.
  rewrite (compare_app "-" "-") by reflexivity. cbn [String.compare].
  change (Ascii.compare "-" "-") with Eq. cbv iota.
  apply digits2_compare; assumption.
Qed.

End DateStringFacts.

(** ** The formatted dates *)

Module FormatFacts.

Import JS Time TimeFacts.

Lemma civil_month_day_ranges n :
  1 <= snd (fst (civil_from_days n)) <= 12 /\ 1 <= snd (civil_from_days n) <= 31.
Proof.
  pose proof (civil_from_days_ranges n) as [Hm Hd].
  unfold MonthOfDay, DateOfDay in *. lia.
Qed.

Lemma append_cons (c : ascii) (a s : string) :
  (String c a ++ s)%string = String c (a ++ s)%string.
Proof. reflexivity. Qed.

Lemma append_nil (s : string) : (EmptyString ++ s)%string = s.
Proof. reflexivity. Qed.

Lemma iso_date_length ymd : String.length (Spec.iso_date ymd) = 10%nat.
Proof. destruct ymd as [[y m] d]. reflexivity. Qed.

Section LocalZone.

Variable LocalTZA : Z.

(** date-fns writes the years 1 to 9999 on four digits. *)
Lemma format_yyyy_MM_dd_iso d :
  1 <= YearOfDay (Spec.local_day LocalTZA d) <= 9999 ->
  DateFns.format_yyyy_MM_dd LocalTZA d
  = Spec.iso_date (civil_from_days (Spec.local_day LocalTZA d)).
Proof.
  unfold Spec.local_day, DateFns.format_yyyy_MM_dd, Date.getFullYear, Date.getMonth,
    Date.getDate, Date.LocalTime, YearOfDay, MonthOfDay, DateOfDay.
  pose proof (civil_month_day_ranges (Day (d + LocalTZA))) as [Hm Hd].
  destruct (civil_from_days (Day (d + LocalTZA))) as [[y m] dd]; cbn [fst snd] in *.
  intros Hy. unfold DateFns.addLeadingZeros, Spec.iso_date.
  destruct (Z.ltb_spec 0 y); [|lia].
  destruct (Z.ltb_spec y 0); [lia|].
  destruct (Z.ltb_spec (m - 1 + 1) 0); [lia|].
  destruct (Z.ltb_spec dd 0); [lia|].
  rewrite !Z.abs_eq by lia. replace (m - 1 + 1) with m by lia.
  rewrite DateStringFacts.pad4_digits by lia.
  change (padStart (String_of_Z m) 2 "0") with (Date.pad2 m).
  change (padStart (String_of_Z dd) 2 "0") with (Date.pad2 dd).
  rewrite !DateStringFacts.pad2_digits by lia. reflexivity.
Qed.

(** The date helper writes the years 1000 to 9999 on four digits. *)
Lemma formatDateToString_iso d :
  Spec.four_digit_year (Spec.local_day LocalTZA d) ->
  DateHelpers.formatDateToString LocalTZA d
  = Spec.iso_date (civil_from_days (Spec.local_day LocalTZA d)).
Proof.
  unfold Spec.four_digit_year, Spec.local_day, DateHelpers.formatDateToString,
    Date.getFullYear, Date.getMonth, Date.getDate, Date.LocalTime, YearOfDay, MonthOfDay,
    DateOfDay.
  pose proof (civil_month_day_ranges (Day (d + LocalTZA))) as [Hm Hd].
  destruct (civil_from_days (Day (d + LocalTZA))) as [[y m] dd]; cbn [fst snd] in *.
  intros Hy. unfold Spec.iso_date.
  replace (m - 1 + 1) with m by lia.
  rewrite DateStringFacts.String_of_Z_digits4 by lia.
  change (padStart (String_of_Z m) 2 "0") with (Date.pad2 m).
  change (padStart (String_of_Z dd) 2 "0") with (Date.pad2 dd).
  rewrite !DateStringFacts.pad2_digits by lia. reflexivity.
Qed.

(** Formatted dates compare as the local days do. *)
Lemma format_compare d1 d2 :
  1 <= YearOfDay (Spec.local_day LocalTZA d1) <= 9999 ->
  1 <= YearOfDay (Spec.local_day LocalTZA d2) <= 9999 ->
  String.compare (DateFns.format_yyyy_MM_dd LocalTZA d1)
                 (DateFns.format_yyyy_MM_dd LocalTZA d2)
  = (Spec.local_day LocalTZA d1 ?= Spec.local_day LocalTZA d2).
Proof.
  intros H1 H2. rewrite !format_yyyy_MM_dd_iso by assumption.
  rewrite <- CalendarFacts.civil_from_days_compare.
  pose proof (civil_month_day_ranges (Spec.local_day LocalTZA d1)) as [Hm1 Hd1].
  pose proof (civil_month_day_ranges (Spec.local_day LocalTZA d2)) as [Hm2 Hd2].
  unfold YearOfDay in H1, H2.
  destruct (civil_from_days (Spec.local_day LocalTZA d1)) as [[y1 m1] dd1].
  destruct (civil_from_days (Spec.local_day LocalTZA d2)) as [[y2 m2] dd2].
  cbn [fst snd] in *. apply DateStringFacts.iso_date_compare; lia.
Qed.

End LocalZone.

(** The date part of an ISO string, for the years 0 to 9999. *)
Lemma toISOString_date d :
  0 <= YearOfDay (Day d) <= 9999 ->
  split_head "T" (Date.toISOString d) = Spec.iso_date (civil_from_days (Day d)).
Proof.
  unfold Date.toISOString, YearOfDay.
  pose proof (civil_month_day_ranges (Day d)) as [Hm Hd].
  destruct (civil_from_days (Day d)) as [[y m] dd]; cbn [fst snd] in *.
  intros Hy.
  destruct (Z.leb_spec 0 y); [|lia]. destruct (Z.leb_spec y 9999); [|lia]. cbn [andb].
  rewrite DateStringFacts.pad4_digits by lia.
  rewrite !DateStringFacts.pad2_digits by lia.
  unfold Spec.iso_date, Spec.digits4, Spec.digits2.
  repeat (rewrite append_cons || rewrite append_nil).
  cbn [split_head].
  rewrite !DateStringFacts.digit_not_T by (Z.div_mod_to_equations; lia).
  change (Ascii.eqb "-" "T") with false. cbv iota.
  change (Ascii.eqb "T" "T") with true. cbv iota. reflexivity.
Qed.

End FormatFacts.

(** ** The app date and the keys of the week *)

Module AppDate.

Import JS Time.

Section LocalZone.

Variable LocalTZA : Z.

Lemma app_day_cases t :
  Spec.app_day LocalTZA t
  = Day (t + LocalTZA) - (if HourFromTime (t + LocalTZA) <? 3 then 1 else 0).
Proof.
  unfold Spec.app_day, Day, HourFromTime, msPerDay, msPerHour.
  destruct (Z.ltb_spec (((t + LocalTZA) / 3600000) mod 24) 3);
    Z.div_mod_to_equations; lia.
Qed.

Lemma local_day_three_hours_earlier t :
  Spec.local_day LocalTZA (t - 3 * msPerHour) = Spec.app_day LocalTZA t.
Proof. unfold Spec.local_day, Spec.app_day. f_equal. lia. Qed.

Lemma local_day_shift d k :
  Spec.local_day LocalTZA (d + k * msPerDay) = Spec.local_day LocalTZA d + k.
Proof.
  unfold Spec.local_day.
  replace (d + k * msPerDay + LocalTZA) with (d + LocalTZA + k * msPerDay) by lia.
  apply DateFacts.Day_shift.
Qed.

Lemma getAppDate_eq t :
  DateHelpers.getAppDate LocalTZA t
  = DateHelpers.formatDateToString LocalTZA (t - 3 * msPerHour).
Proof.
  rewrite (DateFacts.formatDateToString_date_string LocalTZA (t - 3 * msPerHour)).
  unfold Spec.local_calendar_date.
  change (Day (t - 3 * msPerHour + LocalTZA))
    with (Spec.local_day LocalTZA (t - 3 * msPerHour)).
  rewrite local_day_three_hours_earlier, app_day_cases.
  unfold DateHelpers.getAppDate, Date.getHours, Date.LocalTime.
  destruct (Z.ltb_spec (HourFromTime (t + LocalTZA)) 3).
  - replace (Date.getDate LocalTZA t - 1) with (Date.getDate LocalTZA t + -1) by lia.
    rewrite DateFacts.setDate_getDate, DateFacts.formatDateToString_date_string.
    unfold Spec.local_calendar_date.
    replace (t + -1 * msPerDay + LocalTZA) with (t + LocalTZA + -1 * msPerDay) by lia.
    rewrite DateFacts.Day_shift. reflexivity.
  - rewrite DateFacts.formatDateToString_date_string. unfold Spec.local_calendar_date.
    rewrite Z.sub_0_r. reflexivity.
Qed.

(** For four-digit years the app date is the ten-character date of the
    app day. *)
Lemma getAppDate_iso t :
  Spec.four_digit_year (Spec.app_day LocalTZA t) ->
  DateHelpers.getAppDate LocalTZA t
  = Spec.iso_date (civil_from_days (Spec.app_day LocalTZA t)).
Proof.
  intros Hy. rewrite getAppDate_eq, FormatFacts.formatDateToString_iso;
    rewrite local_day_three_hours_earlier; [reflexivity|exact Hy].
Qed.

Lemma getAppDate_as_format t :
  Spec.four_digit_year (Spec.app_day LocalTZA t) ->
  DateHelpers.getAppDate LocalTZA t
  = DateFns.format_yyyy_MM_dd LocalTZA (t - 3 * msPerHour).
Proof.
  intros Hy. rewrite getAppDate_iso by exact Hy.
  rewrite FormatFacts.format_yyyy_MM_dd_iso; rewrite local_day_three_hours_earlier;
    [reflexivity|unfold Spec.four_digit_year in Hy; lia].
Qed.

(** The years of the seven days of a week. *)
Lemma week_years weekStart i :
  1 <= YearOfDay (Spec.local_day LocalTZA weekStart) ->
  YearOfDay (Spec.local_day LocalTZA weekStart + 6) <= 9999 ->
  0 <= i <= 6 ->
  1 <= YearOfDay (Spec.local_day LocalTZA (weekStart + i * msPerDay)) <= 9999.
Proof.
  intros Hlo Hhi Hi. rewrite local_day_shift.
  pose proof (CalendarFacts.YearOfDay_mono (Spec.local_day LocalTZA weekStart)
                (Spec.local_day LocalTZA weekStart + i) ltac:(lia)).
  pose proof (CalendarFacts.YearOfDay_mono (Spec.local_day LocalTZA weekStart + i)
                (Spec.local_day LocalTZA weekStart + 6) ltac:(lia)).
  lia.
Qed.

(** A key of the week is below the app date exactly when its day is
    before the app day. *)
Lemma key_before_today now weekStart i :
  Spec.four_digit_year (Spec.app_day LocalTZA now) ->
  1 <= YearOfDay (Spec.local_day LocalTZA weekStart) ->
  YearOfDay (Spec.local_day LocalTZA weekStart + 6) <= 9999 ->
  0 <= i <= 6 ->
  str_lt (DateFns.format_yyyy_MM_dd LocalTZA (weekStart + i * msPerDay))
         (DateHelpers.getAppDate LocalTZA now)
  = (Spec.local_day LocalTZA weekStart + i <? Spec.app_day LocalTZA now).
Proof.
  intros Hy Hlo Hhi Hi. rewrite getAppDate_as_format by exact Hy.
  unfold str_lt, String.ltb, Z.ltb.
  rewrite FormatFacts.format_compare.
  - rewrite local_day_shift, local_day_three_hours_earlier. reflexivity.
  - apply week_years; assumption.
  - rewrite local_day_three_hours_earlier. unfold Spec.four_digit_year in Hy. lia.
Qed.

(** The keys of the week increase with the days. *)
Lemma keys_increase weekStart i j :
  1 <= YearOfDay (Spec.local_day LocalTZA weekStart) ->
  YearOfDay (Spec.local_day LocalTZA weekStart + 6) <= 9999 ->
  0 <= i <= 6 -> 0 <= j <= 6 ->
  String.compare (DateFns.format_yyyy_MM_dd LocalTZA (weekStart + i * msPerDay))
                 (DateFns.format_yyyy_MM_dd LocalTZA (weekStart + j * msPerDay))
  = (i ?= j).
Proof.
  intros Hlo Hhi Hi Hj.
  rewrite FormatFacts.format_compare by (apply week_years; assumption).
  rewrite !local_day_shift. apply Z.add_compare_mono_l.
Qed.

End LocalZone.

End AppDate.

(** X1. The app date is the calendar date that the local wall clock of
    the instant shows once it is set back three hours: the day of the
    app changes when the local clock reads 3 AM and at no other
    reading. *)
Theorem getAppDate_three_hours_earlier (LocalTZA : Z) (t : Date.t) :
  DateHelpers.getAppDate LocalTZA t
  = Spec.date_string
      (Time.civil_from_days
         (Time.Day (Date.LocalTime LocalTZA t - 3 * Time.msPerHour))).
Proof.
  rewrite AppDate.getAppDate_eq, DateFacts.formatDateToString_date_string.
  unfold Spec.local_calendar_date, Date.LocalTime. do 3 f_equal. lia.
Qed.

(** X2. For a date whose local year has four digits, the date helper and
    date-fns write the same ten characters. *)
Theorem formats_agree_on_four_digit_years (LocalTZA : Z) (d : Date.t) :
  Spec.four_digit_year (Spec.local_day LocalTZA d) ->
  DateHelpers.formatDateToString LocalTZA d = DateFns.format_yyyy_MM_dd LocalTZA d
  /\ String.length (DateHelpers.formatDateToString LocalTZA d) = 10%nat.
Proof.
  intros Hy. rewrite FormatFacts.formatDateToString_iso by exact Hy.
  rewrite FormatFacts.format_yyyy_MM_dd_iso by (unfold Spec.four_digit_year in Hy; lia).
  split; [reflexivity|apply FormatFacts.iso_date_length].
Qed.

Lemma formats_agree_witness :
  DateHelpers.formatDateToString 0 Sample.thursday_jan_18_noon
  = DateFns.format_yyyy_MM_dd 0 Sample.thursday_jan_18_noon
  /\ String.length (DateHelpers.formatDateToString 0 Sample.thursday_jan_18_noon) = 10%nat.
Proof.
  apply (formats_agree_on_four_digit_years 0 Sample.thursday_jan_18_noon).
  vm_compute. split; discriminate.
Defined.

(** X3. Formatted dates are in string order exactly when their local days
    are in calendar order (years 1 to 9999). *)
Theorem formatted_dates_order (LocalTZA : Z) (d1 d2 : Date.t) :
  1 <= Time.YearOfDay (Spec.local_day LocalTZA d1) <= 9999 ->
  1 <= Time.YearOfDay (Spec.local_day LocalTZA d2) <= 9999 ->
  JS.str_lt (DateFns.format_yyyy_MM_dd LocalTZA d1) (DateFns.format_yyyy_MM_dd LocalTZA d2)
  = (Spec.local_day LocalTZA d1 <? Spec.local_day LocalTZA d2)
  /\ (DateFns.format_yyyy_MM_dd LocalTZA d1 = DateFns.format_yyyy_MM_dd LocalTZA d2
      <-> Spec.local_day LocalTZA d1 = Spec.local_day LocalTZA d2).
Proof.
  intros H1 H2. pose proof (FormatFacts.format_compare LocalTZA d1 d2 H1 H2) as Hc.
  split.
  - unfold JS.str_lt, String.ltb, Z.ltb. rewrite Hc. reflexivity.
  - split.
    + intros Heq. rewrite Heq, JSFacts.compare_refl in Hc.
      symmetry in Hc. apply Z.compare_eq_iff in Hc. exact Hc.
    + intros Heq. rewrite Heq, Z.compare_refl in Hc.
      apply String.compare_eq_iff in Hc. exact Hc.
Qed.

Lemma formatted_dates_order_witness :
  JS.str_lt (DateFns.format_yyyy_MM_dd 0 Sample.monday_jan_8)
            (DateFns.format_yyyy_MM_dd 0 Sample.monday_jan_15)
  = (Spec.local_day 0 Sample.monday_jan_8 <? Spec.local_day 0 Sample.monday_jan_15).
Proof.
  apply (formatted_dates_order 0 Sample.monday_jan_8 Sample.monday_jan_15);
    vm_compute; split; discriminate.
Defined.

(** X4. The app date never moves backwards: of two instants, the later one
    has an app date that is not below the earlier one's (four-digit
    years). *)
Theorem getAppDate_monotone (LocalTZA : Z) (t1 t2 : Date.t) :
  t1 <= t2 ->
  Spec.four_digit_year (Spec.app_day LocalTZA t1) ->
  Spec.four_digit_year (Spec.app_day LocalTZA t2) ->
  JS.str_lt (DateHelpers.getAppDate LocalTZA t2) (DateHelpers.getAppDate LocalTZA t1)
  = false.
Proof.
  intros Hle H1 H2. rewrite !AppDate.getAppDate_as_format by assumption.
  unfold JS.str_lt, String.ltb. rewrite FormatFacts.format_compare.
  - rewrite !AppDate.local_day_three_hours_earlier.
    assert (Hd : Spec.app_day LocalTZA t1 <= Spec.app_day LocalTZA t2).
    { unfold Spec.app_day, Time.Day, Time.msPerDay, Time.msPerHour.
      Z.div_mod_to_equations. lia. }
    destruct (Z.compare_spec (Spec.app_day LocalTZA t2) (Spec.app_day LocalTZA t1));
      try reflexivity. lia.
  - rewrite AppDate.local_day_three_hours_earlier. unfold Spec.four_digit_year in H2. lia.
  - rewrite AppDate.local_day_three_hours_earlier. unfold Spec.four_digit_year in H1. lia.
Qed.

Lemma getAppDate_monotone_witness :
  JS.str_lt (DateHelpers.getAppDate 0 Sample.thursday_jan_18_noon)
            (DateHelpers.getAppDate 0 Sample.monday_jan_15_1am) = false.
Proof.
  apply (getAppDate_monotone 0 Sample.monday_jan_15_1am Sample.thursday_jan_18_noon).
  - vm_compute. discriminate.
  - vm_compute. split; discriminate.
  - vm_compute. split; discriminate.
Defined.

(** X5. The seven keys of a week are pairwise different and in increasing
    string order (years 1 to 9999). *)
Theorem week_keys_increasing (LocalTZA : Z) (weekStart : Date.t) :
  1 <= Time.YearOfDay (Spec.local_day LocalTZA weekStart) ->
  Time.YearOfDay (Spec.local_day LocalTZA weekStart + 6) <= 9999 ->
  List.NoDup (Spec.week_keys LocalTZA weekStart)
  /\ forall i j a b,
       nth_error (Spec.week_keys LocalTZA weekStart) i = Some a ->
       nth_error (Spec.week_keys LocalTZA weekStart) j = Some b ->
       (i < j)%nat -> JS.str_lt a b = true.
Proof.
  intros Hlo Hhi.
  assert (Hlt : forall i j a b,
             nth_error (Spec.week_keys LocalTZA weekStart) i = Some a ->
             nth_error (Spec.week_keys LocalTZA weekStart) j = Some b ->
             (i < j)%nat -> JS.str_lt a b = true).
  { intros i j a b Hi Hj Hij. unfold Spec.week_keys in Hi, Hj.
    rewrite nth_error_map in Hi, Hj.
    destruct (nth_error [0; 1; 2; 3; 4; 5; 6] i) as [x|] eqn:Hx; [|discriminate Hi].
    destruct (nth_error [0; 1; 2; 3; 4; 5; 6] j) as [y|] eqn:Hy; [|discriminate Hj].
    cbn in Hi, Hj. injection Hi as <-. injection Hj as <-.
    assert (Hxy : 0 <= x <= 6 /\ 0 <= y <= 6 /\ x < y).
    { do 7 (destruct i as [|i]; [injection Hx as <-;
              do 7 (destruct j as [|j]; [injection Hy as <-; lia|]);
              destruct j; discriminate Hy|]).
      destruct i; discriminate Hx. }
    unfold JS.str_lt, String.ltb.
    rewrite (AppDate.keys_increase LocalTZA weekStart x y) by lia.
    replace (x ?= y) with Lt by (symmetry; apply Z.compare_lt_iff; lia). reflexivity. }
  split; [|exact Hlt].
  apply (proj2 (NoDup_nth_error _)). intros i j Hi Heq.
  destruct (Nat.lt_trichotomy i j) as [Hij|[Hij|Hij]]; [|exact Hij|].
  - exfalso.
    destruct (nth_error (Spec.week_keys LocalTZA weekStart) i) as [a|] eqn:Ha;
      [|apply nth_error_None in Ha; lia].
    symmetry in Heq. pose proof (Hlt i j a a Ha Heq Hij) as H.
    rewrite JSFacts.str_lt_irrefl in H. discriminate H.
  - exfalso.
    destruct (nth_error (Spec.week_keys LocalTZA weekStart) i) as [a|] eqn:Ha;
      [|apply nth_error_None in Ha; lia].
    symmetry in Heq. pose proof (Hlt j i a a Heq Ha Hij) as H.
    rewrite JSFacts.str_lt_irrefl in H. discriminate H.
Qed.

Lemma week_keys_increasing_witness : List.NoDup (Spec.week_keys 0 Sample.monday_jan_15).
Proof.
  apply (week_keys_increasing 0 Sample.monday_jan_15); vm_compute; discriminate.
Defined.

(** ** The days that enter the averages *)

Module WeekFacts.

Import JS Time.

Lemma filter_and_prefix {A : Type} (b p : A -> bool) (l : list A) :
  forall k : nat,
    (forall i x, nth_error l i = Some x -> b x = (i <? k)%nat) ->
    List.filter (fun x => b x && p x) l = List.filter p (firstn k l).
Proof.
  induction l as [|x l IH]; intros k H.
  - destruct k; reflexivity.
  - destruct k as [|k].
    + transitivity (@nil A); [|reflexivity].
      apply WeeklyClaims.filter_none. intros y Hy.
      destruct (In_nth_error _ _ Hy) as [i Hi].
      rewrite (H i y Hi). reflexivity.
    + cbn [firstn List.filter]. rewrite (H 0%nat x eq_refl). cbn [Nat.ltb Nat.leb andb].
      rewrite (IH k); [reflexivity|].
      intros i y Hi. apply (H (S i) y Hi).
Qed.

Lemma week_index (i : nat) (z : Z) :
  nth_error [0; 1; 2; 3; 4; 5; 6] i = Some z -> z = Z.of_nat i /\ (i < 7)%nat.
Proof.
  intros H.
  do 7 (destruct i as [|i]; [injection H as <-; split; [reflexivity|lia]|]).
  destruct i; discriminate H.
Qed.

Section LocalZone.

Variable LocalTZA : Z.

(** The completed days are the days with positive calories among the
    first days of the week, as many as lie before the app day. *)
Lemma completed_prefix now weekStart (allData : gmap string (list FoodEntry.t)) :
  Spec.four_digit_year (Spec.app_day LocalTZA now) ->
  1 <= YearOfDay (Spec.local_day LocalTZA weekStart) ->
  YearOfDay (Spec.local_day LocalTZA weekStart + 6) <= 9999 ->
  WeeklyStats.completedDaysWithFood (DateHelpers.getAppDate LocalTZA now)
    (map (Spec.day_aggregate allData) (Spec.week_keys LocalTZA weekStart))
  = List.filter (fun day => PrimFloat.ltb 0 (DayData.calories day))
      (firstn (Z.to_nat (Z.min 7 (Z.max 0 (Spec.app_day LocalTZA now
                                            - Spec.local_day LocalTZA weekStart))))
              (map (Spec.day_aggregate allData) (Spec.week_keys LocalTZA weekStart))).
Proof.
  intros Hy Hlo Hhi. unfold WeeklyStats.completedDaysWithFood.
  apply (filter_and_prefix
           (fun day => str_lt (DayData.date day) (DateHelpers.getAppDate LocalTZA now))).
  intros i x Hx. unfold Spec.week_keys in Hx. rewrite !nth_error_map in Hx.
  destruct (nth_error [0; 1; 2; 3; 4; 5; 6] i) as [z|] eqn:Hz; [|discriminate Hx].
  cbn in Hx. injection Hx as <-.
  destruct (week_index i z Hz) as [-> Hi].
  change (DayData.date (Spec.day_aggregate allData ?k)) with k.
  cbn [DayData.date Spec.day_aggregate].
  rewrite (AppDate.key_before_today LocalTZA now weekStart (Z.of_nat i)) by (assumption || lia).
  destruct (Z.ltb_spec (Spec.local_day LocalTZA weekStart + Z.of_nat i)
                       (Spec.app_day LocalTZA now));
    symmetry; [apply Nat.ltb_lt|apply Nat.ltb_ge]; lia.
Qed.

End LocalZone.

End WeekFacts.

(** X6. The days that enter the averages are the days with positive calories
    that lie before the app day; they are taken from the first days of
    the week, as many as the app day is past its Monday, so neither the
    day in progress nor a later day of the week is among them
    (four-digit years). *)
Theorem completed_days_are_past_days (LocalTZA : Z) (now weekStart : Date.t)
    (targetCalories maintenanceCalories : JS.number)
    (getDataForRange : string -> string -> option (gmap string (list FoodEntry.t)))
    (allData : gmap string (list FoodEntry.t)) :
  getDataForRange (DateFns.format_yyyy_MM_dd LocalTZA weekStart)
                  (DateFns.format_yyyy_MM_dd LocalTZA (weekStart + 6 * Time.msPerDay))
    = Some allData ->
  Spec.four_digit_year (Spec.app_day LocalTZA now) ->
  1 <= Time.YearOfDay (Spec.local_day LocalTZA weekStart) ->
  Time.YearOfDay (Spec.local_day LocalTZA weekStart + 6) <= 9999 ->
  exists stats,
    WeeklyStats.getWeeklyStats LocalTZA now weekStart targetCalories maintenanceCalories
      getDataForRange = Some stats
    /\ WeeklyStats.completedDaysWithFood (DateHelpers.getAppDate LocalTZA now)
         (Stats.dailyData stats)
       = List.filter (fun day => PrimFloat.ltb 0 (DayData.calories day))
           (firstn (Z.to_nat (Z.min 7 (Z.max 0 (Spec.app_day LocalTZA now
                                                 - Spec.local_day LocalTZA weekStart))))
                   (Stats.dailyData stats)).
Proof.
  intros Hfetch Hy Hlo Hhi. eexists. split.
  { apply WeeklyClaims.getWeeklyStats_resolved. exact Hfetch. }
  rewrite WeeklyStatsFacts.weekly_stats_of_eq. cbv zeta. cbn [Stats.dailyData].
  exact (WeekFacts.completed_prefix LocalTZA now weekStart allData Hy Hlo Hhi).
Qed.

Lemma completed_days_are_past_days_witness :
  exists stats,
    WeeklyStats.getWeeklyStats 0 Sample.thursday_jan_18_noon Sample.monday_jan_15 2000 2000
      (fun _ _ => Some Sample.week_of_jan_15) = Some stats
    /\ WeeklyStats.completedDaysWithFood (DateHelpers.getAppDate 0 Sample.thursday_jan_18_noon)
         (Stats.dailyData stats)
       = List.filter (fun day => PrimFloat.ltb 0 (DayData.calories day))
           (firstn 3 (Stats.dailyData stats)).
Proof.
  apply (completed_days_are_past_days 0 Sample.thursday_jan_18_noon Sample.monday_jan_15
           2000 2000 (fun _ _ => Some Sample.week_of_jan_15) Sample.week_of_jan_15 eq_refl).
  - vm_compute. split; discriminate.
  - vm_compute. discriminate.
  - vm_compute. discriminate.
Defined.

(** ** Parsing a date string *)

Module ParseFacts.

Import JS Time TimeFacts.

Lemma civil_from_days_proj n :
  civil_from_days n = (YearOfDay n, MonthOfDay n + 1, DateOfDay n).
Proof.
  unfold YearOfDay, MonthOfDay, DateOfDay.
  destruct (civil_from_days n) as [[y m] d]; cbn [fst snd]. f_equal. f_equal. lia.
Qed.

Lemma digits4_value y :
  0 <= y <= 9999 ->
  1000 * (y / 1000) + 100 * (y / 100 mod 10) + 10 * (y mod 100 / 10) + y mod 100 mod 10 = y.
Proof. intros. Z.div_mod_to_equations. lia. Qed.

Lemma digits2_value m : 10 * (m / 10) + m mod 10 = m.
Proof. Z.div_mod_to_equations. lia. Qed.

(** [new Date(s)] on the ten-character date of a day is midnight UTC of
    that day. *)
Lemma parse_iso_date n :
  0 <= YearOfDay n <= 9999 ->
  Date.parse (Spec.iso_date (civil_from_days n)) = Some (n * msPerDay).
Proof.
  intros Hy. rewrite civil_from_days_proj.
  pose proof (civil_from_days_ranges n) as [Hm Hd].
  pose proof (MakeDay_same_month n (DateOfDay n)) as Hday.
  pose proof (MakeDay_same_month n 1) as Hfirst.
  pose proof (CalendarFacts.next_month_after n) as Hnext.
  set (y := YearOfDay n) in *. set (m := MonthOfDay n) in *. set (d := DateOfDay n) in *.
  clearbody y m d.
  unfold Spec.iso_date, Spec.digits4, Spec.digits2.
  repeat (rewrite FormatFacts.append_cons || rewrite FormatFacts.append_nil).
  unfold Date.parse.
  rewrite !DateStringFacts.digit_val_char by (Z.div_mod_to_equations; lia).
  cbn [mbind option_bind].
  rewrite digits4_value by lia. rewrite !digits2_value.
  unfold Date.DaysInMonth. replace (m + 1 - 1) with m by lia.
  destruct (Z.leb_spec 1 (m + 1)); [|lia].
  destruct (Z.leb_spec (m + 1) 12); [|lia].
  destruct (Z.leb_spec 1 d); [|lia].
  destruct (Z.leb_spec d (MakeDay y (m + 1) 1 - MakeDay y m 1)); [|lia].
  cbn [andb]. rewrite Hday. unfold MakeDate. f_equal. lia.
Qed.

End ParseFacts.

(** ** The current week and the week selector *)

Module WeekSelector.

Import JS Time.


Section LocalZone.

Variable LocalTZA : Z.

Lemma parse_app_date now :
  Spec.four_digit_year (Spec.app_day LocalTZA now) ->
  Date.parse (DateHelpers.getAppDate LocalTZA now)
  = Some (Spec.app_day LocalTZA now * msPerDay).
Proof.
  intros Hy. rewrite AppDate.getAppDate_iso by exact Hy.
  apply ParseFacts.parse_iso_date. unfold Spec.four_digit_year in Hy. lia.
Qed.

(** The start of the week of the day with number [n], as an instant. *)
Lemma startOfWeek_of_day d n :
  Day (d + LocalTZA) = n ->
  DateFns.startOfWeek LocalTZA d 1
  = (n - (WeekDayOfDay n + 6) mod 7) * msPerDay - LocalTZA.
Proof. intros <-. apply DateFacts.startOfWeek_monday. Qed.

Lemma analytics_current_week now :
  - msPerDay <= LocalTZA < msPerDay ->
  Spec.four_digit_year (Spec.app_day LocalTZA now) ->
  Analytics.currentWeekStart LocalTZA now
  = Some (DateFns.startOfWeek LocalTZA
            (now - 3 * msPerHour - (if LocalTZA <? 0 then msPerDay else 0)) 1).
Proof.
  intros Htz Hy. unfold Analytics.currentWeekStart, Analytics.getTodayDate,
    WeeklyStats.getWeekStart.
  rewrite parse_app_date by exact Hy. cbn [mbind option_bind]. f_equal.
  set (n := Spec.app_day LocalTZA now - (if LocalTZA <? 0 then 1 else 0)).
  rewrite (startOfWeek_of_day _ n), (startOfWeek_of_day _ n); [reflexivity| |].
  - subst n. unfold Spec.app_day, Day, msPerDay, msPerHour in *.
    destruct (Z.ltb_spec LocalTZA 0); Z.div_mod_to_equations; lia.
  - subst n. unfold Spec.app_day, Day, msPerDay, msPerHour in *.
    destruct (Z.ltb_spec LocalTZA 0); Z.div_mod_to_equations; lia.
Qed.

(** A step of the selector, whatever the current week is. *)
Lemma step_target weekStart direction :
  Date.setDate LocalTZA weekStart (Date.getDate LocalTZA weekStart + direction * 7)
  = weekStart + direction * 7 * msPerDay.
Proof. apply DateFacts.setDate_getDate. Qed.

Lemma str_gt_false_le d1 d2 :
  1 <= YearOfDay (Spec.local_day LocalTZA d1) <= 9999 ->
  1 <= YearOfDay (Spec.local_day LocalTZA d2) <= 9999 ->
  str_gt (DateFns.format_yyyy_MM_dd LocalTZA d1) (DateFns.format_yyyy_MM_dd LocalTZA d2)
  = (Spec.local_day LocalTZA d2 <? Spec.local_day LocalTZA d1).
Proof.
  intros H1 H2. unfold str_gt, String.ltb, Z.ltb.
  rewrite FormatFacts.format_compare by assumption. reflexivity.
Qed.


End LocalZone.

End WeekSelector.

(** X7. [new Date(getAppDate())] is midnight UTC of the app day (four-digit
    years): the string written by the date helper reads back as the day
    it stands for. *)
Theorem app_date_reads_back (LocalTZA : Z) (now : Date.t) :
  Spec.four_digit_year (Spec.app_day LocalTZA now) ->
  Date.parse (DateHelpers.getAppDate LocalTZA now)
  = Some (Spec.app_day LocalTZA now * Time.msPerDay).
Proof. apply WeekSelector.parse_app_date. Qed.

Lemma app_date_reads_back_witness :
  Date.parse (DateHelpers.getAppDate 0 Sample.monday_jan_15_1am)
  = Some (Spec.app_day 0 Sample.monday_jan_15_1am * Time.msPerDay).
Proof.
  apply (app_date_reads_back 0 Sample.monday_jan_15_1am). vm_compute. split; discriminate.
Defined.

(** X8. The current week of the analytics screen: at or east of UTC it is
    the week of the app date; west of UTC it is the week of the day
    before the app date, because the date string is read as midnight
    UTC. *)
Theorem analytics_current_week_start (LocalTZA : Z) (now : Date.t) :
  - Time.msPerDay <= LocalTZA < Time.msPerDay ->
  Spec.four_digit_year (Spec.app_day LocalTZA now) ->
  Analytics.currentWeekStart LocalTZA now
  = Some (DateFns.startOfWeek LocalTZA
            (now - 3 * Time.msPerHour - (if LocalTZA <? 0 then Time.msPerDay else 0)) 1).
Proof. apply WeekSelector.analytics_current_week. Qed.

Lemma analytics_current_week_start_witness :
  Analytics.currentWeekStart (-18000000) (Sample.monday_jan_15 + 64800000)
  = Some (DateFns.startOfWeek (-18000000)
            (Sample.monday_jan_15 + 64800000 - 3 * Time.msPerHour - Time.msPerDay) 1).
Proof.
  apply (analytics_current_week_start (-18000000) (Sample.monday_jan_15 + 64800000)).
  - unfold Time.msPerDay. lia.
  - vm_compute. split; discriminate.
Defined.

(** X9. A backward step (or a step of zero weeks) of either week selector is
    never refused: the selected week becomes the one whose local calendar
    day is seven days earlier per step. *)
Theorem navigateWeek_backward (LocalTZA : Z) (now weekStart : Date.t) (direction : Z) :
  direction <= 0 ->
  exists w,
    Analytics.navigateWeek LocalTZA now weekStart direction = Some w
    /\ Dashboard.navigateWeek LocalTZA now weekStart direction = Some w
    /\ Spec.local_day LocalTZA w = Spec.local_day LocalTZA weekStart + direction * 7.
Proof.
  intros Hdir. unfold Analytics.navigateWeek, Dashboard.navigateWeek.
  rewrite WeekSelector.step_target.
  destruct (Z.ltb_spec 0 direction); [lia|].
  eexists. split; [reflexivity|]. split; [reflexivity|].
  apply AppDate.local_day_shift.
Qed.

Lemma navigateWeek_backward_witness :
  exists w,
    Analytics.navigateWeek 0 Sample.thursday_jan_18_noon Sample.monday_jan_15 (-1) = Some w
    /\ Dashboard.navigateWeek 0 Sample.thursday_jan_18_noon Sample.monday_jan_15 (-1)
       = Some w
    /\ Spec.local_day 0 w = Spec.local_day 0 Sample.monday_jan_15 + -1 * 7.
Proof.
  apply (navigateWeek_backward 0 Sample.thursday_jan_18_noon Sample.monday_jan_15 (-1)).
  lia.
Defined.

(** X10. The analytics week selector never leaves a week that is after the
    current week: if the selected week starts no later than the current
    one, so does the week after any step (years 1 to 9999). *)
Theorem analytics_navigateWeek_bounded (LocalTZA : Z) (now weekStart current : Date.t)
    (direction : Z) :
  Analytics.currentWeekStart LocalTZA now = Some current ->
  Spec.local_day LocalTZA weekStart <= Spec.local_day LocalTZA current ->
  1 <= Time.YearOfDay (Spec.local_day LocalTZA current) <= 9999 ->
  1 <= Time.YearOfDay (Spec.local_day LocalTZA weekStart + direction * 7) <= 9999 ->
  exists w,
    Analytics.navigateWeek LocalTZA now weekStart direction = Some w
    /\ (w = weekStart \/ w = weekStart + direction * 7 * Time.msPerDay)
    /\ Spec.local_day LocalTZA w <= Spec.local_day LocalTZA current.
Proof.
  intros Hcur Hle Hyc Hyn. unfold Analytics.navigateWeek.
  rewrite WeekSelector.step_target, Hcur. cbn [mbind option_bind].
  destruct (Z.ltb_spec 0 direction) as [Hdir|Hdir].
  - rewrite WeekSelector.str_gt_false_le;
      [|rewrite AppDate.local_day_shift; exact Hyn|exact Hyc].
    destruct (Z.ltb_spec (Spec.local_day LocalTZA current)
                (Spec.local_day LocalTZA (weekStart + direction * 7 * Time.msPerDay))).
    + exists weekStart. split; [reflexivity|]. split; [left; reflexivity|exact Hle].
    + eexists. split; [reflexivity|]. split; [right; reflexivity|assumption].
  - eexists. split; [reflexivity|]. split; [right; reflexivity|].
    rewrite AppDate.local_day_shift. lia.
Qed.

Lemma analytics_navigateWeek_bounded_witness :
  exists w,
    Analytics.navigateWeek 0 Sample.monday_jan_15_1am Sample.monday_jan_8 1 = Some w
    /\ (w = Sample.monday_jan_8 \/ w = Sample.monday_jan_8 + 1 * 7 * Time.msPerDay)
    /\ Spec.local_day 0 w <= Spec.local_day 0 Sample.monday_jan_8.
Proof.
  apply (analytics_navigateWeek_bounded 0 Sample.monday_jan_15_1am Sample.monday_jan_8
           Sample.monday_jan_8 1).
  - vm_compute. reflexivity.
  - vm_compute. discriminate.
  - vm_compute. split; discriminate.
  - vm_compute. split; discriminate.
Defined.



(** ** More on numbers *)

Module FloatFacts.

Import JS.

(** Adding a number that is not zero to [0] gives that number. *)
Lemma zero_add (x : number) : PrimFloat.eqb x 0 = false -> (0 + x)%float = x.
Proof.
  intros Hx.
  assert (H : Prim2SF (0 + x)%float = Prim2SF x).
  { rewrite add_spec. rewrite FloatAxioms.eqb_spec in Hx.
    change (Prim2SF 0) with (S754_zero false) in *.
    destruct (Prim2SF x) as [s| | |s m e]; try reflexivity.
    destruct s; discriminate Hx. }
  rewrite <- (SF2Prim_Prim2SF (0 + x)%float), H. apply SF2Prim_Prim2SF.
Qed.

(** A positive number is truthy. *)
Lemma positive_truthy (x : number) : PrimFloat.ltb 0 x = true -> truthy x = true.
Proof.
  intros Hx. unfold truthy, PrimFloat.is_nan.
  rewrite (JSFacts.positive_not_zero x Hx). cbn [orb].
  rewrite ltb_spec in Hx. rewrite FloatAxioms.eqb_spec.
  destruct (Prim2SF x) as [s| | |s m e]; cbn in *; try discriminate Hx; try reflexivity.
  - destruct s; reflexivity.
  - unfold SFeqb, SFcompare. rewrite Z.compare_refl, Pos.compare_cont_refl.
    destruct s; reflexivity.
Qed.

(** Equal numbers are not in strict order. *)
Lemma eqb_not_ltb (x y : number) : PrimFloat.eqb x y = true -> PrimFloat.ltb x y = false.
Proof.
  rewrite FloatAxioms.eqb_spec, ltb_spec. unfold SFeqb, SFltb.
  destruct (SFcompare (Prim2SF x) (Prim2SF y)) as [[| |]|]; intros H;
    try discriminate H; reflexivity.
Qed.

End FloatFacts.

(** ** Grouping the fetched entries by date *)

Module Grouping.

Import JS Time.

(** The entries dated [key], in their order of arrival. *)
Abbreviation dated key entries :=
  (List.filter (fun e => String.eqb (FoodEntry.entry_date e) key) entries).

Lemma dashboard_group_step_lookup (g : gmap string (list FoodEntry.t)) (e : FoodEntry.t)
    (key : string) :
  Spec.entries_on (Dashboard.group_step g e) key
  = (Spec.entries_on g key ++ dated key [e])%list.
Proof.
  unfold Dashboard.group_step, Spec.entries_on. cbn [List.filter].
  destruct (String.eqb_spec (FoodEntry.entry_date e) key) as [->|Hne].
  - destruct (g !! key) as [l|] eqn:Hg; rewrite lookup_insert_eq; reflexivity.
  - destruct (g !! FoodEntry.entry_date e) as [l|] eqn:Hg;
      rewrite lookup_insert_ne by exact Hne; rewrite app_nil_r; reflexivity.
Qed.

Lemma dashboard_fold_lookup (entries : list FoodEntry.t) :
  forall (g : gmap string (list FoodEntry.t)) (key : string),
    Spec.entries_on (fold_left Dashboard.group_step entries g) key
    = (Spec.entries_on g key ++ dated key entries)%list.
Proof.
  induction entries as [|e entries IH]; intros g key; cbn [fold_left List.filter].
  - rewrite app_nil_r. reflexivity.
  - rewrite IH, dashboard_group_step_lookup. cbn [List.filter].
    destruct (String.eqb (FoodEntry.entry_date e) key);
      rewrite <- app_assoc; reflexivity.
Qed.

(** A key is present in the grouped mapping exactly when some entry has
    that date. *)
Lemma dashboard_group_present (entries : list FoodEntry.t) :
  forall (g : gmap string (list FoodEntry.t)) (key : string),
    g !! key = None ->
    (fold_left Dashboard.group_step entries g !! key = None <-> dated key entries = []).
Proof.
  induction entries as [|e entries IH]; intros g key Hg; cbn [fold_left List.filter].
  - split; [reflexivity|intros _; exact Hg].
  - unfold Dashboard.group_step at 2.
    destruct (String.eqb_spec (FoodEntry.entry_date e) key) as [->|Hne].
    + rewrite Hg. split; [|discriminate].
      intros Hnone. exfalso.
      pose proof (dashboard_fold_lookup entries (<[key := [e]]> g) key) as H.
      unfold Spec.entries_on in H at 1 2. rewrite Hnone, lookup_insert_eq in H.
      discriminate H.
    + destruct (g !! FoodEntry.entry_date e); apply IH;
        rewrite lookup_insert_ne by exact Hne; exact Hg.
Qed.

Lemma analytics_group_step_lookup (g : gmap string (list FoodEntry.t)) (e : FoodEntry.t)
    (key : string) :
  Spec.entries_on (Analytics.group_step g e) key
  = (Spec.entries_on g key ++ dated key [e])%list.
Proof. apply dashboard_group_step_lookup. Qed.

Lemma analytics_fold_lookup (entries : list FoodEntry.t) :
  forall (g : gmap string (list FoodEntry.t)) (key : string),
    Spec.entries_on (fold_left Analytics.group_step entries g) key
    = (Spec.entries_on g key ++ dated key entries)%list.
Proof. apply dashboard_fold_lookup. Qed.

Lemma empty_days_lookup (LocalTZA : Z) (weekStart : Date.t) (key : string) :
  Spec.entries_on (Analytics.week_of_empty_days LocalTZA weekStart) key = [].
Proof.
  unfold Analytics.week_of_empty_days.
  assert (H : forall (l : list Z) (g : gmap string (list FoodEntry.t)),
             Spec.entries_on g key = [] ->
             Spec.entries_on
               (fold_left (fun grouped i =>
                             <[DateFns.format_yyyy_MM_dd LocalTZA
                                 (DateFns.addDays LocalTZA weekStart i) := []]> grouped)
                          l g) key = []).
  { induction l as [|i l IH]; intros g Hg; [exact Hg|]. cbn [fold_left]. apply IH.
    unfold Spec.entries_on in *.
    destruct (String.eqb_spec
                (DateFns.format_yyyy_MM_dd LocalTZA (DateFns.addDays LocalTZA weekStart i))
                key) as [->|Hne].
    - rewrite lookup_insert_eq. reflexivity.
    - rewrite lookup_insert_ne by exact Hne. exact Hg. }
  apply H. reflexivity.
Qed.

End Grouping.

(** X12. The dashboard groups the fetched entries by [entry_date]: what the
    statistics engine finds under a key is the list of the fetched entries
    with that date, in their order of arrival, and a key is absent
    exactly when no entry has that date. The analytics screen's grouping
    gives the same lists. *)
Theorem grouping_by_entry_date (LocalTZA : Z) (weekStart : Date.t)
    (entries : list FoodEntry.t) (key : string) :
  Spec.entries_on (Dashboard.group_by_date entries) key
  = List.filter (fun e => String.eqb (FoodEntry.entry_date e) key) entries
  /\ (Dashboard.group_by_date entries !! key = None
      <-> List.filter (fun e => String.eqb (FoodEntry.entry_date e) key) entries = [])
  /\ Spec.entries_on (Analytics.groupedByDate LocalTZA weekStart entries) key
     = List.filter (fun e => String.eqb (FoodEntry.entry_date e) key) entries.
Proof.
  split; [|split].
  - unfold Dashboard.group_by_date. rewrite Grouping.dashboard_fold_lookup. reflexivity.
  - apply Grouping.dashboard_group_present. reflexivity.
  - unfold Analytics.groupedByDate.
    rewrite Grouping.analytics_fold_lookup, Grouping.empty_days_lookup. reflexivity.
Qed.

(** X13. The statistics that the dashboard loads: when the database call
    resolves, the screen shows the new statistics, in which each day of
    the week is the aggregate of the fetched entries dated that day and
    entries dated outside the week count for nothing; when it rejects,
    the error is caught and the screen keeps the statistics it had; in
    both cases the loading flag ends false. *)
Theorem dashboard_loadStats_days (LocalTZA : Z) (now weekStart : Date.t)
    (target_calories maintenance_calories : JS.number)
    (getRange : string -> string -> option (list FoodEntry.t)) (s : Dashboard.screen) :
  match getRange (DateFns.format_yyyy_MM_dd LocalTZA weekStart)
                 (DateFns.format_yyyy_MM_dd LocalTZA (weekStart + 6 * Time.msPerDay)) with
  | Some entries =>
      exists stats,
        Dashboard.loadStats LocalTZA now weekStart target_calories maintenance_calories
          getRange s
        = {| Dashboard.stats := Some stats; Dashboard.loading := false |}
        /\ Stats.dailyData stats
           = map (fun key =>
                    let es := List.filter
                                (fun e => String.eqb (FoodEntry.entry_date e) key) entries in
                    DayData.mk key (WeeklyStats.calories (WeeklyStats.sum_entries es))
                               (WeeklyStats.protein (WeeklyStats.sum_entries es)) es)
                 (Spec.week_keys LocalTZA weekStart)
        /\ Stats.daysLogged stats
           = length (List.filter
                       (fun key => existsb
                                     (fun e => String.eqb (FoodEntry.entry_date e) key)
                                     entries)
                       (Spec.week_keys LocalTZA weekStart))
  | None =>
      Dashboard.loadStats LocalTZA now weekStart target_calories maintenance_calories
        getRange s
      = {| Dashboard.stats := Dashboard.stats s; Dashboard.loading := false |}
  end.
Proof.
  destruct (getRange _ _) as [entries|] eqn:Hrange.
  - eexists. split.
    { unfold Dashboard.loadStats.
      rewrite (WeeklyClaims.getWeeklyStats_resolved LocalTZA now weekStart target_calories
                 maintenance_calories (Dashboard.fetch_grouped getRange)
                 (Dashboard.group_by_date entries));
        [reflexivity|].
      unfold Dashboard.fetch_grouped. rewrite Hrange. reflexivity. }
    rewrite WeeklyStatsFacts.weekly_stats_of_eq. cbv zeta.
    cbn [Stats.dailyData Stats.daysLogged]. split.
    + apply map_ext. intros key. unfold Spec.day_aggregate.
      unfold Dashboard.group_by_date. rewrite Grouping.dashboard_fold_lookup. reflexivity.
    + f_equal. apply List.filter_ext. intros key.
      unfold Dashboard.group_by_date. rewrite Grouping.dashboard_fold_lookup.
      cbn [Spec.entries_on app]. unfold Spec.entries_on. rewrite lookup_empty. cbn [default app].
      clear Hrange. induction entries as [|e entries IH]; [reflexivity|].
      cbn [List.filter existsb].
      destruct (String.eqb (FoodEntry.entry_date e) key); [reflexivity|].
      exact IH.
  - unfold Dashboard.loadStats, WeeklyStats.getWeeklyStats, Dashboard.fetch_grouped.
    rewrite DateFacts.addDays_shift, Hrange. reflexivity.
Qed.

(** ** The coach rows *)

Module CoachFacts.

Import JS Time.

(** A loop that assigns one value per key: a key assigned once holds
    the value of its round. *)
Lemma fold_insert_other {V : Type} (f : Z -> string) (v : Z -> V) (l : list Z) :
  forall (m : gmap string V) (k : string),
    ~ In k (map f l) ->
    fold_left (fun g j => <[f j := v j]> g) l m !! k = m !! k.
Proof.
  induction l as [|j l IH]; intros m k Hk; [reflexivity|].
  cbn [fold_left]. rewrite IH.
  - apply lookup_insert_ne. intros E. apply Hk. left. exact E.
  - intros Hin. apply Hk. right. exact Hin.
Qed.

Lemma fold_insert_lookup {V : Type} (f : Z -> string) (v : Z -> V) (l : list Z) :
  forall (m : gmap string V) (i : Z),
    List.NoDup (map f l) -> In i l ->
    fold_left (fun g j => <[f j := v j]> g) l m !! f i = Some (v i).
Proof.
  induction l as [|j l IH]; intros m i Hnd Hin; [destruct Hin|].
  cbn [fold_left]. cbn [map] in Hnd. inversion Hnd as [|? ? Hnotin Hnd']; subst.
  destruct Hin as [->|Hin].
  - rewrite fold_insert_other by exact Hnotin. apply lookup_insert_eq.
  - apply IH; assumption.
Qed.

Lemma fold_left_pointwise {A B : Type} (f g : A -> B -> A) (l : list B) :
  (forall a b, f a b = g a b) -> forall a, fold_left f l a = fold_left g l a.
Proof.
  intros H. induction l as [|b l IH]; intros a; [reflexivity|].
  cbn [fold_left]. rewrite H. apply IH.
Qed.

Section LocalZone.

Variable LocalTZA : Z.

Lemma coach_entries_lookup weekStart user i :
  List.NoDup (Spec.week_keys LocalTZA weekStart) ->
  In i [0; 1; 2; 3; 4; 5; 6] ->
  Spec.entries_on (Analytics.coach_entries LocalTZA weekStart user)
    (DateFns.format_yyyy_MM_dd LocalTZA (weekStart + i * msPerDay))
  = Spec.coach_day_entries (DateFns.format_yyyy_MM_dd LocalTZA (weekStart + i * msPerDay)) user i.
Proof.
  intros Hnd Hin. unfold Spec.entries_on, Analytics.coach_entries.
  rewrite (fold_left_pointwise (Analytics.coach_day_step LocalTZA weekStart user)
             (fun g j => <[DateFns.format_yyyy_MM_dd LocalTZA (weekStart + j * msPerDay)
                           := Spec.coach_day_entries
                                (DateFns.format_yyyy_MM_dd LocalTZA (weekStart + j * msPerDay))
                                user j]> g)).
  - rewrite (fold_insert_lookup
               (fun j => DateFns.format_yyyy_MM_dd LocalTZA (weekStart + j * msPerDay))
               (fun j => Spec.coach_day_entries
                           (DateFns.format_yyyy_MM_dd LocalTZA (weekStart + j * msPerDay))
                           user j)); [reflexivity|exact Hnd|exact Hin].
  - intros g j. unfold Analytics.coach_day_step, Spec.coach_day_entries. cbv zeta.
    rewrite DateFacts.addDays_shift.
    destruct (match Analytics.column_calories user (j + 1) with
              | Some c => PrimFloat.ltb 0 c
              | None => false
              end); reflexivity.
Qed.

(** The totals of a day rebuilt from its columns. *)
Lemma sum_day_entries key user i c p :
  Analytics.column_calories user (i + 1) = Some c ->
  Analytics.column_protein user (i + 1) = Some p ->
  WeeklyStats.sum_entries (Spec.coach_day_entries key user i)
  = if PrimFloat.ltb 0 c then WeeklyStats.mkTotals c (or_zero (Some p))
    else WeeklyStats.mkTotals 0 0.
Proof.
  intros Hc Hp. unfold Spec.coach_day_entries. rewrite Hc, Hp.
  destruct (PrimFloat.ltb 0 c) eqn:Hpos; [|reflexivity].
  unfold WeeklyStats.sum_entries. cbn [fold_left]. unfold WeeklyStats.add_entry.
  cbn [WeeklyStats.calories WeeklyStats.protein FoodEntry.calories FoodEntry.protein].
  f_equal.
  - unfold or_zero. rewrite (FloatFacts.positive_truthy c Hpos).
    apply FloatFacts.zero_add.
    pose proof (FloatFacts.positive_truthy c Hpos) as Ht. unfold truthy in Ht.
    destruct (PrimFloat.eqb c 0); [discriminate Ht|reflexivity].
  - unfold or_zero. destruct (truthy p) eqn:Ht; [|reflexivity].
    apply FloatFacts.zero_add. unfold truthy in Ht.
    destruct (PrimFloat.eqb p 0); [discriminate Ht|reflexivity].
Qed.

End LocalZone.

End CoachFacts.

Module CoachStats.

Import JS Time.

Section LocalZone.

Variable LocalTZA : Z.

(** The aggregate of a day of a coach row. *)
Lemma coach_day_aggregate weekStart user i c p :
  List.NoDup (Spec.week_keys LocalTZA weekStart) ->
  In i [0; 1; 2; 3; 4; 5; 6] ->
  Analytics.column_calories user (i + 1) = Some c ->
  Analytics.column_protein user (i + 1) = Some p ->
  Spec.day_aggregate (Analytics.coach_entries LocalTZA weekStart user)
    (DateFns.format_yyyy_MM_dd LocalTZA (weekStart + i * msPerDay))
  = let key := DateFns.format_yyyy_MM_dd LocalTZA (weekStart + i * msPerDay) in
    if PrimFloat.ltb 0 c
    then DayData.mk key c (or_zero (Some p))
           [FoodEntry.mk (Analytics.user_id user ++ "-" ++ key)%string key "Daily Total"
              (Some c) (Some p)]
    else DayData.mk key 0 0 [].
Proof.
  intros Hnd Hin Hc Hp. unfold Spec.day_aggregate. cbv zeta.
  rewrite (CoachFacts.coach_entries_lookup LocalTZA weekStart user i Hnd Hin).
  rewrite (CoachFacts.sum_day_entries _ user i c p Hc Hp).
  unfold Spec.coach_day_entries. rewrite Hc, Hp.
  destruct (PrimFloat.ltb 0 c); reflexivity.
Qed.

Lemma coach_day_logged weekStart user i c :
  List.NoDup (Spec.week_keys LocalTZA weekStart) ->
  In i [0; 1; 2; 3; 4; 5; 6] ->
  Analytics.column_calories user (i + 1) = Some c ->
  Spec.logged (Spec.entries_on (Analytics.coach_entries LocalTZA weekStart user)
                 (DateFns.format_yyyy_MM_dd LocalTZA (weekStart + i * msPerDay)))
  = PrimFloat.ltb 0 c.
Proof.
  intros Hnd Hin Hc.
  rewrite (CoachFacts.coach_entries_lookup LocalTZA weekStart user i Hnd Hin).
  unfold Spec.coach_day_entries. rewrite Hc.
  destruct (PrimFloat.ltb 0 c); reflexivity.
Qed.

Lemma length_filter_pointwise {A : Type} (p q : A -> bool) (l : list A) :
  (forall x, In x l -> p x = q x) ->
  length (List.filter p l) = length (List.filter q l).
Proof.
  induction l as [|x l IH]; intros H; [reflexivity|].
  cbn [List.filter]. rewrite (H x (or_introl eq_refl)).
  destruct (q x); cbn [length]; rewrite IH; try reflexivity;
    intros y Hy; apply H; right; exact Hy.
Qed.

Lemma week_day_column user i :
  In i [0; 1; 2; 3; 4; 5; 6] ->
  exists c p, Analytics.column_calories user (i + 1) = Some c
              /\ Analytics.column_protein user (i + 1) = Some p.
Proof.
  intros Hin. cbn [In] in Hin.
  repeat (destruct Hin as [<-|Hin]; [eexists; eexists; split; reflexivity|]).
  destruct Hin.
Qed.

End LocalZone.

End CoachStats.

(** X14. The statistics of a coach row come from its seven day columns alone:
    the day [i] of the week carries the totals of its column when the
    calories column is positive and zero totals otherwise (so a zero, a
    negative or a NaN column counts as a day without food, whatever its
    protein column holds), and the days logged are the positive
    calories columns (years 1 to 9999). *)
Theorem coach_row_statistics (LocalTZA : Z) (now weekStart : Date.t)
    (user : Analytics.CoachAnalyticsRow) :
  1 <= Time.YearOfDay (Spec.local_day LocalTZA weekStart) ->
  Time.YearOfDay (Spec.local_day LocalTZA weekStart + 6) <= 9999 ->
  exists stats,
    Analytics.coach_stats LocalTZA now weekStart user = Some stats
    /\ Stats.dailyData stats
       = map (fun '(i, c, p) =>
                let key := DateFns.format_yyyy_MM_dd LocalTZA
                             (DateFns.addDays LocalTZA weekStart i) in
                if PrimFloat.ltb 0 c
                then DayData.mk key c (JS.or_zero (Some p))
                       [FoodEntry.mk (Analytics.user_id user ++ "-" ++ key)%string key
                          "Daily Total" (Some c) (Some p)]
                else DayData.mk key 0 0 [])
             [(0, Analytics.d1_calories user, Analytics.d1_protein user);
              (1, Analytics.d2_calories user, Analytics.d2_protein user);
              (2, Analytics.d3_calories user, Analytics.d3_protein user);
              (3, Analytics.d4_calories user, Analytics.d4_protein user);
              (4, Analytics.d5_calories user, Analytics.d5_protein user);
              (5, Analytics.d6_calories user, Analytics.d6_protein user);
              (6, Analytics.d7_calories user, Analytics.d7_protein user)]
    /\ Stats.daysLogged stats
       = length (List.filter (PrimFloat.ltb 0)
                   [Analytics.d1_calories user; Analytics.d2_calories user;
                    Analytics.d3_calories user; Analytics.d4_calories user;
                    Analytics.d5_calories user; Analytics.d6_calories user;
                    Analytics.d7_calories user]).
Proof.
  intros Hlo Hhi.
  assert (Hnd : List.NoDup (Spec.week_keys LocalTZA weekStart)).
  { apply (proj2 (NoDup_nth_error _)). intros i j Hi Heq.
    unfold Spec.week_keys in Hi, Heq. rewrite length_map in Hi.
    rewrite !nth_error_map in Heq.
    destruct (nth_error [0; 1; 2; 3; 4; 5; 6] i) as [x|] eqn:Hx;
      [|apply nth_error_None in Hx; lia].
    destruct (nth_error [0; 1; 2; 3; 4; 5; 6] j) as [y|] eqn:Hy; [|discriminate Heq].
    destruct (WeekFacts.week_index i x Hx) as [-> Hi'].
    destruct (WeekFacts.week_index j y Hy) as [-> Hj'].
    cbn [option_map] in Heq. injection Heq as Heq.
    pose proof (AppDate.keys_increase LocalTZA weekStart (Z.of_nat i) (Z.of_nat j)
                  Hlo Hhi ltac:(lia) ltac:(lia)) as Hcmp.
    rewrite Heq, JSFacts.compare_refl in Hcmp.
    symmetry in Hcmp. apply Z.compare_eq in Hcmp. lia. }
  eexists. split.
  { unfold Analytics.coach_stats. apply WeeklyClaims.getWeeklyStats_resolved. reflexivity. }
  rewrite WeeklyStatsFacts.weekly_stats_of_eq. cbv zeta.
  cbn [Stats.dailyData Stats.daysLogged]. split.
  - unfold Spec.week_keys. cbn [map]. rewrite !DateFacts.addDays_shift.
    repeat (apply (f_equal2 cons);
            [apply (CoachStats.coach_day_aggregate LocalTZA weekStart user _ _ _ Hnd);
             [cbn [In]; tauto|reflexivity|reflexivity]|]).
    reflexivity.
  - unfold Spec.week_keys.
    rewrite <- (WeeklyStatsFacts.length_filter_map
                  (fun i => DateFns.format_yyyy_MM_dd LocalTZA (weekStart + i * Time.msPerDay))
                  (fun key => Spec.logged
                                (Spec.entries_on
                                   (Analytics.coach_entries LocalTZA weekStart user) key))).
    change [Analytics.d1_calories user; Analytics.d2_calories user;
            Analytics.d3_calories user; Analytics.d4_calories user;
            Analytics.d5_calories user; Analytics.d6_calories user;
            Analytics.d7_calories user]
      with (map (fun i => default 0%float (Analytics.column_calories user (i + 1)))
                [0; 1; 2; 3; 4; 5; 6]).
    rewrite <- (WeeklyStatsFacts.length_filter_map
                  (fun i => default 0%float (Analytics.column_calories user (i + 1)))
                  (PrimFloat.ltb 0)).
    apply CoachStats.length_filter_pointwise. intros i Hin.
    destruct (CoachStats.week_day_column user i Hin) as (c & p & Hc & _).
    rewrite (CoachStats.coach_day_logged LocalTZA weekStart user i c Hnd Hin Hc), Hc.
    reflexivity.
Qed.

Lemma coach_row_statistics_witness :
  exists stats,
    Analytics.coach_stats 0 Sample.thursday_jan_18_noon Sample.monday_jan_15 Sample.coach_row
    = Some stats
    /\ Stats.daysLogged stats = 2%nat.
Proof.
  destruct (coach_row_statistics 0 Sample.thursday_jan_18_noon Sample.monday_jan_15
              Sample.coach_row) as (stats & Hstats & _ & Hlogged).
  - vm_compute. discriminate.
  - vm_compute. discriminate.
  - exists stats. split; [exact Hstats|]. rewrite Hlogged. reflexivity.
Defined.

(** ** Stepping through the days *)

Module DayNavigation.

Import JS Time.

(** The ten-character dates of two days compare as the days do. *)
Lemma iso_day_compare n1 n2 :
  0 <= YearOfDay n1 <= 9999 -> 0 <= YearOfDay n2 <= 9999 ->
  String.compare (Spec.iso_date (civil_from_days n1)) (Spec.iso_date (civil_from_days n2))
  = (n1 ?= n2).
Proof.
  intros H1 H2. rewrite <- CalendarFacts.civil_from_days_compare.
  pose proof (FormatFacts.civil_month_day_ranges n1) as [Hm1 Hd1].
  pose proof (FormatFacts.civil_month_day_ranges n2) as [Hm2 Hd2].
  unfold YearOfDay in H1, H2.
  destruct (civil_from_days n1) as [[y1 m1] dd1].
  destruct (civil_from_days n2) as [[y2 m2] dd2].
  cbn [fst snd] in *. apply DateStringFacts.iso_date_compare; lia.
Qed.

Lemma iso_day_le n1 n2 :
  0 <= YearOfDay n1 <= 9999 -> 0 <= YearOfDay n2 <= 9999 ->
  str_le (Spec.iso_date (civil_from_days n1)) (Spec.iso_date (civil_from_days n2))
  = (n1 <=? n2).
Proof.
  intros H1 H2. unfold str_le, String.leb, Z.leb.
  rewrite iso_day_compare by assumption. reflexivity.
Qed.

Lemma Day_midnight n : Day (n * msPerDay) = n.
Proof. unfold Day, msPerDay. Z.div_mod_to_equations. lia. Qed.

Section LocalZone.

Variable LocalTZA : Z.

(** The date that a step of [days] days reaches from the date of day
    [n]. *)
Lemma stepped_date n days :
  0 <= YearOfDay n <= 9999 -> 0 <= YearOfDay (n + days) <= 9999 ->
  split_head "T"
    (Date.toISOString
       (Date.setDate LocalTZA (n * msPerDay) (Date.getDate LocalTZA (n * msPerDay) + days)))
  = Spec.iso_date (civil_from_days (n + days)).
Proof.
  intros Hn Hs. rewrite DateFacts.setDate_getDate.
  assert (E : Day (n * msPerDay + days * msPerDay) = n + days).
  { rewrite <- Z.mul_add_distr_r. apply Day_midnight. }
  rewrite FormatFacts.toISOString_date; rewrite E; [reflexivity|exact Hs].
Qed.

End LocalZone.

End DayNavigation.

(** X15. In a zone without clock changes, whose offset from UTC is the
    constant [LocalTZA], the day arrows of the home screen and of the
    track screen work on UTC dates: from the date of day [n] a step of
    [days] days shows the date of day [n + days] when that day is not
    after the UTC day of tomorrow (home screen) or of today (track
    screen), and leaves the date as it is otherwise, whatever the
    constant is (years 0 to 9999). Across a daylight-saving change the
    step can fall a day short; such zones are outside this statement. *)
Theorem navigateDate_steps_whole_days (LocalTZA : Z) (now : Date.t) (n days : Z) :
  0 <= Time.YearOfDay n <= 9999 ->
  0 <= Time.YearOfDay (n + days) <= 9999 ->
  0 <= Time.YearOfDay (Time.Day now) ->
  Time.YearOfDay (Time.Day now + 1) <= 9999 ->
  Home.navigateDate LocalTZA now (Spec.iso_date (Time.civil_from_days n)) days
  = Some (Spec.iso_date (Time.civil_from_days
                           (if n + days <=? Time.Day now + 1 then n + days else n)))
  /\ Track.navigateDate LocalTZA now (Spec.iso_date (Time.civil_from_days n)) days
     = Some (Spec.iso_date (Time.civil_from_days
                              (if n + days <=? Time.Day now then n + days else n))).
Proof.
  intros Hn Hs Hlo Hhi.
  pose proof (CalendarFacts.YearOfDay_mono (Time.Day now) (Time.Day now + 1) ltac:(lia)).
  pose proof (DayNavigation.stepped_date LocalTZA n days Hn Hs) as Hstep.
  pose proof (ParseFacts.parse_iso_date n Hn) as Hparse.
  split.
  - unfold Home.navigateDate. rewrite Hparse. cbn [mbind option_bind]. cbv zeta.
    unfold Home.formatDate. rewrite Hstep.
    rewrite (DateFacts.setDate_getDate LocalTZA now 1).
    rewrite FormatFacts.toISOString_date;
      replace (Time.Day (now + 1 * Time.msPerDay)) with (Time.Day now + 1)
        by (symmetry; apply (DateFacts.Day_shift now 1)); [|lia].
    rewrite DayNavigation.iso_day_le by (assumption || lia).
    destruct (n + days <=? Time.Day now + 1); reflexivity.
  - unfold Track.navigateDate. rewrite Hparse. cbn [mbind option_bind]. cbv zeta.
    unfold Track.formatDate, Track.getTodayDate. rewrite Hstep.
    rewrite (FormatFacts.toISOString_date now) by lia.
    rewrite DayNavigation.iso_day_le by (assumption || lia).
    destruct (n + days <=? Time.Day now); reflexivity.
Qed.

Lemma navigateDate_steps_whole_days_witness :
  Home.navigateDate 0 Sample.thursday_jan_18_noon
    (Spec.iso_date (Time.civil_from_days 19740)) 1
  = Some (Spec.iso_date (Time.civil_from_days (if 19740 + 1 <=? 19740 + 1 then 19740 + 1 else 19740)))
  /\ Track.navigateDate 0 Sample.thursday_jan_18_noon
       (Spec.iso_date (Time.civil_from_days 19740)) 1
     = Some (Spec.iso_date (Time.civil_from_days 19740)).
Proof.
  apply (navigateDate_steps_whole_days 0 Sample.thursday_jan_18_noon 19740 1);
    vm_compute; try split; discriminate.
Defined.

(** ** The labels and colours of the screens *)

Module DisplayFacts.

Import JS Time.

(** The local weekday of midnight UTC of day [n]. *)
Lemma getDay_of_midnight (LocalTZA n : Z) :
  - msPerDay <= LocalTZA < msPerDay ->
  Date.getDay LocalTZA (n * msPerDay)
  = WeekDayOfDay (if LocalTZA <? 0 then n - 1 else n).
Proof.
  intros Htz. unfold Date.getDay, Date.LocalTime. f_equal.
  unfold Day, msPerDay in *.
  destruct (Z.ltb_spec LocalTZA 0); Z.div_mod_to_equations; lia.
Qed.

(** Whatever [x] is, [Math.min(x, 100)] is not above 100. *)
Lemma min_100 (x : number) : PrimFloat.ltb 100 (Math_min x 100) = false.
Proof.
  unfold Math_min.
  destruct (PrimFloat.is_nan x || PrimFloat.is_nan 100); [reflexivity|].
  destruct (PrimFloat.ltb 100 x) eqn:H100; [reflexivity|].
  destruct (PrimFloat.ltb x 100); [exact H100|].
  destruct (PrimFloat.ltb (1 / x) 0); [exact H100|reflexivity].
Qed.

End DisplayFacts.

(** X16. The weekly chart labels the bar of a date with the weekday of that
    date in zones at or east of UTC, and with the weekday before it in
    zones west of UTC: the date string is read as midnight UTC and its
    weekday is taken in local time (years 0 to 9999). *)
Theorem getDayName_weekday (LocalTZA n : Z) :
  - Time.msPerDay <= LocalTZA < Time.msPerDay ->
  0 <= Time.YearOfDay n <= 9999 ->
  WeeklyChart.getDayName LocalTZA (Spec.iso_date (Time.civil_from_days n))
  = Date.weekday_short (Time.WeekDayOfDay (if LocalTZA <? 0 then n - 1 else n)).
Proof.
  intros Htz Hy. unfold WeeklyChart.getDayName.
  rewrite ParseFacts.parse_iso_date by exact Hy.
  rewrite DisplayFacts.getDay_of_midnight by exact Htz. reflexivity.
Qed.

Lemma getDayName_weekday_witness :
  WeeklyChart.getDayName (-18000000) (Spec.iso_date (Time.civil_from_days 19737))
  = Date.weekday_short (Time.WeekDayOfDay (if -18000000 <? 0 then 19737 - 1 else 19737)).
Proof.
  apply (getDayName_weekday (-18000000) 19737).
  - unfold Time.msPerDay. lia.
  - vm_compute. split; discriminate.
Defined.

(** X17. The donut charts of the totals widget are never filled beyond 100
    percent, whatever the entries and the targets are. *)
Theorem totals_percentages_capped (entries : list FoodEntry.t)
    (targetCalories targetProtein : JS.number) :
  PrimFloat.ltb 100 (Totals.caloriePercentage entries targetCalories) = false
  /\ PrimFloat.ltb 100 (Totals.proteinPercentage entries targetProtein) = false.
Proof.
  unfold Totals.caloriePercentage, Totals.proteinPercentage. split.
  - destruct (PrimFloat.ltb 0 targetCalories); [apply DisplayFacts.min_100|reflexivity].
  - destruct (PrimFloat.ltb 0 targetProtein); [apply DisplayFacts.min_100|reflexivity].
Qed.

(** X18. The protein colour is the same tier on the three screens whenever
    the protein target is not zero: the totals widget, the analytics
    grid and the weekly chart apply the same bands to the same
    percentage, and each of them shows a colour of its palette. *)
Theorem protein_tier_on_three_screens (entries : list FoodEntry.t) (target : JS.number)
    (day : DayData.t) :
  PrimFloat.eqb target 0 = false ->
  DayData.protein day = WeeklyStats.protein (WeeklyStats.sum_entries entries) ->
  Tier.of_color (Totals.getProteinColor entries target)
  = Tier.of_color (Analytics.getProteinColor
                     (WeeklyStats.protein (WeeklyStats.sum_entries entries)) target)
  /\ Tier.of_color (WeeklyChart.proteinFrontColor target day)
     = Tier.of_color (Analytics.getProteinColor
                        (WeeklyStats.protein (WeeklyStats.sum_entries entries)) target)
  /\ Tier.of_color (Analytics.getProteinColor
                      (WeeklyStats.protein (WeeklyStats.sum_entries entries)) target)
     <> None.
Proof.
  intros Ht Hday.
  unfold Totals.getProteinColor, WeeklyChart.proteinFrontColor, Analytics.getProteinColor,
    Totals.totals.
  cbv zeta. rewrite Hday, Ht.
  set (protein := WeeklyStats.protein (WeeklyStats.sum_entries entries)).
  destruct (PrimFloat.eqb protein 0); [repeat split; discriminate|].
  destruct (PrimFloat.leb ((target - protein) / target * 100) 10);
    [repeat split; discriminate|].
  destruct (PrimFloat.leb ((target - protein) / target * 100) 20);
    [repeat split; discriminate|].
  destruct (PrimFloat.leb ((target - protein) / target * 100) 30);
    repeat split; discriminate.
Qed.

Lemma protein_tier_on_three_screens_witness :
  Tier.of_color (Totals.getProteinColor [Sample.meal "2024-01-15" 1800 100] 150)
  = Tier.of_color
      (Analytics.getProteinColor
         (WeeklyStats.protein (WeeklyStats.sum_entries [Sample.meal "2024-01-15" 1800 100]))
         150)
  /\ Tier.of_color (WeeklyChart.proteinFrontColor 150 (DayData.mk "2024-01-15" 1800 100 []))
     = Tier.of_color
         (Analytics.getProteinColor
            (WeeklyStats.protein
               (WeeklyStats.sum_entries [Sample.meal "2024-01-15" 1800 100])) 150)
  /\ Tier.of_color
       (Analytics.getProteinColor
          (WeeklyStats.protein (WeeklyStats.sum_entries [Sample.meal "2024-01-15" 1800 100]))
          150)
     <> None.
Proof.
  apply (protein_tier_on_three_screens [Sample.meal "2024-01-15" 1800 100] 150
           (DayData.mk "2024-01-15" 1800 100 [])); reflexivity.
Defined.

(** X19. The dashboard's deficit card and the analytics grid colour a daily
    deficit alike, except for a user whose target equals the maintenance
    value and who is in deficit: the card is green, the grid red. *)
Theorem deficit_colour_on_two_screens (Number_toString : JS.number -> string)
    (target maintenance daily : JS.number) :
  Dashboard.deficitColor (Dashboard.deficit_card_of target maintenance daily)
  = (if PrimFloat.eqb target maintenance && PrimFloat.ltb daily 0 then "text-green-700"
     else snd (Analytics.getDeficitDisplay Number_toString daily target maintenance))
  /\ (PrimFloat.eqb target maintenance && PrimFloat.ltb daily 0 = true ->
      snd (Analytics.getDeficitDisplay Number_toString daily target maintenance)
      = "text-red-700").
Proof.
  unfold Dashboard.deficit_card_of, Analytics.getDeficitDisplay. cbv zeta.
  destruct (PrimFloat.ltb daily 0).
  - destruct (PrimFloat.eqb target maintenance) eqn:He.
    + rewrite (FloatFacts.eqb_not_ltb target maintenance He).
      split; [reflexivity|intros _; reflexivity].
    + destruct (PrimFloat.ltb target maintenance);
        (split; [reflexivity|intros H; discriminate H]).
  - rewrite andb_false_r. split; [|intros H; discriminate H].
    destruct (PrimFloat.ltb 0 daily); [|reflexivity].
    destruct (PrimFloat.ltb maintenance target); reflexivity.
Qed.

Lemma deficit_colour_on_two_screens_witness :
  snd (Analytics.getDeficitDisplay (fun _ => "300") (-300) 2000 2000) = "text-red-700".
Proof.
  apply (deficit_colour_on_two_screens (fun _ => "300") 2000 2000 (-300)). reflexivity.
Defined.

Module ZeroTarget.

Import JS.

(** The percentage below a target of zero, for a positive value, is
    minus infinity: it falls in the first band. *)
Lemma percent_below_zero_target (p : number) :
  PrimFloat.ltb 0 p = true ->
  PrimFloat.leb (((0 - p) / 0) * 100) 10 = true.
Proof.
  intros H. rewrite leb_spec, mul_spec, div_spec, sub_spec.
  rewrite ltb_spec in H. change (Prim2SF 0) with (S754_zero false) in *.
  destruct (Prim2SF p) as [s|s| |s m e]; try discriminate H;
    destruct s; try discriminate H; reflexivity.
Qed.

End ZeroTarget.

(** X20. With a protein target of zero and a day with any positive amount
    of protein, the three screens part: the analytics grid shows the
    protein figure of a day with calories in green (the percentage below
    the target is minus infinity), the weekly chart renders no protein
    chart at all, and the totals widget shows gray; only the widget
    tests the target before it divides by it. *)
Theorem zero_protein_target (entries : list FoodEntry.t) (user : Analytics.CoachAnalyticsRow)
    (cal pro : JS.number) (dailyData : list DayData.t) :
  Analytics.target_protein user = 0%float ->
  PrimFloat.eqb cal 0 = false ->
  PrimFloat.ltb 0 pro = true ->
  PrimFloat.ltb 0 (WeeklyStats.protein (WeeklyStats.sum_entries entries)) = true ->
  Analytics.dayCell user cal pro
  = Some (Analytics.getCaloriesColor cal (Analytics.target_calories user)
            (Analytics.maintenance_calories user),
          "bg-green-100 text-green-700")
  /\ WeeklyChart.proteinChart 0 dailyData = None
  /\ Totals.getProteinColor entries 0 = "#9CA3AF".
Proof.
  intros Htarget Hcal Hpro Hpos. split; [|split].
  - unfold Analytics.dayCell, Analytics.getProteinColor. cbv zeta.
    rewrite Hcal, Htarget. rewrite (JSFacts.positive_not_zero _ Hpro).
    rewrite (ZeroTarget.percent_below_zero_target _ Hpro). reflexivity.
  - unfold WeeklyChart.proteinChart. destruct dailyData; reflexivity.
  - unfold Totals.getProteinColor, Totals.totals. cbv zeta.
    rewrite (JSFacts.positive_not_zero _ Hpos). reflexivity.
Qed.

Lemma zero_protein_target_witness :
  Analytics.dayCell (Analytics.mkRow "u1" 2000 2500 0 1800 100 0 0 0 0 0 0 0 0 0 0 0 0)
    1800 100
  = Some (Analytics.getCaloriesColor 1800 2000 2500, "bg-green-100 text-green-700")
  /\ WeeklyChart.proteinChart 0 [DayData.mk "2024-01-15" 1800 100 []] = None
  /\ Totals.getProteinColor [Sample.meal "2024-01-15" 1800 100] 0 = "#9CA3AF".
Proof.
  apply (zero_protein_target [Sample.meal "2024-01-15" 1800 100]
           (Analytics.mkRow "u1" 2000 2500 0 1800 100 0 0 0 0 0 0 0 0 0 0 0 0)
           1800 100 [DayData.mk "2024-01-15" 1800 100 []]); reflexivity.
Defined.

(** ** The counters of a week *)

Module WeekCounts.

Import JS Time.

Lemma length_filter_le {A B : Type} (f : A -> B) (p : B -> bool) (q : A -> bool)
    (l : list A) :
  (forall x, p (f x) = true -> q x = true) ->
  (length (List.filter p (map f l)) <= length (List.filter q l))%nat.
Proof.
  intros H. induction l as [|x l IH]; [apply Nat.le_refl|].
  cbn [map List.filter].
  destruct (p (f x)) eqn:Hp.
  - rewrite (H x Hp). cbn [length]. apply le_n_S. exact IH.
  - destruct (q x); cbn [length]; [apply Nat.le_le_succ_r|]; exact IH.
Qed.

Lemma length_filter_bound {A : Type} (q : A -> bool) (l : list A) :
  (length (List.filter q l) <= length l)%nat.
Proof.
  induction l as [|x l IH]; [apply Nat.le_refl|].
  cbn [List.filter]. destruct (q x); cbn [length];
    [apply le_n_S|apply Nat.le_le_succ_r]; exact IH.
Qed.

(** A day with positive calories has an entry. *)
Lemma positive_day_logged (allData : gmap string (list FoodEntry.t)) (key : string) :
  PrimFloat.ltb 0 (DayData.calories (Spec.day_aggregate allData key)) = true ->
  Spec.logged (Spec.entries_on allData key) = true.
Proof.
  unfold Spec.day_aggregate. cbn [DayData.calories].
  destruct (Spec.entries_on allData key); [intros H; discriminate H|reflexivity].
Qed.

End WeekCounts.

(** X21. The counters of a week: [getWeeklyStats] returns seven days, the
    days logged are at most seven, and the days that enter the averages
    are at most the days logged, since a day with positive calories has
    an entry. *)
Theorem getWeeklyStats_counters (LocalTZA : Z) (now weekStart : Date.t)
    (targetCalories maintenanceCalories : JS.number)
    (getDataForRange : string -> string -> option (gmap string (list FoodEntry.t)))
    (allData : gmap string (list FoodEntry.t)) :
  getDataForRange (DateFns.format_yyyy_MM_dd LocalTZA weekStart)
                  (DateFns.format_yyyy_MM_dd LocalTZA (weekStart + 6 * Time.msPerDay))
    = Some allData ->
  exists stats,
    WeeklyStats.getWeeklyStats LocalTZA now weekStart targetCalories maintenanceCalories
      getDataForRange = Some stats
    /\ length (Stats.dailyData stats) = 7%nat
    /\ (length (WeeklyStats.completedDaysWithFood (DateHelpers.getAppDate LocalTZA now)
                  (Stats.dailyData stats))
        <= Stats.daysLogged stats)%nat
    /\ (Stats.daysLogged stats <= 7)%nat.
Proof.
  intros Hfetch. eexists. split.
  { apply WeeklyClaims.getWeeklyStats_resolved. exact Hfetch. }
  rewrite WeeklyStatsFacts.weekly_stats_of_eq. cbv zeta.
  cbn [Stats.dailyData Stats.daysLogged]. split; [|split].
  - rewrite length_map. reflexivity.
  - unfold WeeklyStats.completedDaysWithFood.
    apply (WeekCounts.length_filter_le (Spec.day_aggregate allData)
             (fun day => JS.str_lt (DayData.date day) (DateHelpers.getAppDate LocalTZA now)
                         && PrimFloat.ltb 0 (DayData.calories day))
             (fun key => Spec.logged (Spec.entries_on allData key))).
    intros key H. apply andb_prop in H. destruct H as [_ H].
    apply WeekCounts.positive_day_logged. exact H.
  - apply (Nat.le_trans _ (length (Spec.week_keys LocalTZA weekStart)));
      [apply WeekCounts.length_filter_bound|].
    unfold Spec.week_keys. rewrite length_map. apply Nat.le_refl.
Qed.

Lemma getWeeklyStats_counters_witness :
  exists stats,
    WeeklyStats.getWeeklyStats 0 Sample.thursday_jan_18_noon Sample.monday_jan_15 2000 2000
      (fun _ _ => Some Sample.week_of_jan_15) = Some stats
    /\ length (Stats.dailyData stats) = 7%nat
    /\ (length (WeeklyStats.completedDaysWithFood
                  (DateHelpers.getAppDate 0 Sample.thursday_jan_18_noon)
                  (Stats.dailyData stats))
        <= Stats.daysLogged stats)%nat
    /\ (Stats.daysLogged stats <= 7)%nat.
Proof.
  apply (getWeeklyStats_counters 0 Sample.thursday_jan_18_noon Sample.monday_jan_15
           2000 2000 (fun _ _ => Some Sample.week_of_jan_15) Sample.week_of_jan_15 eq_refl).
Defined.

(** ** The current week of the selectors *)

Module CurrentWeek.

Import JS Time.

Section LocalZone.

Variable LocalTZA : Z.

(** A forward step from a week is refused when the week reached is
    after the current one. *)
Lemma forward_refused current direction :
  0 < direction ->
  1 <= YearOfDay (Spec.local_day LocalTZA current) ->
  YearOfDay (Spec.local_day LocalTZA current + direction * 7) <= 9999 ->
  str_gt (DateFns.format_yyyy_MM_dd LocalTZA
            (Date.setDate LocalTZA current (Date.getDate LocalTZA current + direction * 7)))
         (DateFns.format_yyyy_MM_dd LocalTZA current)
  = true.
Proof.
  intros Hdir Hlo Hhi. rewrite WeekSelector.step_target.
  pose proof (CalendarFacts.YearOfDay_mono (Spec.local_day LocalTZA current)
                (Spec.local_day LocalTZA current + direction * 7) ltac:(lia)).
  rewrite WeekSelector.str_gt_false_le.
  - rewrite AppDate.local_day_shift. apply Z.ltb_lt. lia.
  - rewrite AppDate.local_day_shift. lia.
  - lia.
Qed.

End LocalZone.

End CurrentWeek.

(** X22. On both screens the current week is the last one: after
    [goToCurrentWeek] the selected week is reported as the current week,
    and every forward step from it is refused (years 1 to 9999). *)
Theorem current_week_is_the_last (LocalTZA : Z) (now current : Date.t) (direction : Z) :
  0 < direction ->
  1 <= Time.YearOfDay (Spec.local_day LocalTZA current) ->
  Time.YearOfDay (Spec.local_day LocalTZA current + direction * 7) <= 9999 ->
  (Analytics.goToCurrentWeek LocalTZA now = Some current ->
   Analytics.isCurrentWeek LocalTZA now current = Some true
   /\ Analytics.navigateWeek LocalTZA now current direction = Some current)
  /\ (Dashboard.goToCurrentWeek LocalTZA now = Some current ->
      Dashboard.isCurrentWeek LocalTZA now current = Some true
      /\ Dashboard.navigateWeek LocalTZA now current direction = Some current).
Proof.
  intros Hdir Hlo Hhi.
  pose proof (CurrentWeek.forward_refused LocalTZA current direction Hdir Hlo Hhi) as Hgt.
  split.
  - unfold Analytics.goToCurrentWeek, Analytics.isCurrentWeek, Analytics.navigateWeek.
    intros ->. cbn [mbind option_bind]. rewrite String.eqb_refl.
    destruct (Z.ltb_spec 0 direction); [|lia]. rewrite Hgt. split; reflexivity.
  - unfold Dashboard.goToCurrentWeek, Dashboard.isCurrentWeek, Dashboard.navigateWeek.
    intros ->. cbn [mbind option_bind]. rewrite String.eqb_refl.
    destruct (Z.ltb_spec 0 direction); [|lia]. rewrite Hgt. split; reflexivity.
Qed.

Lemma current_week_is_the_last_witness :
  Analytics.isCurrentWeek 0 Sample.thursday_jan_18_noon Sample.monday_jan_15 = Some true
  /\ Analytics.navigateWeek 0 Sample.thursday_jan_18_noon Sample.monday_jan_15 1
     = Some Sample.monday_jan_15.
Proof.
  destruct (current_week_is_the_last 0 Sample.thursday_jan_18_noon Sample.monday_jan_15 1)
    as [H _].
  - lia.
  - vm_compute. discriminate.
  - vm_compute. discriminate.
  - apply H. vm_compute. reflexivity.
Defined.

Module PaletteFacts.

Import JS.

Ltac split_tests :=
  repeat match goal with
         | |- context [if ?b then _ else _] => destruct b
         end.

Lemma calorie_palette (entries : list FoodEntry.t) (targetCalories : number)
    (maintenanceCalories : option number) :
  In (Totals.getCalorieColor entries targetCalories maintenanceCalories)
     ["#10A37F"; "#F59E0B"; "#F97316"; "#EF4444"; "#9CA3AF"].
Proof.
  unfold Totals.getCalorieColor. cbv zeta.
  destruct maintenanceCalories as [maintenance|]; split_tests; cbn [In]; tauto.
Qed.

Lemma protein_palette (entries : list FoodEntry.t) (targetProtein : number) :
  In (Totals.getProteinColor entries targetProtein)
     ["#10A37F"; "#F59E0B"; "#F97316"; "#EF4444"; "#9CA3AF"].
Proof.
  unfold Totals.getProteinColor. cbv zeta. split_tests; cbn [In]; tauto.
Qed.

Lemma gradient_gray (color : string) :
  In color ["#10A37F"; "#F59E0B"; "#F97316"; "#EF4444"; "#9CA3AF"] ->
  (Totals.gradient_of color = "bg-gray-50" <-> color = "#9CA3AF").
Proof.
  cbn [In]. intros [<-|[<-|[<-|[<-|[<-|[]]]]]]; split; intros H;
    try reflexivity; discriminate H.
Qed.

End PaletteFacts.

(** X23. The totals widget always shows one of its five colours, and the
    card behind a total is gray exactly when its colour is the gray
    of a total without data: the fall-through of the gradient is
    reached by no other colour. *)
Theorem totals_gradient_follows_colour (entries : list FoodEntry.t)
    (targetCalories targetProtein : JS.number) (maintenanceCalories : option JS.number) :
  (Totals.getCalorieGradient entries targetCalories maintenanceCalories = "bg-gray-50"
   <-> Totals.getCalorieColor entries targetCalories maintenanceCalories = "#9CA3AF")
  /\ (Totals.getProteinGradient entries targetProtein = "bg-gray-50"
      <-> Totals.getProteinColor entries targetProtein = "#9CA3AF")
  /\ Tier.of_color (Totals.getCalorieColor entries targetCalories maintenanceCalories)
     <> None
  /\ Tier.of_color (Totals.getProteinColor entries targetProtein) <> None.
Proof.
  pose proof (PaletteFacts.calorie_palette entries targetCalories maintenanceCalories) as Hc.
  pose proof (PaletteFacts.protein_palette entries targetProtein) as Hp.
  split; [|split; [|split]].
  - apply PaletteFacts.gradient_gray. exact Hc.
  - apply PaletteFacts.gradient_gray. exact Hp.
  - revert Hc. generalize (Totals.getCalorieColor entries targetCalories maintenanceCalories).
    cbn [In]. intros c [<-|[<-|[<-|[<-|[<-|[]]]]]]; discriminate.
  - revert Hp. generalize (Totals.getProteinColor entries targetProtein).
    cbn [In]. intros c [<-|[<-|[<-|[<-|[<-|[]]]]]]; discriminate.
Qed.

Module UtcToday.

Import JS Time.

(** The screens' own [getTodayDate] reads back as midnight UTC of the
    UTC day. *)
Lemma parse_utc_today now :
  0 <= YearOfDay (Day now) <= 9999 ->
  Date.parse (split_head "T" (Date.toISOString now)) = Some (Day now * msPerDay).
Proof.
  intros Hy. rewrite FormatFacts.toISOString_date by exact Hy.
  apply ParseFacts.parse_iso_date. exact Hy.
Qed.

End UtcToday.

(** X24. The dashboard's current week is taken from the UTC date, without
    the 3 AM cutoff: it is the week, in local time, of midnight UTC of
    the UTC day, that is the week of the UTC date at or east of UTC and
    the week of the day before it west of UTC (years 0 to 9999). *)
Theorem dashboard_current_week_start (LocalTZA : Z) (now : Date.t) :
  - Time.msPerDay <= LocalTZA < Time.msPerDay ->
  0 <= Time.YearOfDay (Time.Day now) <= 9999 ->
  Dashboard.getTodayDate now = Spec.iso_date (Time.civil_from_days (Time.Day now))
  /\ Dashboard.currentWeekStart LocalTZA now
     = Some (DateFns.startOfWeek LocalTZA (Time.Day now * Time.msPerDay) 1)
  /\ Spec.local_day LocalTZA (Time.Day now * Time.msPerDay)
     = (if LocalTZA <? 0 then Time.Day now - 1 else Time.Day now).
Proof.
  intros Htz Hy. split; [|split].
  - apply FormatFacts.toISOString_date. exact Hy.
  - unfold Dashboard.currentWeekStart, Dashboard.getTodayDate, WeeklyStats.getWeekStart.
    rewrite UtcToday.parse_utc_today by exact Hy. reflexivity.
  - unfold Spec.local_day, Time.Day, Time.msPerDay in *.
    destruct (Z.ltb_spec LocalTZA 0); Z.div_mod_to_equations; lia.
Qed.

Lemma dashboard_current_week_start_witness :
  Dashboard.getTodayDate Sample.thursday_jan_18_noon
  = Spec.iso_date (Time.civil_from_days (Time.Day Sample.thursday_jan_18_noon))
  /\ Dashboard.currentWeekStart (-18000000) Sample.thursday_jan_18_noon
     = Some (DateFns.startOfWeek (-18000000)
               (Time.Day Sample.thursday_jan_18_noon * Time.msPerDay) 1)
  /\ Spec.local_day (-18000000) (Time.Day Sample.thursday_jan_18_noon * Time.msPerDay)
     = (if -18000000 <? 0 then Time.Day Sample.thursday_jan_18_noon - 1
        else Time.Day Sample.thursday_jan_18_noon).
Proof.
  apply (dashboard_current_week_start (-18000000) Sample.thursday_jan_18_noon).
  - unfold Time.msPerDay. lia.
  - vm_compute. split; discriminate.
Defined.

(** ** The label of the selected date *)

Module DisplayDate.

Import JS Time.

(** The ten-character dates of two days are the same string exactly
    when the days are the same. *)
Lemma iso_day_eqb n1 n2 :
  0 <= YearOfDay n1 <= 9999 -> 0 <= YearOfDay n2 <= 9999 ->
  String.eqb (Spec.iso_date (civil_from_days n1)) (Spec.iso_date (civil_from_days n2))
  = (n1 =? n2).
Proof.
  intros H1 H2. pose proof (DayNavigation.iso_day_compare n1 n2 H1 H2) as Hc.
  destruct (String.eqb_spec (Spec.iso_date (civil_from_days n1))
                            (Spec.iso_date (civil_from_days n2))) as [E|E];
    destruct (Z.eqb_spec n1 n2) as [En|En]; try reflexivity; exfalso.
  - rewrite E, JSFacts.compare_refl in Hc. symmetry in Hc.
    apply Z.compare_eq_iff in Hc. contradiction.
  - apply E. rewrite En. reflexivity.
Qed.

Section LocalZone.

Variable LocalTZA : Z.

(** The UTC day of local midnight of day [n], moved by [k] days. *)
Lemma Day_of_local_midnight n k :
  - msPerDay < LocalTZA < msPerDay ->
  Day (Date.setDate LocalTZA (Date.UTC LocalTZA (n * msPerDay))
         (Date.getDate LocalTZA (Date.UTC LocalTZA (n * msPerDay)) + k))
  = n + k - (if 0 <? LocalTZA then 1 else 0).
Proof.
  intros Htz. rewrite DateFacts.setDate_getDate.
  unfold Date.UTC, Day, msPerDay in *.
  destruct (Z.ltb_spec 0 LocalTZA); Z.div_mod_to_equations; lia.
Qed.

Lemma formatDate_of_local_midnight n k :
  - msPerDay < LocalTZA < msPerDay ->
  0 <= YearOfDay (n + k - (if 0 <? LocalTZA then 1 else 0)) <= 9999 ->
  split_head "T"
    (Date.toISOString
       (Date.setDate LocalTZA (Date.UTC LocalTZA (n * msPerDay))
          (Date.getDate LocalTZA (Date.UTC LocalTZA (n * msPerDay)) + k)))
  = Spec.iso_date (civil_from_days (n + k - (if 0 <? LocalTZA then 1 else 0))).
Proof.
  intros Htz Hy.
  rewrite FormatFacts.toISOString_date; rewrite Day_of_local_midnight by exact Htz;
    [reflexivity|exact Hy].
Qed.

End LocalZone.

End DisplayDate.

(** X25. The label of the selected date on the home screen and on the track
    screen: "Today" for the UTC date of the instant; at or west of UTC,
    "Yesterday" and (home screen) "Tomorrow" for the dates next to it;
    east of UTC, "Yesterday" for the date two days before it and
    "Tomorrow" for no date, because local midnight of a date falls on
    the UTC date before it; every other date is written out in full
    (years 0 to 9999). *)
Theorem formatDisplayDate_labels (LocalTZA : Z) (toLocaleDateString : Date.t -> string)
    (now : Date.t) (n : Z) :
  - Time.msPerDay < LocalTZA < Time.msPerDay ->
  0 <= Time.YearOfDay n <= 9999 ->
  0 <= Time.YearOfDay (Time.Day now - 2) ->
  Time.YearOfDay (Time.Day now + 1) <= 9999 ->
  let east := if 0 <? LocalTZA then 1 else 0 in
  let long := toLocaleDateString (n * Time.msPerDay - LocalTZA) in
  Home.formatDisplayDate LocalTZA toLocaleDateString now
    (Spec.iso_date (Time.civil_from_days n))
  = Some (if n =? Time.Day now then "Today"
          else if n =? Time.Day now - 1 - east then "Yesterday"
          else if n =? Time.Day now + 1 - east then "Tomorrow"
          else long)
  /\ Track.formatDisplayDate LocalTZA toLocaleDateString now
       (Spec.iso_date (Time.civil_from_days n))
     = Some (if n =? Time.Day now then "Today"
             else if n =? Time.Day now - 1 - east then "Yesterday"
             else long).
Proof.
  intros Htz Hn Hlo Hhi east long.
  pose proof (CalendarFacts.YearOfDay_mono (Time.Day now - 2) (Time.Day now - 1) ltac:(lia)).
  pose proof (CalendarFacts.YearOfDay_mono (Time.Day now - 1) (Time.Day now) ltac:(lia)).
  pose proof (CalendarFacts.YearOfDay_mono (Time.Day now) (Time.Day now + 1) ltac:(lia)).
  assert (Htoday : 0 <= Time.YearOfDay (Time.Day now) <= 9999) by lia.
  assert (Heast : east = 0 \/ east = 1) by (subst east; destruct (0 <? LocalTZA); lia).
  assert (Hy : 0 <= Time.YearOfDay (Time.Day now + -1 - east) <= 9999).
  { destruct Heast as [-> | ->].
    - replace (Time.Day now + -1 - 0) with (Time.Day now - 1) by lia. lia.
    - replace (Time.Day now + -1 - 1) with (Time.Day now - 2) by lia. lia. }
  assert (Ht : 0 <= Time.YearOfDay (Time.Day now + 1 - east) <= 9999).
  { destruct Heast as [-> | ->].
    - replace (Time.Day now + 1 - 0) with (Time.Day now + 1) by lia. lia.
    - replace (Time.Day now + 1 - 1) with (Time.Day now) by lia. lia. }
  pose proof (DisplayDate.formatDate_of_local_midnight LocalTZA (Time.Day now) (-1) Htz Hy)
    as Hyesterday.
  pose proof (DisplayDate.formatDate_of_local_midnight LocalTZA (Time.Day now) 1 Htz Ht)
    as Htomorrow.
  fold east in Hyesterday, Htomorrow.
  split.
  - unfold Home.formatDisplayDate, Home.getTodayDate, Home.formatDate,
      Date.parse_local_midnight.
    rewrite (FormatFacts.toISOString_date now) by exact Htoday.
    rewrite !ParseFacts.parse_iso_date by assumption.
    cbn [mbind option_bind]. cbv zeta.
    rewrite DisplayDate.iso_day_eqb by assumption.
    destruct (n =? Time.Day now); [reflexivity|].
    change (Date.getDate LocalTZA (Date.UTC LocalTZA (Time.Day now * Time.msPerDay)) - 1)
      with (Date.getDate LocalTZA (Date.UTC LocalTZA (Time.Day now * Time.msPerDay)) + -1).
    rewrite Hyesterday, Htomorrow.
    rewrite !DisplayDate.iso_day_eqb by assumption.
    replace (Time.Day now + -1 - east) with (Time.Day now - 1 - east) by lia.
    destruct (n =? Time.Day now - 1 - east); [reflexivity|].
    destruct (n =? Time.Day now + 1 - east); reflexivity.
  - unfold Track.formatDisplayDate, Track.getTodayDate, Track.formatDate,
      Date.parse_local_midnight.
    rewrite (FormatFacts.toISOString_date now) by exact Htoday.
    rewrite !ParseFacts.parse_iso_date by assumption.
    cbn [mbind option_bind]. cbv zeta.
    rewrite DisplayDate.iso_day_eqb by assumption.
    destruct (n =? Time.Day now); [reflexivity|].
    change (Date.getDate LocalTZA (Date.UTC LocalTZA (Time.Day now * Time.msPerDay)) - 1)
      with (Date.getDate LocalTZA (Date.UTC LocalTZA (Time.Day now * Time.msPerDay)) + -1).
    rewrite Hyesterday.
    rewrite !DisplayDate.iso_day_eqb by assumption.
    replace (Time.Day now + -1 - east) with (Time.Day now - 1 - east) by lia.
    destruct (n =? Time.Day now - 1 - east); reflexivity.
Qed.

Lemma formatDisplayDate_labels_witness :
  Home.formatDisplayDate 3600000 (fun _ => "Tue, Jan 16, 2024") Sample.thursday_jan_18_noon
    (Spec.iso_date (Time.civil_from_days 19738))
  = Some "Yesterday".
Proof.
  destruct (formatDisplayDate_labels 3600000 (fun _ => "Tue, Jan 16, 2024")
              Sample.thursday_jan_18_noon 19738) as [H _].
  - unfold Time.msPerDay. lia.
  - vm_compute. split; discriminate.
  - vm_compute. discriminate.
  - vm_compute. discriminate.
  - exact H.
Defined.
